(** * DHL inventory dashboard: the dataset builder and the filter/report engine

    A shallow embedding of [Deployement/app.py].  The program is a linear
    pandas pipeline ([build_dataset]) followed by a boolean-mask filter and
    a handful of group-by reports.  Data frames are modelled column-wise, as
    pandas stores them: an ordered list of labelled columns, each column with
    one dtype.  Missing values ([NaN], [None], [NaT]) are [None]; numeric
    cells are exact rationals.  Python exceptions are values of [exn], and
    code that can raise lives in the [result] monad. *)

From Stdlib Require Import List String Ascii Bool Arith ZArith QArith Qround.
From Stdlib Require Import Lia Permutation Sorted DecimalString.
Import ListNotations.

Set Implicit Arguments.

Local Open Scope string_scope.
Local Open Scope list_scope.

(** ** Exceptions and the error monad *)

Inductive exn : Type :=
| NameError (name : string)      (* a global name that no import binds *)
| ConnectionError                (* requests: the transfer did not complete *)
| HTTPError (status : Z)         (* response.raise_for_status() *)
| ArrowInvalid                   (* pd.read_parquet: not a parquet file *)
| KeyError (key : string)        (* df[key] with no such label *)
| LookupError                    (* positional/label lookup in an empty Series *)
| AttributeError                 (* .dt on something that is not a Series *)
| TypeError
| ValueError.

Inductive result (A : Type) : Type :=
| Ok (a : A)
| Raise (e : exn).

Arguments Ok {A} a.
Arguments Raise {A} e.

Definition bind {A B : Type} (r : result A) (k : A -> result B) : result B :=
  match r with
  | Ok a => k a
  | Raise e => Raise e
  end.

Notation "x <- r ;; k" := (bind r (fun x => k))
  (at level 61, r at next level, right associativity).

(** ** Columns and frames *)

(** A column carries its dtype.  [NumCol] is any [np.number] dtype,
    [ObjCol] is dtype [object] holding Python strings, [DateCol] is
    [datetime64[ns]] (nanoseconds since the epoch), [PeriodCol] is
    [period[M]] (months since 1970-01). *)
Inductive column : Type :=
| NumCol (xs : list (option Q))
| ObjCol (xs : list (option string))
| DateCol (xs : list (option Z))
| PeriodCol (xs : list (option Z)).

Definition DataFrame : Type := list (string * column).

Definition columns (df : DataFrame) : list string := map fst df.

Definition column_length (c : column) : nat :=
  match c with
  | NumCol xs => List.length xs
  | ObjCol xs => List.length xs
  | DateCol xs => List.length xs
  | PeriodCol xs => List.length xs
  end.

(** One cell of a column. *)
Inductive cell : Type :=
| CNum (x : option Q)
| CObj (x : option string)
| CDate (x : option Z)
| CPeriod (x : option Z).

Definition cells (c : column) : list cell :=
  match c with
  | NumCol xs => map CNum xs
  | ObjCol xs => map CObj xs
  | DateCol xs => map CDate xs
  | PeriodCol xs => map CPeriod xs
  end.

(** What [pd.read_parquet] hands back for this data set: numeric and object
    columns only (the date fields are strings in the source file). *)
Inductive raw_column : Type :=
| RawNum (xs : list (option Q))
| RawObj (xs : list (option string)).

Definition RawFrame : Type := list (string * raw_column).

Definition raw_length (c : raw_column) : nat :=
  match c with
  | RawNum xs => List.length xs
  | RawObj xs => List.length xs
  end.

Definition of_raw_column (c : raw_column) : column :=
  match c with
  | RawNum xs => NumCol xs
  | RawObj xs => ObjCol xs
  end.

Definition of_raw (raw : RawFrame) : DataFrame :=
  map (fun kc => (fst kc, of_raw_column (snd kc))) raw.

(** [df[key]]: a Series when the label is unique, a sub-frame when it is
    duplicated, [KeyError] when it is absent. *)
Inductive selection : Type :=
| Series (c : column)
| Frame (cs : list column).

Definition has_label (key : string) (kc : string * column) : bool :=
  String.eqb (fst kc) key.

Definition getitem (df : DataFrame) (key : string) : result selection :=
  match map snd (filter (has_label key) df) with
  | [] => Raise (KeyError key)
  | [c] => Ok (Series c)
  | cs => Ok (Frame cs)
  end.

(** The callers below all need a Series; [e] is what the caller's next
    operation raises when it is handed a frame instead. *)
Definition as_series (e : exn) (s : selection) : result column :=
  match s with
  | Series c => Ok c
  | Frame _ => Raise e
  end.

(** [df[key] = col]: overwrite in place every column carrying the label, or
    append a new last column. *)
Definition setitem (df : DataFrame) (key : string) (col : column) : DataFrame :=
  if existsb (has_label key) df
  then map (fun kc => if has_label key kc then (fst kc, col) else kc) df
  else df ++ [(key, col)].

(** ** Sorting *)

(** [np.sort] and [sort_values] are library code.  They are modelled by a
    stable insertion sort over a boolean "less or equal"; the order pandas
    gives to rows that compare equal is unspecified and nothing below
    depends on it. *)
Section Sorting.
Variable A : Type.
Variable leb : A -> A -> bool.

Fixpoint insert (x : A) (l : list A) : list A :=
  match l with
  | [] => [x]
  | y :: l' => if leb x y then x :: l else y :: insert x l'
  end.

Fixpoint sort (l : list A) : list A :=
  match l with
  | [] => []
  | x :: l' => insert x (sort l')
  end.
End Sorting.

(** ** Missing-value handling (lines 32-40) *)

Definition dropna {A : Type} (xs : list (option A)) : list A :=
  flat_map (fun x => match x with Some v => [v] | None => [] end) xs.

(** [Series.fillna(v)] with a scalar. *)
Definition fillna {A : Type} (v : A) (xs : list (option A)) : list (option A) :=
  map (fun x => match x with Some _ => x | None => Some v end) xs.

(** [Series.ffill()]: carry the last valid observation forward. *)
Fixpoint ffill_from (last : option Q) (xs : list (option Q)) : list (option Q) :=
  match xs with
  | [] => []
  | Some x :: xs' => Some x :: ffill_from (Some x) xs'
  | None :: xs' => last :: ffill_from last xs'
  end.

Definition ffill (xs : list (option Q)) : list (option Q) := ffill_from None xs.

Definition count_of (v : string) (vs : list string) : nat :=
  count_occ string_dec vs v.

Definition unique (vs : list string) : list string := nodup string_dec vs.

Definition max_count (vs : list string) : nat :=
  fold_right (fun v m => Nat.max (count_of v vs) m) 0%nat (unique vs).

(** [Series.mode()]: the most frequent non-null values, in ascending
    order. *)
Definition mode (xs : list (option string)) : list string :=
  let vs := dropna xs in
  sort String.leb
       (filter (fun v => Nat.eqb (count_of v vs) (max_count vs)) (unique vs)).

(** [s[0]] on the Series that [mode()] returns: the label 0 exists exactly
    when the Series is not empty. *)
Definition first_of {A : Type} (s : list A) : result A :=
  match s with
  | [] => Raise LookupError
  | x :: _ => Ok x
  end.

(** Body of the loop at line 36, for one column of [num_cols]. *)
Definition impute_numeric (c : column) : column :=
  match c with
  | NumCol xs => NumCol (fillna 0%Q (ffill xs))
  | _ => c
  end.

(** Body of the loop at line 40, for one column of [cat_cols]. *)
Definition impute_categorical (c : column) : result column :=
  match c with
  | ObjCol xs => m <- first_of (mode xs) ;; Ok (ObjCol (fillna m xs))
  | _ => Ok c
  end.

(** A loop over the columns whose body may raise: the first column (in
    frame order) whose body raises ends the loop. *)
Fixpoint for_columns (f : column -> result column) (df : DataFrame)
  : result DataFrame :=
  match df with
  | [] => Ok []
  | (k, c) :: df' =>
      c' <- f c ;;
      rest <- for_columns f df' ;;
      Ok ((k, c') :: rest)
  end.

Definition drop_cols : list string :=
  [ "Customer Password"; "Customer Street"; "Customer Zipcode";
    "Order zipcode"; "Product Image"; "Product Description";
    "Product Card Id" ].

(** [df.drop(columns=[c for c in drop_cols if c in df.columns])]. *)
Definition drop (cols : list string) (df : DataFrame) : DataFrame :=
  filter (fun kc => negb (existsb (String.eqb (fst kc)) cols)) df.

(** ** Dates and lead time (lines 42-56) *)

Definition ns_per_day : Z := 86400 * 1000000000.

(** [a - b] on two datetime Series of one frame: a timedelta in
    nanoseconds, [NaT] where either side is [NaT]. *)
Fixpoint sub_datetime (a b : list (option Z)) : list (option Z) :=
  match a, b with
  | x :: a', y :: b' =>
      match x, y with
      | Some s, Some o => Some (s - o)%Z
      | _, _ => None
      end :: sub_datetime a' b'
  | _, _ => []
  end.

(** [.dt.days]: the days component of each timedelta, i.e. the floor of
    the quotient by one day; [NaN] for [NaT]. *)
Definition dt_days (td : list (option Z)) : list (option Q) :=
  map (option_map (fun d => inject_Z (d / ns_per_day))) td.

(** [Series.fillna(other)] with a Series of the same frame: a missing slot
    takes the value of [other] at the same row. *)
Fixpoint fillna_series {A : Type} (xs fill : list (option A)) : list (option A) :=
  match xs with
  | [] => []
  | x :: xs' =>
      match x with
      | Some _ => x
      | None => match fill with
                | v :: _ => v
                | [] => None
                end
      end :: fillna_series xs' (tl fill)
  end.

(** Does [fillna_series] write a value into some missing slot? *)
Fixpoint fill_hits {A B : Type} (xs : list (option A)) (fill : list (option B)) : bool :=
  match xs, fill with
  | x :: xs', v :: fill' =>
      match x, v with
      | None, Some _ => true
      | _, _ => fill_hits xs' fill'
      end
  | _, _ => false
  end.

Definition clip_low (q : Q) : Q := if Qle_bool 0 q then q else 0%Q.

(** [Series.clip(lower=0)]: [NaN] stays [NaN]. *)
Definition clip_lower0 (xs : list (option Q)) : list (option Q) :=
  map (option_map clip_low) xs.

Definition all_present {A : Type} (xs : list (option A)) : Prop :=
  Forall (fun x => x <> None) xs.

Definition is_none {A : Type} (x : option A) : bool :=
  match x with
  | None => true
  | Some _ => false
  end.

(** Lines 52-56 for a filling column of each dtype.  A numeric column fills
    the gaps.  Any other dtype would put a non-number into a float Series,
    and [clip] then raises on the comparison with 0; when no gap is filled
    the Series is unchanged and [clip] goes through. *)
Definition fill_and_clip (lead : list (option Q)) (days : column) : result column :=
  match days with
  | NumCol ds => Ok (NumCol (clip_lower0 (fillna_series lead ds)))
  | ObjCol ds =>
      if fill_hits lead ds then Raise TypeError else Ok (NumCol (clip_lower0 lead))
  | DateCol ds | PeriodCol ds =>
      if fill_hits lead ds then Raise TypeError else Ok (NumCol (clip_lower0 lead))
  end.

(** The lead time of one record, in the words of the data model: the whole
    days from the order to the shipping; when a date is missing, the source
    "days for shipping (real)"; never below zero. *)
Definition lead_time_days_of (order_date shipping_date : option Z) (days_real : cell)
  : option Q :=
  option_map clip_low
    match order_date, shipping_date with
    | Some o, Some s => Some (inject_Z ((s - o) / ns_per_day))
    | _, _ => match days_real with
              | CNum x => x
              | _ => None
              end
    end.

(** ** Column names (lines 58-65) *)

(** Labels are ASCII, as in the source file; one [ascii] is one code point.
    [\w] is then letters, digits and the underscore, and [\s] / [str.strip]
    whitespace is TAB, LF, VT, FF, CR, FS, GS, RS, US and the space. *)
Definition in_range (lo hi : nat) (c : ascii) : bool :=
  let n := nat_of_ascii c in Nat.leb lo n && Nat.leb n hi.

Definition is_upper (c : ascii) : bool := in_range 65 90 c.
Definition is_lower (c : ascii) : bool := in_range 97 122 c.
Definition is_digit (c : ascii) : bool := in_range 48 57 c.
Definition is_word (c : ascii) : bool :=
  is_upper c || is_lower c || is_digit c || Ascii.eqb c "_".
Definition is_space (c : ascii) : bool :=
  in_range 9 13 c || in_range 28 32 c.

Definition lower_char (c : ascii) : ascii :=
  if is_upper c then ascii_of_nat (nat_of_ascii c + 32) else c.

(** [.str.lower()] *)
Definition str_lower (s : list ascii) : list ascii := map lower_char s.

(** [.str.replace(r"[^\w\s]", "", regex=True)] *)
Definition strip_punctuation (s : list ascii) : list ascii :=
  filter (fun c => is_word c || is_space c) s.

(** [.str.replace(" ", "_")] *)
Definition join_spaces (s : list ascii) : list ascii :=
  map (fun c => if Ascii.eqb c " " then "_"%char else c) s.

Fixpoint lstrip (s : list ascii) : list ascii :=
  match s with
  | c :: s' => if is_space c then lstrip s' else s
  | [] => []
  end.

(** [.str.strip()] *)
Definition str_strip (s : list ascii) : list ascii :=
  rev (lstrip (rev (lstrip s))).

Definition normalize_name (name : string) : string :=
  string_of_list_ascii
    (str_strip (join_spaces (strip_punctuation (str_lower (list_ascii_of_string name))))).

(** The shape of a normalized label: no capital letter, nothing but word
    characters and (inner) whitespace other than the space, and no
    whitespace at either end. *)
Definition canonical_char (c : ascii) : Prop :=
  is_upper c = false
  /\ (is_word c = true \/ is_space c = true)
  /\ c <> " "%char.

Definition canonical (s : list ascii) : Prop :=
  Forall canonical_char s
  /\ (forall c, hd_error s = Some c -> is_space c = false)
  /\ (forall c, hd_error (rev s) = Some c -> is_space c = false).

(** [df.columns = f(df.columns)] *)
Definition rename_columns (f : string -> string) (df : DataFrame) : DataFrame :=
  map (fun kc => (f (fst kc), snd kc)) df.

(** The labels of [setitem df key col], from the labels of [df]. *)
Definition add_label (key : string) (labels : list string) : list string :=
  if existsb (String.eqb key) labels then labels else labels ++ [key].

(** ** Month bucket (line 70) *)

(** Year and month of a day number counted from 1970-01-01 (proleptic
    Gregorian calendar). *)
Definition civil_year_month (day : Z) : Z * Z :=
  let z := (day + 719468)%Z in
  let era := (z / 146097)%Z in
  let doe := (z - era * 146097)%Z in
  let yoe := ((doe - doe / 1460 + doe / 36524 - doe / 146096) / 365)%Z in
  let doy := (doe - (365 * yoe + yoe / 4 - yoe / 100))%Z in
  let mp := ((5 * doy + 2) / 153)%Z in
  let m := (if mp <? 10 then mp + 3 else mp - 9)%Z in
  let y := (yoe + era * 400 + (if m <=? 2 then 1 else 0))%Z in
  (y, m).

(** [Timestamp.to_period("M")] as months since 1970-01. *)
Definition month_ordinal (ns : Z) : Z :=
  let ym := civil_year_month (ns / ns_per_day) in
  ((fst ym - 1970) * 12 + (snd ym - 1))%Z.

Definition to_period_M (xs : list (option Z)) : list (option Z) :=
  map (option_map month_ordinal) xs.

(** [.dt] exists on datetime Series only. *)
Definition dt_accessor (c : column) : result (list (option Z)) :=
  match c with
  | DateCol xs => Ok xs
  | _ => Raise AttributeError
  end.

(** ** The dataset builder (lines 20-72) *)

Definition as_numeric (c : column) : result (list (option Q)) :=
  match c with
  | NumCol xs => Ok xs
  | _ => Raise TypeError
  end.

Section Builder.

(** [pd.to_datetime(series, errors="coerce")] is library code: the parser
    is taken as given.  It returns the timestamps of a datetime Series,
    [None] for each value it could not parse. *)
Variable to_datetime : column -> list (option Z).

(** Lines 24-40: drop, then the two imputation loops.  The labels of a
    frame read from a parquet file are distinct, so each loop visits each
    of its columns once, and a column of the other dtype is left as it
    is. *)
Definition drop_and_impute (raw : RawFrame) : result DataFrame :=
  let df_clean := drop drop_cols (of_raw raw) in
  let df_clean := map (fun kc => (fst kc, impute_numeric (snd kc))) df_clean in
  for_columns impute_categorical df_clean.

(** Lines 42-48: the two date columns, read under their original names. *)
Definition add_dates (df_clean : DataFrame) : result DataFrame :=
  s <- getitem df_clean "order date (DateOrders)" ;;
  c <- as_series ValueError s ;;
  let df_clean := setitem df_clean "order_date" (DateCol (to_datetime c)) in
  s <- getitem df_clean "shipping date (DateOrders)" ;;
  c <- as_series ValueError s ;;
  Ok (setitem df_clean "shipping_date" (DateCol (to_datetime c))).

(** Lines 50-56. *)
Definition add_lead_time (df_clean : DataFrame) : result DataFrame :=
  s <- getitem df_clean "shipping_date" ;;
  o <- getitem df_clean "order_date" ;;
  s <- as_series AttributeError s ;;
  o <- as_series AttributeError o ;;
  s <- dt_accessor s ;;
  o <- dt_accessor o ;;
  let df_clean :=
    setitem df_clean "lead_time_days" (NumCol (dt_days (sub_datetime s o))) in
  l <- getitem df_clean "lead_time_days" ;;
  l <- as_series TypeError l ;;
  l <- as_numeric l ;;
  d <- getitem df_clean "Days for shipping (real)" ;;
  d <- as_series TypeError d ;;
  c <- fill_and_clip l d ;;
  Ok (setitem df_clean "lead_time_days" c).

(** Lines 58-70: rename, then the month bucket read under the new name. *)
Definition normalize_and_add_month (df_clean : DataFrame) : result DataFrame :=
  let df_clean := rename_columns normalize_name df_clean in
  o <- getitem df_clean "order_date" ;;
  o <- as_series AttributeError o ;;
  o <- dt_accessor o ;;
  Ok (setitem df_clean "order_month" (PeriodCol (to_period_M o))).

(** The frame just before the columns are renamed. *)
Definition before_rename (df1 : DataFrame) (oc sc lt : column) : DataFrame :=
  setitem
    (setitem
       (setitem df1 "order_date" (DateCol (to_datetime oc)))
       "shipping_date" (DateCol (to_datetime sc)))
    "lead_time_days" lt.

(** The body of [build_dataset] after [df = load_raw()]. *)
Definition build_dataset_from (raw : RawFrame) : result DataFrame :=
  df_clean <- drop_and_impute raw ;;
  df_clean <- add_dates df_clean ;;
  df_clean <- add_lead_time df_clean ;;
  normalize_and_add_month df_clean.

End Builder.

(** ** Fetching the raw table (lines 11-18) *)

Record Response : Type := { status_code : Z; content : string }.

(** The outside world as the loader sees it: what a GET on a URL yields
    ([None] when the transfer does not complete) and which byte strings are
    parquet files. *)
Record World : Type := {
  http_get : string -> option Response;
  parquet_decode : string -> option RawFrame
}.

Definition url : string :=
  "https://raw.githubusercontent.com/Yogeswarachary/DHL_Inventory_Project/main/Data/DHL_Project.parquet".

(** The names bound in the module when [build_dataset()] is called at line
    74: the three imports of lines 1-3 and the two functions. *)
Definition module_globals : list string :=
  [ "st"; "pd"; "np"; "load_raw"; "build_dataset" ].

(** Reading a global name. *)
Definition lookup_global (globals : list string) (name : string) : result unit :=
  if existsb (String.eqb name) globals then Ok tt else Raise (NameError name).

Definition requests_get (w : World) (u : string) : result Response :=
  match http_get w u with
  | Some r => Ok r
  | None => Raise ConnectionError
  end.

Definition raise_for_status (r : Response) : result unit :=
  if (400 <=? status_code r)%Z && (status_code r <? 600)%Z
  then Raise (HTTPError (status_code r))
  else Ok tt.

Definition read_parquet (w : World) (bytes : string) : result RawFrame :=
  match parquet_decode w bytes with
  | Some df => Ok df
  | None => Raise ArrowInvalid
  end.

Definition load_raw (globals : list string) (w : World) : result RawFrame :=
  _ <- lookup_global globals "requests" ;;
  response <- requests_get w url ;;
  _ <- raise_for_status response ;;
  _ <- lookup_global globals "pd" ;;
  _ <- lookup_global globals "io" ;;
  read_parquet w (content response).

(** [@st.cache_data] on a function without arguments: one slot per
    function, written only when the call returns. *)
Record Caches : Type := {
  raw_cache : option RawFrame;
  clean_cache : option DataFrame
}.

Definition no_cache : Caches := {| raw_cache := None; clean_cache := None |}.

Definition load_raw_cached (globals : list string) (w : World) (c : Caches)
  : result RawFrame * Caches :=
  match raw_cache c with
  | Some df => (Ok df, c)
  | None =>
      match load_raw globals w with
      | Ok df => (Ok df, {| raw_cache := Some df; clean_cache := clean_cache c |})
      | Raise e => (Raise e, c)
      end
  end.

Section CachedBuild.
Variable to_datetime : column -> list (option Z).

Definition build_dataset (globals : list string) (w : World) (c : Caches)
  : result DataFrame * Caches :=
  match clean_cache c with
  | Some df => (Ok df, c)
  | None =>
      let (r, c1) := load_raw_cached globals w c in
      match r with
      | Raise e => (Raise e, c1)
      | Ok raw =>
          match build_dataset_from to_datetime raw with
          | Ok df => (Ok df, {| raw_cache := raw_cache c1; clean_cache := Some df |})
          | Raise e => (Raise e, c1)
          end
      end
  end.
End CachedBuild.

(** ** Records: the row-wise view of a frame *)

(** One record: the cells of a row, labelled, in column order. *)
Definition record : Type := list (string * cell).

Fixpoint zip_with {A B C : Type} (f : A -> B -> C) (a : list A) (b : list B) : list C :=
  match a, b with
  | x :: a', y :: b' => f x y :: zip_with f a' b'
  | _, _ => []
  end.

Fixpoint records_of (n : nat) (df : DataFrame) : list record :=
  match df with
  | [] => repeat [] n
  | (k, c) :: df' => zip_with (fun x r => (k, x) :: r) (cells c) (records_of n df')
  end.

(** [len(df)] *)
Definition nrows (df : DataFrame) : nat :=
  match df with
  | [] => 0
  | (_, c) :: _ => column_length c
  end.

Definition records (df : DataFrame) : list record := records_of (nrows df) df.

(** Every column has as many cells as the frame has rows. *)
Definition well_formed (df : DataFrame) : Prop :=
  Forall (fun kc => column_length (snd kc) = nrows df) df.

(** The cell of a record under a label ([None] when the record has no such
    field). *)
Fixpoint field (key : string) (r : record) : option cell :=
  match r with
  | [] => None
  | (k, x) :: r' => if String.eqb k key then Some x else field key r'
  end.

(** ** Sidebar filters (lines 76-99) *)

(** [Series.isin(values)] for a list of strings: a missing value is never
    "in"; a column of another dtype holds no string at all. *)
Definition isin (c : column) (values : list string) : list bool :=
  match c with
  | ObjCol xs =>
      map (fun x => match x with
                    | Some s => existsb (String.eqb s) values
                    | None => false
                    end) xs
  | NumCol xs => map (fun _ => false) xs
  | DateCol xs | PeriodCol xs => map (fun _ => false) xs
  end.

(** [sorted(series.dropna().unique())]: the options (and the default
    selection) of one multiselect. *)
Definition options (c : column) : list string :=
  match c with
  | ObjCol xs => sort String.leb (unique (dropna xs))
  | _ => []
  end.

Fixpoint take_mask {A : Type} (mask : list bool) (xs : list A) : list A :=
  match mask, xs with
  | m :: mask', x :: xs' =>
      if m then x :: take_mask mask' xs' else take_mask mask' xs'
  | _, _ => []
  end.

Definition column_take (mask : list bool) (c : column) : column :=
  match c with
  | NumCol xs => NumCol (take_mask mask xs)
  | ObjCol xs => ObjCol (take_mask mask xs)
  | DateCol xs => DateCol (take_mask mask xs)
  | PeriodCol xs => PeriodCol (take_mask mask xs)
  end.

(** [df[mask]] with a boolean Series. *)
Definition boolean_index (mask : list bool) (df : DataFrame) : DataFrame :=
  map (fun kc => (fst kc, column_take mask (snd kc))) df.

Definition series (e : exn) (df : DataFrame) (key : string) : result column :=
  s <- getitem df key ;; as_series e s.

(** Lines 94-98. *)
Definition filter_mask (df_clean : DataFrame)
           (region_filter category_filter segment_filter : list string)
  : result (list bool) :=
  r <- series ValueError df_clean "order_region" ;;
  c <- series ValueError df_clean "category_name" ;;
  s <- series ValueError df_clean "customer_segment" ;;
  Ok (zip_with andb (zip_with andb (isin r region_filter) (isin c category_filter))
               (isin s segment_filter)).

(** Line 99: [data]. *)
Definition filtered_view (df_clean : DataFrame)
           (region_filter category_filter segment_filter : list string)
  : result DataFrame :=
  mask <- filter_mask df_clean region_filter category_filter segment_filter ;;
  Ok (boolean_index mask df_clean).

(** The membership test of one record, read off its three fields. *)
Definition in_selection (values : list string) (x : option cell) : bool :=
  match x with
  | Some (CObj (Some s)) => existsb (String.eqb s) values
  | _ => false
  end.

Definition selected (region_filter category_filter segment_filter : list string)
           (r : record) : bool :=
  in_selection region_filter (field "order_region" r)
  && in_selection category_filter (field "category_name" r)
  && in_selection segment_filter (field "customer_segment" r).

(** ** Scalars shown by the KPI tiles (lines 121-141) *)

(** [Series.sum()] skips missing values; the sum of nothing is 0. *)
Definition series_sum (xs : list (option Q)) : Q :=
  Qred (fold_right Qplus 0%Q (dropna xs)).

(** [Series.mean()] skips missing values; the mean of nothing is [NaN]. *)
Definition series_mean (xs : list (option Q)) : option Q :=
  match dropna xs with
  | [] => None
  | vs => Some (Qred (fold_right Qplus 0%Q vs / inject_Z (Z.of_nat (List.length vs))))
  end.

(** Rounding to the nearest integer, ties to even. *)
Definition round_half_even (q : Q) : Z :=
  let f := Qfloor q in
  match Qcompare (q - inject_Z f) (1 # 2) with
  | Lt => f
  | Gt => (f + 1)%Z
  | Eq => if Z.even f then f else (f + 1)%Z
  end.

(** [round(x, n)] and [.round(n)] on a number. *)
Definition round_to (n : nat) (q : Q) : Q :=
  let scale := inject_Z (10 ^ Z.of_nat n) in
  Qred (inject_Z (round_half_even (q * scale)) / scale).

(** [round(x, n)] on a float that may be [NaN]. *)
Definition round_float (n : nat) (x : option Q) : option Q := option_map (round_to n) x.

Fixpoint group_thousands (fuel : nat) (rev_digits : list ascii) : list ascii :=
  match fuel with
  | O => rev_digits
  | S fuel' =>
      match rev_digits with
      | a :: b :: c :: (_ :: _) as rest =>
          a :: b :: c :: ","%char :: group_thousands fuel' (tl (tl (tl rev_digits)))
      | _ => rev_digits
      end
  end.

(** The format specification [,.0f]. *)
Definition format_comma_0f (q : Q) : string :=
  let digits :=
    list_ascii_of_string
      (DecimalString.NilZero.string_of_uint (N.to_uint (Z.abs_N (round_half_even q)))) in
  let grouped := rev (group_thousands (List.length digits) (rev digits)) in
  string_of_list_ascii (if Qle_bool 0 q then grouped else "-"%char :: grouped).

(** What a tile is given: preformatted text, or a float ([None] is the
    float [nan], which the tile prints as it is). *)
Inductive metric_value : Type :=
| MetricText (s : string)
| MetricFloat (x : option Q).

Record KPIs : Type := {
  kpi_total_sales : metric_value;
  kpi_total_profit : metric_value;
  kpi_avg_lead_time : metric_value;
  kpi_late_risk : metric_value
}.

Definition numeric_series (df : DataFrame) (key : string) : result (list (option Q)) :=
  c <- series TypeError df key ;; as_numeric c.

Definition kpi_tiles (data : DataFrame) : result KPIs :=
  sales <- numeric_series data "sales" ;;
  profit <- numeric_series data "order_profit_per_order" ;;
  lead <- numeric_series data "lead_time_days" ;;
  risk <- numeric_series data "late_delivery_risk" ;;
  Ok {| kpi_total_sales := MetricText (format_comma_0f (series_sum sales));
        kpi_total_profit := MetricText (format_comma_0f (series_sum profit));
        kpi_avg_lead_time := MetricFloat (round_float 2 (series_mean lead));
        kpi_late_risk := MetricFloat (round_float 3 (series_mean risk)) |}.

(** ** Group-by reports *)

Definition cell_isna (c : cell) : bool :=
  match c with
  | CNum x => is_none x
  | CObj x => is_none x
  | CDate x => is_none x
  | CPeriod x => is_none x
  end.

Definition cell_eqb (a b : cell) : bool :=
  match a, b with
  | CNum (Some x), CNum (Some y) => Qeq_bool x y
  | CObj (Some x), CObj (Some y) => String.eqb x y
  | CDate (Some x), CDate (Some y) => Z.eqb x y
  | CPeriod (Some x), CPeriod (Some y) => Z.eqb x y
  | _, _ => false
  end.

(** The order of group keys within one column (one dtype). *)
Definition cell_leb (a b : cell) : bool :=
  match a, b with
  | CNum (Some x), CNum (Some y) => Qle_bool x y
  | CObj (Some x), CObj (Some y) => String.leb x y
  | CDate (Some x), CDate (Some y) => Z.leb x y
  | CPeriod (Some x), CPeriod (Some y) => Z.leb x y
  | _, _ => true
  end.

Section GroupBy.
Variables K R : Type.
Variable key_eqb : K -> K -> bool.
Variable key_leb : K -> K -> bool.

(** Distinct keys, first occurrence kept. *)
Fixpoint distinct (ks : list K) : list K :=
  match ks with
  | [] => []
  | k :: ks' => k :: filter (fun k' => negb (key_eqb k k')) (distinct ks')
  end.

(** [df.groupby(keys)] with the defaults [sort=True]: one group per
    distinct key, groups in key order, rows of a group in frame order. *)
Definition groupby (rows : list (K * R)) : list (K * list R) :=
  map (fun k => (k, map snd (filter (fun r => key_eqb (fst r) k) rows)))
      (sort key_leb (distinct (map fst rows))).
End GroupBy.

(** [nunique()]: the number of distinct non-missing values. *)
Definition nunique (xs : list cell) : nat :=
  List.length (distinct cell_eqb (filter (fun x => negb (cell_isna x)) xs)).

Definition key2_eqb (a b : cell * cell) : bool :=
  cell_eqb (fst a) (fst b) && cell_eqb (snd a) (snd b).

Definition key2_leb (a b : cell * cell) : bool :=
  if cell_eqb (fst a) (fst b) then cell_leb (snd a) (snd b) else cell_leb (fst a) (fst b).

(** The key columns of a group-by must be Series. *)
Definition key_series (df : DataFrame) (key : string) : result (list cell) :=
  c <- series ValueError df key ;; Ok (cells c).

(** One line of the table [cat_seg] (lines 236-246). *)
Record CatSegRow : Type := {
  cs_category_name : cell;
  cs_customer_segment : cell;
  total_sales : Q;
  total_profit : Q;
  avg_margin : option Q;
  orders : nat
}.

(** The aggregations are those of numeric columns: on another dtype the
    model stops with [TypeError] (pandas would go on to concatenate strings
    or to fail later; no cleaned table of this data set gets there). *)
Definition cat_seg (data : DataFrame) : result (list CatSegRow) :=
  cat <- key_series data "category_name" ;;
  seg <- key_series data "customer_segment" ;;
  sales <- numeric_series data "sales" ;;
  profit <- numeric_series data "order_profit_per_order" ;;
  order_id <- key_series data "order_id" ;;
  let rows :=
    filter (fun r => negb (cell_isna (fst (fst r))) && negb (cell_isna (snd (fst r))))
           (combine (combine cat seg) (combine sales (combine profit order_id))) in
  Ok (map (fun g =>
             let rs := snd g in
             {| cs_category_name := fst (fst g);
                cs_customer_segment := snd (fst g);
                total_sales := round_to 2 (series_sum (map fst rs));
                total_profit := round_to 2 (series_sum (map (fun r => fst (snd r)) rs));
                avg_margin := round_float 2 (series_mean (map (fun r => fst (snd r)) rs));
                orders := nunique (map (fun r => snd (snd r)) rs) |})
          (groupby key2_eqb key2_leb rows)).

(** [sort_values("total_sales", ascending=False)] *)
Definition by_sales_desc (a b : CatSegRow) : bool :=
  Qle_bool (total_sales b) (total_sales a).

(** Lines 249-252: the table that is displayed. *)
Definition top_cat_seg (data : DataFrame) : result (list CatSegRow) :=
  t <- cat_seg data ;;
  Ok (firstn 15 (sort by_sales_desc t)).

(** ** Monthly trend panel (lines 143-188) *)

Record MonthlyRow : Type := {
  order_month : cell;
  m_total_sales : Q;
  m_avg_lead_time : option Q;
  m_orders : nat
}.

Definition monthly (data : DataFrame) : result (list MonthlyRow) :=
  month <- key_series data "order_month" ;;
  sales <- numeric_series data "sales" ;;
  lead <- numeric_series data "lead_time_days" ;;
  order_id <- key_series data "order_id" ;;
  let rows :=
    filter (fun r => negb (cell_isna (fst r)))
           (combine month (combine sales (combine lead order_id))) in
  Ok (map (fun g =>
             let rs := snd g in
             {| order_month := fst g;
                m_total_sales := series_sum (map fst rs);
                m_avg_lead_time := series_mean (map (fun r => fst (snd r)) rs);
                m_orders := nunique (map (fun r => snd (snd r)) rs) |})
          (groupby cell_eqb cell_leb rows)).

(** [df.empty]: some axis has length 0. *)
Definition empty (df : DataFrame) : bool :=
  Nat.eqb (List.length df) 0 || Nat.eqb (nrows df) 0.

Definition column_head (n : nat) (c : column) : column :=
  match c with
  | NumCol xs => NumCol (firstn n xs)
  | ObjCol xs => ObjCol (firstn n xs)
  | DateCol xs => DateCol (firstn n xs)
  | PeriodCol xs => PeriodCol (firstn n xs)
  end.

(** [df[[k1; ...; kn]]]: the named columns in the order asked for. *)
Fixpoint select_columns (keys : list string) (df : DataFrame) : result DataFrame :=
  match keys with
  | [] => Ok []
  | k :: keys' =>
      match filter (has_label k) df with
      | [] => Raise (KeyError k)
      | cs => rest <- select_columns keys' df ;; Ok (cs ++ rest)
      end
  end.

Definition snapshot_columns : list string :=
  [ "order_id"; "order_date"; "shipping_date"; "order_region";
    "customer_segment"; "category_name"; "lead_time_days"; "sales";
    "order_profit_per_order"; "late_delivery_risk" ].

Inductive trend_panel : Type :=
| TrendCharts (table : list MonthlyRow) (snapshot : DataFrame)
| InfoBox (message : string).

Definition monthly_trend (data : DataFrame) : result trend_panel :=
  if negb (empty data) then
    table <- monthly data ;;
    snap <- select_columns snapshot_columns data ;;
    Ok (TrendCharts table (map (fun kc => (fst kc, column_head 20 (snd kc))) snap))
  else
    Ok (InfoBox "No data available for current filter selection.").

(** ** A date parser for the examples *)

(** ISO calendar dates [YYYY-MM-DD] at midnight: one of the formats
    [pd.to_datetime] reads.  It instantiates the parser of [Builder] in the
    examples; anything else is [NaT]. *)
Definition digit_value (c : ascii) : option Z :=
  if is_digit c then Some (Z.of_nat (nat_of_ascii c) - 48)%Z else None.

Fixpoint number_of (acc : Z) (s : list ascii) : option Z :=
  match s with
  | [] => Some acc
  | c :: s' =>
      match digit_value c with
      | Some d => number_of (acc * 10 + d)%Z s'
      | None => None
      end
  end.

Definition days_from_civil (y m d : Z) : Z :=
  let y' := (if m <=? 2 then y - 1 else y)%Z in
  let era := (y' / 400)%Z in
  let yoe := (y' - era * 400)%Z in
  let mp := (if m <=? 2 then m + 9 else m - 3)%Z in
  let doy := ((153 * mp + 2) / 5 + d - 1)%Z in
  let doe := (yoe * 365 + yoe / 4 - yoe / 100 + doy)%Z in
  (era * 146097 + doe - 719468)%Z.

Definition parse_iso_date (s : string) : option Z :=
  match list_ascii_of_string s with
  | [y1; y2; y3; y4; "-"%char; m1; m2; "-"%char; d1; d2] =>
      match number_of 0 [y1; y2; y3; y4], number_of 0 [m1; m2], number_of 0 [d1; d2] with
      | Some y, Some m, Some d =>
          if ((1 <=? m) && (m <=? 12) && (1 <=? d) && (d <=? 31))%Z
          then Some (days_from_civil y m d * ns_per_day)%Z
          else None
      | _, _, _ => None
      end
  | _ => None
  end.

Definition iso_to_datetime (c : column) : list (option Z) :=
  match c with
  | ObjCol xs => map (fun x => match x with Some s => parse_iso_date s | None => None end) xs
  | DateCol xs => xs
  | NumCol xs => map (fun _ => None) xs
  | PeriodCol xs => map (fun _ => None) xs
  end.

(** ** A small data set for the examples *)

Definition sample_raw : RawFrame :=
  [ ("order date (DateOrders)",
     RawObj [Some "2018-01-01"; Some "2018-01-05"; None; Some "bad"]);
    ("shipping date (DateOrders)",
     RawObj [Some "2018-01-04"; Some "2018-01-02"; Some "2018-01-04"; Some "2018-01-09"]);
    ("Days for shipping (real)", RawNum [Some (3 # 1); None; Some (2 # 1); None]);
    ("Order Region", RawObj [Some "East"; None; Some "West"; Some "East"]);
    ("Category Name", RawObj [Some "Toys"; Some "Toys"; Some "Golf"; Some "Golf"]);
    ("Customer Segment",
     RawObj [Some "Consumer"; Some "Corporate"; Some "Consumer"; Some "Consumer"]);
    ("Sales", RawNum [Some (100 # 1); Some (200 # 1); None; Some (300 # 1)]);
    ("Order Profit Per Order",
     RawNum [Some (10 # 1); Some (-5 # 1); Some (1 # 2); Some (3 # 1)]);
    ("Late_delivery_risk", RawNum [Some 1%Q; Some 0%Q; Some 1%Q; Some 0%Q]);
    ("Order Id", RawNum [Some (1 # 1); Some (2 # 1); Some (3 # 1); Some (3 # 1)]);
    ("Customer Password", RawObj [Some "x"; Some "x"; Some "x"; Some "x"]) ].

Definition frame_of (r : result DataFrame) : DataFrame :=
  match r with
  | Ok df => df
  | Raise _ => []
  end.

Definition sample_clean : DataFrame :=
  Eval vm_compute in frame_of (build_dataset_from iso_to_datetime sample_raw).

(** The view for the selection East / Toys, Golf / Consumer. *)
Definition sample_view : DataFrame :=
  Eval vm_compute in
    frame_of (filtered_view sample_clean ["East"] ["Toys"; "Golf"] ["Consumer"]).

(** The view when no region is selected. *)
Definition sample_no_region : DataFrame :=
  Eval vm_compute in
    frame_of (filtered_view sample_clean [] ["Toys"; "Golf"] ["Consumer"]).

(** The same raw table with no region recorded at all. *)
Definition sample_raw_no_region : RawFrame :=
  map (fun kc => if String.eqb (fst kc) "Order Region"
                 then (fst kc, RawObj [None; None; None; None])
                 else kc) sample_raw.

(** A world in which the file is served and is a parquet file holding
    [sample_raw]. *)
Definition sample_world : World :=
  {| http_get := fun _ => Some {| status_code := 200; content := "PAR1" |};
     parquet_decode := fun _ => Some sample_raw |}.

Definition sample_lead_time : column :=
  Eval vm_compute in
    match getitem sample_clean "lead_time_days" with
    | Ok (Series c) => c
    | _ => NumCol []
    end.

Definition sample_top : list CatSegRow :=
  Eval vm_compute in
    match top_cat_seg sample_clean with
    | Ok t => t
    | Raise _ => []
    end.

(** A categorical column in which "a" and "b" are equally frequent. *)
Definition sample_tie : list (option string) :=
  [Some "b"; Some "a"; None; Some "b"; Some "a"; Some "c"].

(** The module with the two missing imports added. *)
Definition globals_with_imports : list string :=
  "requests" :: "io" :: module_globals.

(** ** Operations and profitability reports (lines 196-229 and 254-281) *)

(** [Series.value_counts().sort_index()]: how often each non-missing value
    occurs, the values in ascending order. *)
Definition value_counts (c : column) : list (cell * nat) :=
  map (fun g => (fst g, List.length (snd g)))
      (groupby cell_eqb cell_leb
               (map (fun x => (x, tt))
                    (filter (fun x => negb (cell_isna x)) (cells c)))).

(** One line of the table [region_profit] (lines 255-264). *)
Record RegionProfitRow : Type := {
  rp_order_region : cell;
  rp_total_sales : Q;
  rp_total_profit : Q;
  avg_profit_per_order : option Q
}.

Definition region_profit (data : DataFrame) : result (list RegionProfitRow) :=
  region <- key_series data "order_region" ;;
  sales <- numeric_series data "sales" ;;
  profit <- numeric_series data "order_profit_per_order" ;;
  let rows :=
    filter (fun r => negb (cell_isna (fst r)))
           (combine region (combine sales profit)) in
  Ok (map (fun g =>
             let rs := snd g in
             {| rp_order_region := fst g;
                rp_total_sales := round_to 2 (series_sum (map fst rs));
                rp_total_profit := round_to 2 (series_sum (map snd rs));
                avg_profit_per_order := round_float 2 (series_mean (map snd rs)) |})
          (groupby cell_eqb cell_leb rows)).

(** One line of the table [lt_region_mode] (lines 220-228). *)
Record LeadTimeRow : Type := {
  lt_order_region : cell;
  lt_shipping_mode : cell;
  lt_avg_lead_time : option Q;
  lt_orders : nat
}.

Definition lt_region_mode (data : DataFrame) : result (list LeadTimeRow) :=
  region <- key_series data "order_region" ;;
  mode <- key_series data "shipping_mode" ;;
  lead <- numeric_series data "lead_time_days" ;;
  order_id <- key_series data "order_id" ;;
  let rows :=
    filter (fun r => negb (cell_isna (fst (fst r))) && negb (cell_isna (snd (fst r))))
           (combine (combine region mode) (combine lead order_id)) in
  Ok (map (fun g =>
             let rs := snd g in
             {| lt_order_region := fst (fst g);
                lt_shipping_mode := snd (fst g);
                lt_avg_lead_time := round_float 2 (series_mean (map fst rs));
                lt_orders := nunique (map snd rs) |})
          (groupby key2_eqb key2_leb rows)).

(** One line of the table [high_delay] (lines 268-277). *)
Record HighDelayRow : Type := {
  hd_order_region : cell;
  hd_shipping_mode : cell;
  hd_total_sales : Q;
  late_risk : option Q;
  hd_avg_lead_time : option Q
}.

Definition high_delay_groups (data : DataFrame) : result (list HighDelayRow) :=
  region <- key_series data "order_region" ;;
  mode <- key_series data "shipping_mode" ;;
  sales <- numeric_series data "sales" ;;
  risk <- numeric_series data "late_delivery_risk" ;;
  lead <- numeric_series data "lead_time_days" ;;
  let rows :=
    filter (fun r => negb (cell_isna (fst (fst r))) && negb (cell_isna (snd (fst r))))
           (combine (combine region mode) (combine sales (combine risk lead))) in
  Ok (map (fun g =>
             let rs := snd g in
             {| hd_order_region := fst (fst g);
                hd_shipping_mode := snd (fst g);
                hd_total_sales := round_to 3 (series_sum (map fst rs));
                late_risk := round_float 3 (series_mean (map (fun r => fst (snd r)) rs));
                hd_avg_lead_time :=
                  round_float 3 (series_mean (map (fun r => snd (snd r)) rs)) |})
          (groupby key2_eqb key2_leb rows)).

(** [sort_values(["late_risk", "total_sales"], ascending=[False, False])]:
    the higher risk first, among equal risks the higher sales first; a line
    whose risk is [NaN] goes after every line that has one
    ([na_position="last"]). *)
Definition by_risk_then_sales_desc (a b : HighDelayRow) : bool :=
  match late_risk a, late_risk b with
  | Some x, Some y =>
      if Qeq_bool x y
      then Qle_bool (hd_total_sales b) (hd_total_sales a)
      else Qle_bool y x
  | Some _, None => true
  | None, Some _ => false
  | None, None => Qle_bool (hd_total_sales b) (hd_total_sales a)
  end.

(** Lines 278-281: the table that is displayed. *)
Definition high_delay (data : DataFrame) : result (list HighDelayRow) :=
  t <- high_delay_groups data ;;
  Ok (firstn 15 (sort by_risk_then_sales_desc t)).

(** The order of the displayed lines: [above] may stand over [below]. *)
Definition risk_then_sales_ge (above below : HighDelayRow) : Prop :=
  match late_risk above, late_risk below with
  | Some x, Some y =>
      (y < x)%Q \/ (y == x /\ hd_total_sales below <= hd_total_sales above)%Q
  | Some _, None => True
  | None, Some _ => False
  | None, None => (hd_total_sales below <= hd_total_sales above)%Q
  end.

(** The values of the records whose key is [s]: what one group of a
    group-by on a column of strings aggregates. *)
Definition values_where {A : Type} (s : string) (keys : list (option string))
           (values : list A) : list A :=
  map snd
      (filter (fun r => match fst r with
                        | Some s' => String.eqb s' s
                        | None => false
                        end)
              (combine keys values)).

(** ** Further examples *)

(** The raw sample with one more column, whose label normalizes to
    [order_date]. *)
Definition sample_raw_order_date : RawFrame :=
  sample_raw ++ [("Order Date", RawObj [Some "a"; Some "b"; Some "c"; Some "d"])].

(** A raw table without the column labelled [key]. *)
Definition without (key : string) (raw : RawFrame) : RawFrame :=
  filter (fun kc => negb (String.eqb (fst kc) key)) raw.

(** The raw sample with the shipping mode of each order. *)
Definition sample_raw_modes : RawFrame :=
  sample_raw
    ++ [("Shipping Mode",
         RawObj [Some "Standard Class"; Some "First Class";
                 Some "Standard Class"; Some "Standard Class"])].

Definition sample_modes : DataFrame :=
  Eval vm_compute in frame_of (build_dataset_from iso_to_datetime sample_raw_modes).

(** Reading an example table: a column by dtype, and the lines of a
    report. *)
Definition column_of (df : DataFrame) (key : string) : column :=
  match getitem df key with
  | Ok (Series c) => c
  | _ => NumCol []
  end.

Definition numbers_of (df : DataFrame) (key : string) : list (option Q) :=
  match column_of df key with
  | NumCol xs => xs
  | _ => []
  end.

Definition strings_of (df : DataFrame) (key : string) : list (option string) :=
  match column_of df key with
  | ObjCol xs => xs
  | _ => []
  end.

Definition periods_of (df : DataFrame) (key : string) : list (option Z) :=
  match column_of df key with
  | PeriodCol xs => xs
  | _ => []
  end.

Definition table_of {A : Type} (r : result (list A)) : list A :=
  match r with
  | Ok t => t
  | Raise _ => []
  end.

(** The tiles and the data snapshot of the view East / Toys, Golf /
    Consumer. *)
Definition sample_kpis : KPIs :=
  Eval vm_compute in
    match kpi_tiles sample_view with
    | Ok k => k
    | Raise _ => {| kpi_total_sales := MetricText "";
                    kpi_total_profit := MetricText "";
                    kpi_avg_lead_time := MetricFloat None;
                    kpi_late_risk := MetricFloat None |}
    end.

Definition sample_snapshot : DataFrame :=
  Eval vm_compute in
    match monthly_trend sample_view with
    | Ok (TrendCharts _ snapshot) => snapshot
    | _ => []
    end.

(** The view of [sample_modes] when no region is selected. *)
Definition sample_modes_no_region : DataFrame :=
  Eval vm_compute in
    frame_of (filtered_view sample_modes [] ["Toys"; "Golf"] ["Consumer"]).

(** * Proofs *)

Unset Implicit Arguments.

(** ** Ordering on strings *)

(** Python compares [str] by code point; on the byte strings used here this
    is [String.leb]. *)
Lemma ascii_compare_refl (a : ascii) : Ascii.compare a a = Eq.
Proof. unfold Ascii.compare. apply N.compare_refl. Qed.

Lemma string_leb_refl (s : string) : String.leb s s = true.
Proof.
  unfold String.leb.
  assert (H : String.compare s s = Eq).
  { induction s as [|a s IH]; simpl; [reflexivity|].
    rewrite ascii_compare_refl. exact IH. }
  rewrite H. reflexivity.
Qed.

Lemma string_compare_trans_le (s1 s2 s3 : string) :
  String.compare s1 s2 <> Gt -> String.compare s2 s3 <> Gt ->
  String.compare s1 s3 <> Gt.
Proof.
  revert s2 s3.
  induction s1 as [|a s1 IH]; intros [|b s2] [|c s3]; simpl; try congruence.
  unfold Ascii.compare.
  destruct (N.compare_spec (N_of_ascii a) (N_of_ascii b)) as [Hab|Hab|Hab];
    destruct (N.compare_spec (N_of_ascii b) (N_of_ascii c)) as [Hbc|Hbc|Hbc];
    destruct (N.compare_spec (N_of_ascii a) (N_of_ascii c)) as [Hac|Hac|Hac];
    try congruence; try lia.
  apply IH.
Qed.

Lemma string_leb_trans (s1 s2 s3 : string) :
  String.leb s1 s2 = true -> String.leb s2 s3 = true -> String.leb s1 s3 = true.
Proof.
  unfold String.leb. intros H12 H23.
  assert (H : String.compare s1 s3 <> Gt).
  { apply string_compare_trans_le with s2.
    - destruct (String.compare s1 s2); congruence.
    - destruct (String.compare s2 s3); congruence. }
  destruct (String.compare s1 s3); congruence.
Qed.

(** ** Facts about the sort *)

Section SortingFacts.
Variable A : Type.
Variable leb : A -> A -> bool.

Lemma insert_perm (x : A) (l : list A) : Permutation (insert leb x l) (x :: l).
Proof.
  induction l as [|y l IH]; simpl.
  - apply Permutation_refl.
  - destruct (leb x y).
    + apply Permutation_refl.
    + apply perm_trans with (y :: x :: l).
      * apply perm_skip. exact IH.
      * apply perm_swap.
Qed.

Lemma sort_perm (l : list A) : Permutation (sort leb l) l.
Proof.
  induction l as [|x l IH]; simpl.
  - apply perm_nil.
  - apply perm_trans with (x :: sort leb l).
    + apply insert_perm.
    + apply perm_skip. exact IH.
Qed.

Lemma sort_In (l : list A) (x : A) : In x (sort leb l) <-> In x l.
Proof.
  split; apply Permutation_in.
  - apply sort_perm.
  - apply Permutation_sym, sort_perm.
Qed.

Lemma sort_length (l : list A) : List.length (sort leb l) = List.length l.
Proof. apply Permutation_length, sort_perm. Qed.

Hypothesis leb_total : forall a b, leb a b = true \/ leb b a = true.
Hypothesis leb_trans : forall a b c, leb a b = true -> leb b c = true -> leb a c = true.

Lemma insert_sorted (x : A) (l : list A) :
  StronglySorted (fun a b => leb a b = true) l ->
  StronglySorted (fun a b => leb a b = true) (insert leb x l).
Proof.
  induction 1 as [|y l Hs IH Hy]; simpl.
  - constructor; constructor.
  - destruct (leb x y) eqn:Hxy.
    + constructor.
      * constructor; assumption.
      * constructor; [exact Hxy|].
        eapply Forall_impl; [|exact Hy].
        intros z Hz. apply leb_trans with y; assumption.
    + constructor; [exact IH|].
      assert (Hyx : leb y x = true).
      { destruct (leb_total x y) as [H|H]; [congruence|exact H]. }
      apply Forall_forall. intros z Hz.
      apply (Permutation_in _ (insert_perm x l)) in Hz.
      destruct Hz as [<-|Hz]; [exact Hyx|].
      rewrite Forall_forall in Hy. apply Hy, Hz.
Qed.

Lemma sort_sorted (l : list A) :
  StronglySorted (fun a b => leb a b = true) (sort leb l).
Proof.
  induction l as [|x l IH]; simpl.
  - constructor.
  - apply insert_sorted, IH.
Qed.

(** The first element of a sorted list is below all of them. *)
Lemma sort_head_least (l : list A) (m : A) (rest : list A) :
  sort leb l = m :: rest -> forall x, In x l -> x = m \/ leb m x = true.
Proof.
  intros Heq x Hx.
  apply sort_In in Hx. rewrite Heq in Hx.
  pose proof (sort_sorted l) as Hs. rewrite Heq in Hs.
  inversion Hs as [|? ? _ Hall]; subst.
  destruct Hx as [->|Hx]; [left; reflexivity|right].
  rewrite Forall_forall in Hall. apply Hall, Hx.
Qed.
End SortingFacts.

(** ** Facts about lists used by several proofs *)

Lemma take_mask_map_filter {A : Type} (p : A -> bool) (l : list A) :
  take_mask (map p l) l = filter p l.
Proof.
  induction l as [|x l IH]; simpl; [reflexivity|].
  rewrite IH. reflexivity.
Qed.

Lemma take_mask_zip_with {A B C : Type} (f : A -> B -> C) (mask : list bool) :
  forall (a : list A) (b : list B),
    take_mask mask (zip_with f a b) = zip_with f (take_mask mask a) (take_mask mask b).
Proof.
  induction mask as [|m mask IH]; intros [|x a] [|y b]; simpl; try reflexivity.
  - destruct m; [reflexivity|]. destruct (take_mask mask a); reflexivity.
  - destruct m; simpl; rewrite IH; reflexivity.
Qed.

Lemma take_mask_map {A B : Type} (f : A -> B) (mask : list bool) :
  forall l : list A, take_mask mask (map f l) = map f (take_mask mask l).
Proof.
  induction mask as [|m mask IH]; intros [|x l]; simpl; try reflexivity.
  destruct m; simpl; rewrite IH; reflexivity.
Qed.

Lemma take_mask_repeat {A : Type} (x : A) (mask : list bool) :
  forall n, take_mask mask (repeat x n)
            = repeat x (List.length (take_mask mask (repeat x n))).
Proof.
  induction mask as [|m mask IH]; intros [|n]; simpl; try reflexivity.
  destruct m; simpl; rewrite <- IH; reflexivity.
Qed.

Lemma take_mask_length_indep {A B : Type} (mask : list bool) :
  forall (a : list A) (b : list B),
    List.length a = List.length b ->
    List.length (take_mask mask a) = List.length (take_mask mask b).
Proof.
  induction mask as [|m mask IH]; intros [|x a] [|y b] H; simpl in *;
    try reflexivity; try discriminate.
  injection H as H. destruct m; simpl; rewrite (IH a b H); reflexivity.
Qed.

Lemma take_mask_repeat_unit {A : Type} (x : A) (mask : list bool) (n : nat) :
  repeat x (List.length (take_mask mask (repeat tt n))) = take_mask mask (repeat x n).
Proof.
  rewrite (take_mask_repeat x mask n). f_equal.
  apply take_mask_length_indep. rewrite !repeat_length. reflexivity.
Qed.

Lemma take_mask_all_false {A : Type} (mask : list bool) :
  Forall (fun m => m = false) mask -> forall l : list A, take_mask mask l = [].
Proof.
  induction 1 as [|m mask Hm _ IH]; intros [|x l]; simpl; try reflexivity.
  rewrite Hm. apply IH.
Qed.

Lemma zip_with_map {A B C D : Type} (f : B -> C -> D) (g : A -> B) (h : A -> C)
      (l : list A) :
  zip_with f (map g l) (map h l) = map (fun x => f (g x) (h x)) l.
Proof.
  induction l as [|x l IH]; simpl; [reflexivity|].
  rewrite IH. reflexivity.
Qed.

Lemma zip_with_length {A B C : Type} (f : A -> B -> C) :
  forall (a : list A) (b : list B),
    List.length a = List.length b -> List.length (zip_with f a b) = List.length a.
Proof.
  induction a as [|x a IH]; intros [|y b] H; simpl in *; try reflexivity; try discriminate.
  injection H as H. rewrite (IH b H). reflexivity.
Qed.

(** ** Inversion of the monadic steps *)

Lemma bind_Ok_inv {A B : Type} (r : result A) (k : A -> result B) (b : B) :
  bind r k = Ok b -> exists a, r = Ok a /\ k a = Ok b.
Proof.
  destruct r as [a|e]; simpl; intros H; [exists a; auto | discriminate].
Qed.

Ltac bind_inv H :=
  let x := fresh "x" in
  let Hx := fresh "H" x in
  apply bind_Ok_inv in H; destruct H as [x [Hx H]].

Lemma Ok_inj {A : Type} (a b : A) : Ok a = Ok b -> a = b.
Proof. intros H. congruence. Qed.

Lemma as_series_Ok (e : exn) (s : selection) (c : column) :
  as_series e s = Ok c -> s = Series c.
Proof. destruct s; simpl; congruence. Qed.

Lemma getitem_Series_inv (df : DataFrame) (key : string) (c : column) :
  getitem df key = Ok (Series c) -> map snd (filter (has_label key) df) = [c].
Proof.
  unfold getitem.
  destruct (map snd (filter (has_label key) df)) as [|c1 [|c2 cs]]; congruence.
Qed.

Lemma series_Ok (e : exn) (df : DataFrame) (key : string) (c : column) :
  series e df key = Ok c -> map snd (filter (has_label key) df) = [c].
Proof.
  unfold series. intros H. bind_inv H.
  apply as_series_Ok in H. subst. apply getitem_Series_inv, Hx.
Qed.

Lemma as_numeric_Ok (c : column) (xs : list (option Q)) :
  as_numeric c = Ok xs -> c = NumCol xs.
Proof. destruct c; simpl; congruence. Qed.

Lemma numeric_series_Ok (df : DataFrame) (key : string) (xs : list (option Q)) :
  numeric_series df key = Ok xs -> map snd (filter (has_label key) df) = [NumCol xs].
Proof.
  unfold numeric_series. intros H. bind_inv H.
  apply as_numeric_Ok in H. subst. eapply series_Ok, Hx.
Qed.

(** ** Records of a frame and of a boolean selection of it *)

Lemma cells_length (c : column) : List.length (cells c) = column_length c.
Proof. destruct c; simpl; apply length_map. Qed.

Lemma cells_column_take (mask : list bool) (c : column) :
  cells (column_take mask c) = take_mask mask (cells c).
Proof. destruct c; simpl; symmetry; apply take_mask_map. Qed.

Lemma take_mask_nil {A : Type} (mask : list bool) : take_mask mask (@nil A) = [].
Proof. destruct mask; reflexivity. Qed.

Lemma records_of_length (n : nat) (df : DataFrame) :
  Forall (fun kc => column_length (snd kc) = n) df ->
  List.length (records_of n df) = n.
Proof.
  induction 1 as [|[k c] df Hc _ IH]; simpl.
  - apply repeat_length.
  - simpl in Hc. rewrite zip_with_length.
    + rewrite cells_length. exact Hc.
    + rewrite cells_length, Hc. symmetry. exact IH.
Qed.

Lemma records_of_boolean_index (mask : list bool) (n : nat) (df : DataFrame) :
  records_of (List.length (take_mask mask (repeat tt n))) (boolean_index mask df)
  = take_mask mask (records_of n df).
Proof.
  induction df as [|[k c] df IH]; simpl.
  - apply take_mask_repeat_unit.
  - rewrite cells_column_take, IH, take_mask_zip_with. reflexivity.
Qed.

Lemma column_take_length (mask : list bool) (c : column) :
  column_length (column_take mask c)
  = List.length (take_mask mask (repeat tt (column_length c))).
Proof.
  destruct c; simpl; apply take_mask_length_indep; rewrite repeat_length; reflexivity.
Qed.

Lemma records_boolean_index (mask : list bool) (df : DataFrame) :
  records (boolean_index mask df) = take_mask mask (records df).
Proof.
  unfold records. destruct df as [|[k c] df].
  - simpl. rewrite take_mask_nil. reflexivity.
  - rewrite <- records_of_boolean_index. f_equal.
    simpl. apply column_take_length.
Qed.

Lemma map_zip_with_l {A B C D : Type} (f : A -> B -> C) (g : C -> D) (h : A -> D) :
  (forall x y, g (f x y) = h x) ->
  forall (a : list A) (b : list B),
    List.length a = List.length b -> map g (zip_with f a b) = map h a.
Proof.
  intros Hg. induction a as [|x a IH]; intros [|y b] H; simpl in *;
    try reflexivity; try discriminate.
  injection H as H. rewrite Hg, (IH b H). reflexivity.
Qed.

Lemma map_zip_with_r {A B C D : Type} (f : A -> B -> C) (g : C -> D) (h : B -> D) :
  (forall x y, g (f x y) = h y) ->
  forall (a : list A) (b : list B),
    List.length a = List.length b -> map g (zip_with f a b) = map h b.
Proof.
  intros Hg. induction a as [|x a IH]; intros [|y b] H; simpl in *;
    try reflexivity; try discriminate.
  injection H as H. rewrite Hg, (IH b H). reflexivity.
Qed.

(** The field of each record under a label is the cell of the first column
    that carries the label. *)
Lemma field_records_of (key : string) (n : nat) (df : DataFrame) :
  Forall (fun kc => column_length (snd kc) = n) df ->
  forall (col : column) (rest : list column),
    map snd (filter (has_label key) df) = col :: rest ->
    map (field key) (records_of n df) = map Some (cells col).
Proof.
  induction 1 as [|[k c] df Hc Hdf IH]; intros col rest Hsel; simpl in *.
  - discriminate.
  - assert (Hlen : List.length (cells c) = List.length (records_of n df)).
    { rewrite cells_length, records_of_length; assumption. }
    unfold has_label in Hsel at 1. simpl in Hsel.
    destruct (String.eqb k key) eqn:Hk.
    + simpl in Hsel. injection Hsel as Hcol _. subst c.
      apply map_zip_with_l; [|exact Hlen].
      intros x r. simpl. rewrite Hk. reflexivity.
    + rewrite (map_zip_with_r (fun x r => (k, x) :: r) (field key) (field key)).
      * apply (IH col rest Hsel).
      * intros x r. simpl. rewrite Hk. reflexivity.
      * exact Hlen.
Qed.

Lemma isin_in_selection (values : list string) (col : column) :
  isin col values = map (fun x => in_selection values (Some x)) (cells col).
Proof.
  destruct col; simpl; rewrite map_map; apply map_ext; intros [x|]; reflexivity.
Qed.

Lemma isin_records (e : exn) (df : DataFrame) (key : string) (values : list string)
      (col : column) :
  well_formed df ->
  series e df key = Ok col ->
  isin col values = map (fun r => in_selection values (field key r)) (records df).
Proof.
  intros Hwf Hcol. apply series_Ok in Hcol.
  rewrite isin_in_selection.
  rewrite <- (map_map Some (in_selection values)).
  rewrite <- (field_records_of key (nrows df) df Hwf col [] Hcol).
  rewrite map_map. reflexivity.
Qed.

Lemma filter_mask_records (df : DataFrame) (rf cf sf : list string) (mask : list bool) :
  well_formed df ->
  filter_mask df rf cf sf = Ok mask ->
  mask = map (selected rf cf sf) (records df).
Proof.
  intros Hwf H. unfold filter_mask in H.
  bind_inv H. bind_inv H. bind_inv H. injection H as <-.
  rewrite (isin_records _ _ _ rf _ Hwf Hx), (isin_records _ _ _ cf _ Hwf Hx0),
    (isin_records _ _ _ sf _ Hwf Hx1).
  rewrite !zip_with_map. reflexivity.
Qed.

Lemma filtered_view_records (df : DataFrame) (rf cf sf : list string) (data : DataFrame) :
  well_formed df ->
  filtered_view df rf cf sf = Ok data ->
  records data = filter (selected rf cf sf) (records df).
Proof.
  intros Hwf H. unfold filtered_view in H. bind_inv H. injection H as <-.
  rewrite records_boolean_index.
  rewrite (filter_mask_records _ _ _ _ _ Hwf Hx).
  apply take_mask_map_filter.
Qed.

Lemma in_selection_nil (x : option cell) : in_selection [] x = false.
Proof. destruct x as [[ | [s|] | | ]|]; reflexivity. Qed.

(** ** The filter (claim C2) *)

Lemma in_selection_true (values : list string) (x : option cell) :
  in_selection values x = true <->
  exists s, x = Some (CObj (Some s)) /\ In s values.
Proof.
  split.
  - destruct x as [[q|[s|]|d|p]|]; simpl; try discriminate.
    intros H. apply existsb_exists in H. destruct H as [v [Hin Heq]].
    apply String.eqb_eq in Heq. subst v. exists s. split; [reflexivity|exact Hin].
  - intros [s [-> Hin]]. simpl. apply existsb_exists.
    exists s. split; [exact Hin|apply String.eqb_refl].
Qed.

(** C2: a record is in the filtered view exactly when it is a record of the
    cleaned table whose region is among the selected regions, whose
    category is among the selected categories and whose segment is among
    the selected segments; with one selection empty the view has no
    record. *)
Theorem filtered_view_membership
        (df_clean : DataFrame) (region_filter category_filter segment_filter : list string)
        (data : DataFrame) :
  well_formed df_clean ->
  filtered_view df_clean region_filter category_filter segment_filter = Ok data ->
  (forall r : record,
      In r (records data) <->
      In r (records df_clean)
      /\ (exists region, field "order_region" r = Some (CObj (Some region))
                         /\ In region region_filter)
      /\ (exists category, field "category_name" r = Some (CObj (Some category))
                           /\ In category category_filter)
      /\ (exists segment, field "customer_segment" r = Some (CObj (Some segment))
                          /\ In segment segment_filter))
  /\ (region_filter = [] \/ category_filter = [] \/ segment_filter = [] ->
      records data = []).
Proof.
  intros Hwf Hview.
  pose proof (filtered_view_records _ _ _ _ _ Hwf Hview) as Hrec.
  split.
  - intros r. rewrite Hrec, filter_In. unfold selected.
    rewrite !andb_true_iff, !in_selection_true. tauto.
  - intros Hempty. rewrite Hrec.
    assert (Hnone : forall r, selected region_filter category_filter segment_filter r = false).
    { intros r. unfold selected.
      destruct Hempty as [ -> | [ -> | -> ] ]; rewrite in_selection_nil;
        rewrite ?andb_false_r; reflexivity. }
    clear Hrec.
    induction (records df_clean) as [|r l IH]; simpl; [reflexivity|].
    rewrite Hnone. exact IH.
Qed.

(** ** The KPI tiles on an empty view (claim C1) *)

Lemma selected_column_In (key : string) (df : DataFrame) (c : column) :
  map snd (filter (has_label key) df) = [c] -> In (key, c) df.
Proof.
  intros H.
  destruct (filter (has_label key) df) as [|[k c'] l] eqn:Hf; [discriminate|].
  simpl in H. destruct l; [|discriminate]. injection H as Hc. subst c'.
  assert (Hin : In (k, c) (filter (has_label key) df)) by (rewrite Hf; left; reflexivity).
  apply filter_In in Hin. destruct Hin as [Hin Hk].
  unfold has_label in Hk. simpl in Hk. apply String.eqb_eq in Hk. subst k. exact Hin.
Qed.

Lemma numeric_series_empty (data : DataFrame) (key : string) (xs : list (option Q)) :
  Forall (fun kc => column_length (snd kc) = 0%nat) data ->
  numeric_series data key = Ok xs -> xs = [].
Proof.
  intros Hempty H. apply numeric_series_Ok, selected_column_In in H.
  rewrite Forall_forall in Hempty. apply Hempty in H. simpl in H.
  destruct xs; [reflexivity|discriminate].
Qed.

(** C1, as the code behaves: on a view without rows the two sums are shown
    as "0", but the two means are the float [nan], handed to the tiles as
    they are; the monthly trend panel of the same tab shows its "no data"
    message instead. *)
Theorem kpi_tiles_empty_view (data : DataFrame) (k : KPIs) :
  Forall (fun kc => column_length (snd kc) = 0%nat) data ->
  kpi_tiles data = Ok k ->
  k = {| kpi_total_sales := MetricText "0";
         kpi_total_profit := MetricText "0";
         kpi_avg_lead_time := MetricFloat None;
         kpi_late_risk := MetricFloat None |}
  /\ monthly_trend data = Ok (InfoBox "No data available for current filter selection.").
Proof.
  intros Hempty H. split.
  - unfold kpi_tiles in H.
    bind_inv H. bind_inv H. bind_inv H. bind_inv H. injection H as <-.
    apply (numeric_series_empty _ _ _ Hempty) in Hx, Hx0, Hx1, Hx2.
    subst. reflexivity.
  - unfold monthly_trend, empty.
    destruct data as [|[k0 c0] data]; [reflexivity|].
    inversion Hempty as [|? ? Hc _]; subst. simpl in Hc.
    simpl. rewrite Hc. reflexivity.
Qed.

(** ** The top-15 table (claim C8) *)

Lemma by_sales_desc_total (a b : CatSegRow) :
  by_sales_desc a b = true \/ by_sales_desc b a = true.
Proof.
  unfold by_sales_desc. rewrite !Qle_bool_iff.
  destruct (Qlt_le_dec (total_sales a) (total_sales b)) as [H|H].
  - right. apply Qlt_le_weak, H.
  - left. exact H.
Qed.

Lemma by_sales_desc_trans (a b c : CatSegRow) :
  by_sales_desc a b = true -> by_sales_desc b c = true -> by_sales_desc a c = true.
Proof.
  unfold by_sales_desc. rewrite !Qle_bool_iff. intros Hab Hbc.
  apply Qle_trans with (total_sales b); assumption.
Qed.

Lemma StronglySorted_firstn {A : Type} (R : A -> A -> Prop) (n : nat) (l : list A) :
  StronglySorted R l -> StronglySorted R (firstn n l).
Proof.
  intros Hs. revert n.
  induction Hs as [|x l Hs IH Hx]; intros [|n]; simpl; try constructor.
  - apply IH.
  - rewrite Forall_forall in *. intros y Hy. apply Hx.
    rewrite <- (firstn_skipn n l). apply in_or_app. left. exact Hy.
Qed.

Lemma StronglySorted_impl {A : Type} (R S : A -> A -> Prop) (l : list A) :
  (forall a b, R a b -> S a b) -> StronglySorted R l -> StronglySorted S l.
Proof.
  intros HRS. induction 1 as [|x l Hs IH Hx]; constructor.
  - exact IH.
  - eapply Forall_impl; [|exact Hx]. intros y. apply HRS.
Qed.

(** C8: the displayed table has at most fifteen lines, and no line has a
    larger [total_sales] than a line above it. *)
Theorem top_cat_seg_sorted (data : DataFrame) (t : list CatSegRow) :
  top_cat_seg data = Ok t ->
  (List.length t <= 15)%nat
  /\ StronglySorted (fun above below => (total_sales below <= total_sales above)%Q) t.
Proof.
  intros H. unfold top_cat_seg in H. bind_inv H. apply Ok_inj in H. subst t.
  split.
  - apply firstn_le_length.
  - apply StronglySorted_firstn.
    apply StronglySorted_impl with (R := fun a b => by_sales_desc a b = true).
    + intros a b Hab. apply Qle_bool_iff. exact Hab.
    + apply sort_sorted.
      * apply by_sales_desc_total.
      * apply by_sales_desc_trans.
Qed.

(** ** The mode of a categorical column (claims C10 and C5) *)

Lemma dropna_In {A : Type} (xs : list (option A)) (v : A) :
  In v (dropna xs) <-> In (Some v) xs.
Proof.
  unfold dropna. rewrite in_flat_map. split.
  - intros [[w|] [Hin Hv]]; simpl in Hv; [|contradiction].
    destruct Hv as [->|[]]. exact Hin.
  - intros Hin. exists (Some v). split; [exact Hin|left; reflexivity].
Qed.

Lemma dropna_all_missing {A : Type} (xs : list (option A)) :
  Forall (fun x => x = None) xs -> dropna xs = [].
Proof.
  induction 1 as [|x xs Hx _ IH]; simpl; [reflexivity|].
  rewrite Hx. exact IH.
Qed.

Section MaxOver.
Variable f : string -> nat.

Lemma max_over_ge (l : list string) (v : string) :
  In v l -> (f v <= fold_right (fun w m => Nat.max (f w) m) 0 l)%nat.
Proof.
  induction l as [|w l IH]; simpl; [contradiction|].
  intros [->|Hin]; [lia|]. specialize (IH Hin). lia.
Qed.

Lemma max_over_attained (l : list string) :
  l <> [] -> exists v, In v l /\ f v = fold_right (fun w m => Nat.max (f w) m) 0%nat l.
Proof.
  induction l as [|w l IH]; [congruence|]. intros _.
  destruct l as [|w' l'].
  - exists w. split; [left; reflexivity|]. simpl. lia.
  - destruct IH as [v [Hin Hv]]; [discriminate|].
    remember (w' :: l') as l eqn:Hl. simpl.
    destruct (Nat.le_gt_cases (f v) (f w)) as [Hle|Hgt].
    + exists w. split; [left; reflexivity|]. lia.
    + exists v. split; [right; exact Hin|]. lia.
Qed.
End MaxOver.

Lemma count_le_max_count (vs : list string) (v : string) :
  In v vs -> (count_of v vs <= max_count vs)%nat.
Proof.
  intros Hin. unfold max_count.
  apply (max_over_ge (fun w => count_of w vs)).
  unfold unique. apply nodup_In. exact Hin.
Qed.

(** The elements of [mode xs] are exactly the non-missing values of [xs]
    whose number of occurrences is the largest one. *)
Lemma mode_In (xs : list (option string)) (v : string) :
  In v (mode xs) <->
  In (Some v) xs /\ count_of v (dropna xs) = max_count (dropna xs).
Proof.
  unfold mode. rewrite sort_In, filter_In. unfold unique.
  rewrite nodup_In, dropna_In, Nat.eqb_eq. tauto.
Qed.

Lemma mode_nonempty (xs : list (option string)) (v : string) :
  In (Some v) xs -> mode xs <> [].
Proof.
  intros Hin Hnil.
  assert (Hne : unique (dropna xs) <> []).
  { intros H. apply dropna_In in Hin.
    apply (nodup_In string_dec) in Hin. unfold unique in H. rewrite H in Hin.
    contradiction. }
  destruct (max_over_attained (fun w => count_of w (dropna xs)) _ Hne) as [w [Hw Hmax]].
  assert (Hmode : In w (mode xs)).
  { apply mode_In. split.
    - apply dropna_In. unfold unique in Hw. apply nodup_In in Hw. exact Hw.
    - exact Hmax. }
  rewrite Hnil in Hmode. contradiction.
Qed.

Lemma mode_all_missing (xs : list (option string)) :
  Forall (fun x => x = None) xs -> mode xs = [].
Proof.
  intros H. unfold mode. rewrite (dropna_all_missing xs H). reflexivity.
Qed.

Lemma mode_head (xs : list (option string)) (m : string) (rest : list string) :
  mode xs = m :: rest ->
  In (Some m) xs
  /\ (forall v, In (Some v) xs ->
                (count_of v (dropna xs) <= count_of m (dropna xs))%nat)
  /\ (forall v, In (Some v) xs ->
                count_of v (dropna xs) = count_of m (dropna xs) ->
                String.leb m v = true).
Proof.
  intros Hmode.
  assert (Hm : In m (mode xs)) by (rewrite Hmode; left; reflexivity).
  apply mode_In in Hm. destruct Hm as [Hin Hmax].
  split; [exact Hin|]. split.
  - intros v Hv. rewrite Hmax. apply count_le_max_count, dropna_In, Hv.
  - intros v Hv Hcount.
    assert (Hvm : In v (filter (fun w => Nat.eqb (count_of w (dropna xs))
                                                 (max_count (dropna xs)))
                               (unique (dropna xs)))).
    { apply filter_In. split.
      - unfold unique. apply nodup_In, dropna_In, Hv.
      - apply Nat.eqb_eq. congruence. }
    destruct (sort_head_least string String.leb String.leb_total string_leb_trans
                              _ m rest Hmode v Hvm) as [->|H].
    + apply string_leb_refl.
    + exact H.
Qed.

(** C10: a column with at least one value present is filled with one
    definite value [m]: it occurs in the column, no value occurs more
    often, it is the smallest (in string order) of the values that occur as
    often, and it is the only value with these three properties. *)
Theorem impute_categorical_fills_least_mode (xs : list (option string)) (v0 : string) :
  In (Some v0) xs ->
  exists m : string,
    impute_categorical (ObjCol xs) = Ok (ObjCol (fillna m xs))
    /\ In (Some m) xs
    /\ (forall v, In (Some v) xs ->
                  (count_of v (dropna xs) <= count_of m (dropna xs))%nat)
    /\ (forall v, In (Some v) xs ->
                  count_of v (dropna xs) = count_of m (dropna xs) ->
                  String.leb m v = true)
    /\ (forall m', In (Some m') xs ->
                   (forall v, In (Some v) xs ->
                              (count_of v (dropna xs) <= count_of m' (dropna xs))%nat) ->
                   (forall v, In (Some v) xs ->
                              count_of v (dropna xs) = count_of m' (dropna xs) ->
                              String.leb m' v = true) ->
                   m' = m).
Proof.
  intros Hv0.
  destruct (mode xs) as [|m rest] eqn:Hmode.
  - exfalso. exact (mode_nonempty xs v0 Hv0 Hmode).
  - destruct (mode_head xs m rest Hmode) as [Hin [Hmost Hleast]].
    exists m. split; [|split; [exact Hin|split; [exact Hmost|split; [exact Hleast|]]]].
    + simpl. rewrite Hmode. reflexivity.
    + intros m' Hin' Hmost' Hleast'.
      assert (Hc : count_of m' (dropna xs) = count_of m (dropna xs)).
      { apply Nat.le_antisymm; [apply Hmost, Hin'|apply Hmost', Hin]. }
      apply String.leb_antisym.
      * apply Hleast'; [exact Hin|congruence].
      * apply Hleast; [exact Hin'|exact Hc].
Qed.

(** A loop over the columns raises as soon as one body does. *)
Lemma for_columns_raises (f : column -> result column) (df : DataFrame)
      (k : string) (c : column) (e : exn) :
  In (k, c) df ->
  f c = Raise e ->
  (forall c' e', f c' = Raise e' -> e' = e) ->
  for_columns f df = Raise e.
Proof.
  intros Hin Hfc Honly.
  induction df as [|[k' c'] df IH]; simpl; [contradiction|].
  destruct (f c') as [c''|e'] eqn:Hf'; simpl.
  - destruct Hin as [Heq|Hin].
    + injection Heq as _ Hc. subst c'. congruence.
    + rewrite (IH Hin). reflexivity.
  - rewrite (Honly c' e' Hf'). reflexivity.
Qed.

Lemma impute_categorical_raises_only_lookup (c : column) (e : exn) :
  impute_categorical c = Raise e -> e = LookupError.
Proof.
  destruct c as [xs|xs|xs|xs]; simpl; try discriminate.
  destruct (mode xs); simpl; congruence.
Qed.

(** ** Labels, [getitem] and [setitem] *)

Lemma has_label_true (key : string) (kc : string * column) :
  has_label key kc = true <-> fst kc = key.
Proof. unfold has_label. apply String.eqb_eq. Qed.

Lemma existsb_has_label (key : string) (df : DataFrame) :
  existsb (has_label key) df = true <-> In key (columns df).
Proof.
  unfold columns. rewrite existsb_exists, in_map_iff. split.
  - intros [kc [Hin Hk]]. exists kc. split; [apply has_label_true, Hk|exact Hin].
  - intros [kc [Hk Hin]]. exists kc. split; [exact Hin|apply has_label_true, Hk].
Qed.

Lemma filter_none {A : Type} (p : A -> bool) (l : list A) :
  (forall x, In x l -> p x = false) -> filter p l = [].
Proof.
  induction l as [|x l IH]; simpl; intros H; [reflexivity|].
  rewrite (H x (or_introl eq_refl)). apply IH. intros y Hy. apply H. right. exact Hy.
Qed.

Lemma filter_has_label_NoDup (key : string) (df : DataFrame) (c : column) :
  NoDup (columns df) -> In (key, c) df -> filter (has_label key) df = [(key, c)].
Proof.
  unfold columns. induction df as [|[k' c'] df IH]; simpl; [contradiction|].
  intros Hnd Hin. inversion Hnd as [|? ? Hnotin Hnd']; subst.
  unfold has_label at 1. simpl.
  destruct Hin as [Heq|Hin].
  - injection Heq as -> ->. rewrite String.eqb_refl. f_equal.
    apply filter_none. intros [k2 c2] Hin2. unfold has_label. simpl.
    apply String.eqb_neq. intros ->.
    apply Hnotin. apply in_map_iff. exists (key, c2). split; [reflexivity|exact Hin2].
  - destruct (String.eqb k' key) eqn:Hk.
    + apply String.eqb_eq in Hk. subst k'. exfalso. apply Hnotin.
      apply in_map_iff. exists (key, c). split; [reflexivity|exact Hin].
    + apply IH; assumption.
Qed.

Lemma getitem_NoDup_In (key : string) (df : DataFrame) (c : column) :
  NoDup (columns df) -> In (key, c) df -> getitem df key = Ok (Series c).
Proof.
  intros Hnd Hin. unfold getitem.
  rewrite (filter_has_label_NoDup key df c Hnd Hin). reflexivity.
Qed.

Lemma getitem_Series_In (key : string) (df : DataFrame) (c : column) :
  getitem df key = Ok (Series c) -> In (key, c) df.
Proof. intros H. apply selected_column_In, getitem_Series_inv, H. Qed.

(** When [df[key]] is a Series, it is the only column under that label. *)
Lemma getitem_Series_unique (key : string) (df : DataFrame) (c c' : column) :
  getitem df key = Ok (Series c) -> In (key, c') df -> c' = c.
Proof.
  intros H Hin. apply getitem_Series_inv in H.
  assert (Hf : In (key, c') (filter (has_label key) df)).
  { apply filter_In. split; [exact Hin|]. apply has_label_true. reflexivity. }
  apply (in_map snd) in Hf. rewrite H in Hf. simpl in Hf.
  destruct Hf as [Hf|[]]. symmetry. exact Hf.
Qed.

Lemma existsb_label_columns (key : string) (df : DataFrame) :
  existsb (has_label key) df = existsb (String.eqb key) (columns df).
Proof.
  unfold columns. induction df as [|[k c] df IH]; simpl; [reflexivity|].
  unfold has_label at 1. simpl. rewrite IH, (String.eqb_sym k key). reflexivity.
Qed.

Lemma columns_setitem (df : DataFrame) (key : string) (col : column) :
  columns (setitem df key col) = add_label key (columns df).
Proof.
  unfold setitem, add_label. rewrite <- existsb_label_columns.
  destruct (existsb (has_label key) df).
  - unfold columns. rewrite map_map. apply map_ext.
    intros kc. destruct (has_label key kc); reflexivity.
  - unfold columns. rewrite map_app. reflexivity.
Qed.

Lemma In_add_label (key k : string) (labels : list string) :
  In k (add_label key labels) <-> k = key \/ In k labels.
Proof.
  unfold add_label. destruct (existsb (String.eqb key) labels) eqn:He.
  - split; [tauto|]. intros [->|H]; [|exact H].
    apply existsb_exists in He. destruct He as [x [Hx Heq]].
    apply String.eqb_eq in Heq. subst x. exact Hx.
  - rewrite in_app_iff. simpl. intuition congruence.
Qed.

Lemma NoDup_add_label (key : string) (labels : list string) :
  NoDup labels -> NoDup (add_label key labels).
Proof.
  intros Hnd. unfold add_label.
  destruct (existsb (String.eqb key) labels) eqn:He; [exact Hnd|].
  apply NoDup_app; [exact Hnd|repeat constructor; simpl; tauto|].
  intros x Hx [Heq|[]]. subst x.
  assert (Ht : existsb (String.eqb key) labels = true).
  { apply existsb_exists. exists key. split; [exact Hx|apply String.eqb_refl]. }
  congruence.
Qed.

Lemma NoDup_setitem (df : DataFrame) (key : string) (col : column) :
  NoDup (columns df) -> NoDup (columns (setitem df key col)).
Proof. intros H. rewrite columns_setitem. apply NoDup_add_label, H. Qed.

Lemma In_setitem_same (df : DataFrame) (key : string) (col : column) :
  In (key, col) (setitem df key col).
Proof.
  unfold setitem. destruct (existsb (has_label key) df) eqn:He.
  - apply existsb_exists in He. destruct He as [[k c] [Hin Hk]].
    apply in_map_iff. exists (k, c). split; [|exact Hin].
    rewrite Hk. apply has_label_true in Hk. simpl in Hk. subst k. reflexivity.
  - apply in_or_app. right. left. reflexivity.
Qed.

Lemma In_setitem_other (df : DataFrame) (key k : string) (col c : column) :
  k <> key -> (In (k, c) (setitem df key col) <-> In (k, c) df).
Proof.
  intros Hne. unfold setitem. destruct (existsb (has_label key) df).
  - rewrite in_map_iff. split.
    + intros [[k' c'] [Heq Hin]].
      destruct (has_label key (k', c')) eqn:Hl.
      * apply has_label_true in Hl. simpl in *. congruence.
      * rewrite Heq in Hin. exact Hin.
    + intros Hin. exists (k, c). split; [|exact Hin].
      destruct (has_label key (k, c)) eqn:Hl; [|reflexivity].
      apply has_label_true in Hl. simpl in Hl. congruence.
  - rewrite in_app_iff. simpl. intuition congruence.
Qed.

Lemma setitem_setitem (df : DataFrame) (key : string) (a b : column) :
  setitem (setitem df key a) key b = setitem df key b.
Proof.
  unfold setitem at 1.
  assert (He : existsb (has_label key) (setitem df key a) = true).
  { apply existsb_exists. exists (key, a).
    split; [apply In_setitem_same|apply has_label_true; reflexivity]. }
  rewrite He. unfold setitem.
  destruct (existsb (has_label key) df) eqn:Hd.
  - rewrite map_map. apply map_ext. intros [k c].
    destruct (has_label key (k, c)) eqn:Hl; simpl.
    + unfold has_label in *. simpl in *. rewrite Hl. reflexivity.
    + rewrite Hl. reflexivity.
  - rewrite map_app. simpl. unfold has_label at 2. simpl. rewrite String.eqb_refl.
    f_equal. rewrite <- (map_id df) at 2. apply map_ext_in.
    intros kc Hin. destruct (has_label key kc) eqn:Hl; [|reflexivity].
    exfalso.
    assert (Ht : existsb (has_label key) df = true).
    { apply existsb_exists. exists kc. split; assumption. }
    congruence.
Qed.

Lemma In_rename_columns (f : string -> string) (df : DataFrame) (k : string) (c : column) :
  In (k, c) df -> In (f k, c) (rename_columns f df).
Proof.
  intros Hin. unfold rename_columns. apply in_map_iff.
  exists (k, c). split; [reflexivity|exact Hin].
Qed.


(** ** The stages of the dataset builder *)

Lemma columns_of_raw (raw : RawFrame) : columns (of_raw raw) = map fst raw.
Proof. unfold columns, of_raw. rewrite map_map. reflexivity. Qed.

Lemma NoDup_columns_filter (p : string * column -> bool) (df : DataFrame) :
  NoDup (columns df) -> NoDup (columns (filter p df)).
Proof.
  unfold columns. induction df as [|kc df IH]; simpl; intros Hnd; [constructor|].
  inversion Hnd as [|? ? Hnotin Hnd']; subst.
  destruct (p kc); simpl; [|apply IH, Hnd'].
  constructor; [|apply IH, Hnd'].
  intros Hin. apply Hnotin. apply in_map_iff in Hin.
  destruct Hin as [kc' [Heq Hin]]. apply filter_In in Hin.
  apply in_map_iff. exists kc'. tauto.
Qed.

Lemma for_columns_Ok (f : column -> result column) (df df' : DataFrame) :
  for_columns f df = Ok df' ->
  columns df' = columns df
  /\ (forall k c', In (k, c') df' -> exists c, In (k, c) df /\ f c = Ok c').
Proof.
  revert df'. induction df as [|[k c] df IH]; simpl; intros df' H.
  - apply Ok_inj in H. subst df'. split; [reflexivity|]. intros k c' [].
  - bind_inv H. bind_inv H. apply Ok_inj in H. subst df'.
    destruct (IH x0 Hx0) as [Hcols Hin]. split.
    + simpl. f_equal. exact Hcols.
    + intros k' c' [Heq|Hin'].
      * injection Heq as <- <-. exists c. split; [left; reflexivity|exact Hx].
      * destruct (Hin k' c' Hin') as [c0 [Hc0 Hf]].
        exists c0. split; [right; exact Hc0|exact Hf].
Qed.

Lemma fillna_all_present {A : Type} (v : A) (xs : list (option A)) :
  all_present (fillna v xs).
Proof.
  unfold all_present, fillna. apply Forall_forall. intros x Hx.
  apply in_map_iff in Hx. destruct Hx as [[y|] [Heq _]]; subst x; discriminate.
Qed.

Lemma ffill_from_length (last : option Q) (xs : list (option Q)) :
  List.length (ffill_from last xs) = List.length xs.
Proof.
  revert last. induction xs as [|[x|] xs IH]; intros last; simpl;
    try reflexivity; rewrite IH; reflexivity.
Qed.

(** After the two imputation loops a column of the raw table is numeric or
    categorical as before, has its length, and has no missing value. *)
Lemma imputed_column (rc : raw_column) (c : column) :
  impute_categorical (impute_numeric (of_raw_column rc)) = Ok c ->
  (exists xs, c = NumCol xs /\ all_present xs /\ List.length xs = raw_length rc)
  \/ (exists xs, c = ObjCol xs /\ all_present xs /\ List.length xs = raw_length rc).
Proof.
  destruct rc as [xs|xs]; simpl; intros H.
  - apply Ok_inj in H. subst c. left. eexists. split; [reflexivity|]. split.
    + apply fillna_all_present.
    + unfold fillna, ffill. rewrite length_map, ffill_from_length. reflexivity.
  - bind_inv H. apply Ok_inj in H. subst c. right. eexists. split; [reflexivity|]. split.
    + apply fillna_all_present.
    + unfold fillna. rewrite length_map. reflexivity.
Qed.

Section BuilderFacts.
Variable to_datetime : column -> list (option Z).

Lemma drop_and_impute_inv (raw : RawFrame) (df1 : DataFrame) :
  NoDup (map fst raw) ->
  drop_and_impute raw = Ok df1 ->
  NoDup (columns df1)
  /\ columns df1 = columns (drop drop_cols (of_raw raw))
  /\ (forall k c, In (k, c) df1 ->
                  exists rc, In (k, rc) raw
                             /\ impute_categorical (impute_numeric (of_raw_column rc)) = Ok c).
Proof.
  intros Hnd H. unfold drop_and_impute in H.
  destruct (for_columns_Ok _ _ _ H) as [Hcols Hin].
  assert (Hcols' : columns df1 = columns (drop drop_cols (of_raw raw))).
  { rewrite Hcols. unfold columns. rewrite map_map. reflexivity. }
  split; [|split; [exact Hcols'|]].
  - rewrite Hcols'. unfold drop. apply NoDup_columns_filter.
    rewrite columns_of_raw. exact Hnd.
  - intros k c Hkc. destruct (Hin k c Hkc) as [c0 [Hc0 Hf]].
    apply in_map_iff in Hc0. destruct Hc0 as [[k1 c1] [Heq Hc1]].
    simpl in Heq. injection Heq as -> <-.
    unfold drop in Hc1. apply filter_In in Hc1. destruct Hc1 as [Hc1 _].
    unfold of_raw in Hc1. apply in_map_iff in Hc1.
    destruct Hc1 as [[k2 rc] [Heq Hrc]]. simpl in Heq. injection Heq as -> <-.
    exists rc. split; [exact Hrc|exact Hf].
Qed.

Lemma add_dates_inv (df1 df2 : DataFrame) :
  add_dates to_datetime df1 = Ok df2 ->
  exists oc sc,
    In ("order date (DateOrders)", oc) df1
    /\ In ("shipping date (DateOrders)", sc) df1
    /\ df2 = setitem (setitem df1 "order_date" (DateCol (to_datetime oc)))
                     "shipping_date" (DateCol (to_datetime sc)).
Proof.
  intros H. unfold add_dates in H.
  bind_inv H. bind_inv H. bind_inv H. bind_inv H. apply Ok_inj in H.
  apply as_series_Ok in Hx0, Hx2. subst x x1.
  apply getitem_Series_In in Hx, Hx1.
  apply In_setitem_other in Hx1; [|discriminate].
  exists x0, x2. split; [exact Hx|]. split; [exact Hx1|]. symmetry. exact H.
Qed.

Lemma dt_accessor_Ok (c : column) (xs : list (option Z)) :
  dt_accessor c = Ok xs -> c = DateCol xs.
Proof. destruct c; simpl; congruence. Qed.

Lemma add_lead_time_inv (df2 df3 : DataFrame) (od sd : list (option Z)) :
  NoDup (columns df2) ->
  In ("order_date", DateCol od) df2 ->
  In ("shipping_date", DateCol sd) df2 ->
  add_lead_time df2 = Ok df3 ->
  exists dcol lt,
    In ("Days for shipping (real)", dcol) df2
    /\ fill_and_clip (dt_days (sub_datetime sd od)) dcol = Ok lt
    /\ df3 = setitem df2 "lead_time_days" lt.
Proof.
  intros Hnd Ho Hs H. unfold add_lead_time in H.
  rewrite (getitem_NoDup_In _ _ _ Hnd Hs) in H.
  rewrite (getitem_NoDup_In _ _ _ Hnd Ho) in H.
  cbn [bind as_series dt_accessor] in H.
  rewrite (getitem_NoDup_In "lead_time_days" _ _
             (NoDup_setitem _ _ _ Hnd) (In_setitem_same _ _ _)) in H.
  cbn [bind as_series as_numeric] in H.
  bind_inv H. bind_inv H. bind_inv H. apply Ok_inj in H.
  apply as_series_Ok in Hx0. subst x.
  apply getitem_Series_In in Hx.
  apply In_setitem_other in Hx; [|discriminate].
  rewrite setitem_setitem in H.
  exists x0, x1. split; [exact Hx|]. split; [exact Hx1|]. symmetry. exact H.
Qed.

Lemma normalize_and_add_month_inv (df3 out : DataFrame) (od : list (option Z)) :
  In ("order_date", DateCol od) df3 ->
  normalize_and_add_month df3 = Ok out ->
  getitem (rename_columns normalize_name df3) "order_date" = Ok (Series (DateCol od))
  /\ out = setitem (rename_columns normalize_name df3) "order_month"
                   (PeriodCol (to_period_M od)).
Proof.
  intros Ho H. unfold normalize_and_add_month in H.
  bind_inv H. bind_inv H. bind_inv H. apply Ok_inj in H.
  apply as_series_Ok in Hx0. subst x.
  apply dt_accessor_Ok in Hx1. subst x0.
  assert (Heq : DateCol od = DateCol x1).
  { apply (getitem_Series_unique _ _ _ _ Hx).
    apply (In_rename_columns normalize_name) in Ho. exact Ho. }
  injection Heq as ->. split; [exact Hx|]. symmetry. exact H.
Qed.

(** What a successful build is made of. *)
Lemma build_dataset_from_inv (raw : RawFrame) (out : DataFrame) :
  NoDup (map fst raw) ->
  build_dataset_from to_datetime raw = Ok out ->
  exists df1 oc sc dcol lt,
    drop_and_impute raw = Ok df1
    /\ NoDup (columns df1)
    /\ In ("order date (DateOrders)", oc) df1
    /\ In ("shipping date (DateOrders)", sc) df1
    /\ In ("Days for shipping (real)", dcol) df1
    /\ fill_and_clip (dt_days (sub_datetime (to_datetime sc) (to_datetime oc))) dcol = Ok lt
    /\ getitem (rename_columns normalize_name (before_rename to_datetime df1 oc sc lt)) "order_date"
       = Ok (Series (DateCol (to_datetime oc)))
    /\ out = setitem (rename_columns normalize_name (before_rename to_datetime df1 oc sc lt))
                     "order_month" (PeriodCol (to_period_M (to_datetime oc))).
Proof.
  intros Hnd H. unfold build_dataset_from in H.
  bind_inv H. bind_inv H. bind_inv H.
  destruct (drop_and_impute_inv raw x Hnd Hx) as [Hnd1 _].
  destruct (add_dates_inv _ _ Hx0) as [oc [sc [Hoc [Hsc Hdf2]]]].
  assert (Hnd2 : NoDup (columns x0)).
  { subst x0. apply NoDup_setitem, NoDup_setitem, Hnd1. }
  assert (Ho2 : In ("order_date", DateCol (to_datetime oc)) x0).
  { subst x0. apply In_setitem_other; [discriminate|]. apply In_setitem_same. }
  assert (Hs2 : In ("shipping_date", DateCol (to_datetime sc)) x0).
  { subst x0. apply In_setitem_same. }
  destruct (add_lead_time_inv _ _ _ _ Hnd2 Ho2 Hs2 Hx1) as [dcol [lt [Hd [Hfill Hdf3]]]].
  assert (Ho3 : In ("order_date", DateCol (to_datetime oc)) x1).
  { subst x1. apply In_setitem_other; [discriminate|]. exact Ho2. }
  destruct (normalize_and_add_month_inv _ _ _ Ho3 H) as [Hget Hout].
  exists x, oc, sc, dcol, lt.
  split; [exact Hx|]. split; [exact Hnd1|]. split; [exact Hoc|]. split; [exact Hsc|].
  split.
  { subst x0. apply In_setitem_other in Hd; [|discriminate].
    apply In_setitem_other in Hd; [|discriminate]. exact Hd. }
  split; [exact Hfill|].
  unfold before_rename. subst x1 x0. split; [exact Hget|exact Hout].
Qed.

End BuilderFacts.

(** ** Lead time, row by row (claims C3 and C4) *)

Lemma nth_error_sub_datetime (a b : list (option Z)) (i : nat) (x y : option Z) :
  nth_error a i = Some x ->
  nth_error b i = Some y ->
  nth_error (sub_datetime a b) i
  = Some (match x, y with
          | Some s, Some o => Some (s - o)%Z
          | _, _ => None
          end).
Proof.
  revert a b. induction i as [|i IH]; intros [|x' a] [|y' b]; simpl; try discriminate.
  - intros Hx Hy. injection Hx as ->. injection Hy as ->. reflexivity.
  - apply IH.
Qed.

Lemma nth_error_fillna_series {A : Type} (xs fill : list (option A)) (i : nat)
      (x v : option A) :
  nth_error xs i = Some x ->
  nth_error fill i = Some v ->
  nth_error (fillna_series xs fill) i
  = Some (match x with Some _ => x | None => v end).
Proof.
  revert xs fill. induction i as [|i IH]; intros [|x' xs] [|v' fill]; simpl; try discriminate.
  - intros Hx Hv. injection Hx as ->. injection Hv as ->. reflexivity.
  - apply IH.
Qed.

Lemma nth_error_lead (od sd : list (option Z)) (i : nat) (o s : option Z) :
  nth_error od i = Some o ->
  nth_error sd i = Some s ->
  nth_error (dt_days (sub_datetime sd od)) i
  = Some (match o, s with
          | Some a, Some b => Some (inject_Z ((b - a) / ns_per_day))
          | _, _ => None
          end).
Proof.
  intros Ho Hs. unfold dt_days.
  rewrite nth_error_map, (nth_error_sub_datetime sd od i s o Hs Ho).
  destruct o, s; reflexivity.
Qed.

Lemma fill_and_clip_rowwise (od sd : list (option Z)) (dcol ltcol : column) :
  fill_and_clip (dt_days (sub_datetime sd od)) dcol = Ok ltcol ->
  exists lt,
    ltcol = NumCol lt
    /\ forall i o s d,
      nth_error od i = Some o ->
      nth_error sd i = Some s ->
      nth_error (cells dcol) i = Some d ->
      nth_error lt i = Some (lead_time_days_of o s d).
Proof.
  intros H.
  assert (Hother :
            forall (d : cell),
              (forall x, d <> CNum x) ->
              forall i o s,
                nth_error od i = Some o -> nth_error sd i = Some s ->
                nth_error (clip_lower0 (dt_days (sub_datetime sd od))) i
                = Some (lead_time_days_of o s d)).
  { intros d Hd i o s Ho Hs. unfold clip_lower0.
    rewrite nth_error_map, (nth_error_lead od sd i o s Ho Hs).
    unfold lead_time_days_of. destruct o, s, d; try reflexivity;
      exfalso; eapply Hd; reflexivity. }
  destruct dcol as [ds|ds|ds|ds]; simpl in H.
  - apply Ok_inj in H. subst ltcol. eexists. split; [reflexivity|].
    intros i o s d Ho Hs Hd. simpl in Hd. rewrite nth_error_map in Hd.
    destruct (nth_error ds i) as [v|] eqn:Hv; [|discriminate].
    simpl in Hd. injection Hd as <-.
    unfold clip_lower0. rewrite nth_error_map.
    rewrite (nth_error_fillna_series _ ds i _ v (nth_error_lead od sd i o s Ho Hs) Hv).
    unfold lead_time_days_of. destruct o, s; reflexivity.
  - destruct (fill_hits _ ds); [discriminate|].
    apply Ok_inj in H. subst ltcol. eexists. split; [reflexivity|].
    intros i o s d Ho Hs Hd. simpl in Hd. rewrite nth_error_map in Hd.
    destruct (nth_error ds i); [|discriminate]. simpl in Hd. injection Hd as <-.
    apply Hother; [discriminate|exact Ho|exact Hs].
  - destruct (fill_hits _ ds); [discriminate|].
    apply Ok_inj in H. subst ltcol. eexists. split; [reflexivity|].
    intros i o s d Ho Hs Hd. simpl in Hd. rewrite nth_error_map in Hd.
    destruct (nth_error ds i); [|discriminate]. simpl in Hd. injection Hd as <-.
    apply Hother; [discriminate|exact Ho|exact Hs].
  - destruct (fill_hits _ ds); [discriminate|].
    apply Ok_inj in H. subst ltcol. eexists. split; [reflexivity|].
    intros i o s d Ho Hs Hd. simpl in Hd. rewrite nth_error_map in Hd.
    destruct (nth_error ds i); [|discriminate]. simpl in Hd. injection Hd as <-.
    apply Hother; [discriminate|exact Ho|exact Hs].
Qed.

Lemma clip_low_nonneg (q : Q) : (0 <= clip_low q)%Q.
Proof.
  unfold clip_low. destruct (Qle_bool 0 q) eqn:H.
  - apply Qle_bool_iff, H.
  - apply Qle_refl.
Qed.

Lemma lead_time_days_of_late (o s : Z) (d : cell) :
  (s < o)%Z -> lead_time_days_of (Some o) (Some s) d = Some 0%Q.
Proof.
  intros Hlt. unfold lead_time_days_of, clip_low. simpl.
  assert (Hneg : ((s - o) / ns_per_day < 0)%Z).
  { apply Z.div_lt_upper_bound; [reflexivity|]. lia. }
  destruct (Qle_bool 0 (inject_Z ((s - o) / ns_per_day))) eqn:Hle; [|reflexivity].
  apply Qle_bool_iff in Hle. unfold Qle in Hle. simpl in Hle. lia.
Qed.

Lemma lead_time_days_of_whole_days (o k : Z) (d : cell) :
  (0 <= k)%Z ->
  lead_time_days_of (Some o) (Some (o + k * ns_per_day)%Z) d = Some (inject_Z k).
Proof.
  intros Hk. unfold lead_time_days_of, clip_low. simpl.
  replace (o + k * ns_per_day - o)%Z with (k * ns_per_day)%Z by lia.
  rewrite Z.div_mul by discriminate.
  destruct (Qle_bool 0 (inject_Z k)) eqn:Hle; [reflexivity|].
  assert (H : Qle_bool 0 (inject_Z k) = true).
  { apply Qle_bool_iff. unfold Qle. simpl. lia. }
  congruence.
Qed.

Lemma normalize_lead_time_days : normalize_name "lead_time_days" = "lead_time_days".
Proof. reflexivity. Qed.

Lemma normalize_order_date : normalize_name "order_date" = "order_date".
Proof. reflexivity. Qed.

Lemma normalize_shipping_date : normalize_name "shipping_date" = "shipping_date".
Proof. reflexivity. Qed.

Lemma normalize_days_real :
  normalize_name "Days for shipping (real)" = "days_for_shipping_real".
Proof. reflexivity. Qed.

Lemma normalize_order_date_source :
  normalize_name "order date (DateOrders)" = "order_date_dateorders".
Proof. reflexivity. Qed.

Lemma normalize_shipping_date_source :
  normalize_name "shipping date (DateOrders)" = "shipping_date_dateorders".
Proof. reflexivity. Qed.

Section LeadTime.
Variable to_datetime : column -> list (option Z).

(** A column of the frame before renaming is in the output under its
    normalized label, unless that label is [order_month]. *)
Lemma In_output (df1 : DataFrame) (oc sc lt : column) (k : string) (c : column)
      (month : column) :
  In (k, c) (before_rename to_datetime df1 oc sc lt) ->
  normalize_name k <> "order_month" ->
  In (normalize_name k, c)
     (setitem (rename_columns normalize_name (before_rename to_datetime df1 oc sc lt))
              "order_month" month).
Proof.
  intros Hin Hne. apply In_setitem_other; [exact Hne|].
  apply In_rename_columns, Hin.
Qed.

Lemma In_before_rename_source (df1 : DataFrame) (oc sc lt : column) (k : string)
      (c : column) :
  In (k, c) df1 ->
  k <> "order_date" -> k <> "shipping_date" -> k <> "lead_time_days" ->
  In (k, c) (before_rename to_datetime df1 oc sc lt).
Proof.
  intros Hin H1 H2 H3. unfold before_rename.
  apply In_setitem_other; [exact H3|].
  apply In_setitem_other; [exact H2|].
  apply In_setitem_other; [exact H1|]. exact Hin.
Qed.

(** C3: in a cleaned table the column [lead_time_days] is, row by row,
    the whole days from [order_date] to [shipping_date]; where one of the
    two dates is missing it is the value of "Days for shipping (real)";
    and in both cases it is clamped at 0.  The two dates are the parsed
    source columns.  Order on day 1 and shipping on day 4 give 3; a
    shipping date before the order date gives 0. *)
Theorem lead_time_days_derivation (raw : RawFrame) (out : DataFrame) :
  NoDup (map fst raw) ->
  build_dataset_from to_datetime raw = Ok out ->
  (exists oc sc dcol lt,
      In ("order_date_dateorders", oc) out
      /\ In ("shipping_date_dateorders", sc) out
      /\ In ("order_date", DateCol (to_datetime oc)) out
      /\ In ("shipping_date", DateCol (to_datetime sc)) out
      /\ In ("days_for_shipping_real", dcol) out
      /\ In ("lead_time_days", NumCol lt) out
      /\ forall i o s d,
          nth_error (to_datetime oc) i = Some o ->
          nth_error (to_datetime sc) i = Some s ->
          nth_error (cells dcol) i = Some d ->
          nth_error lt i = Some (lead_time_days_of o s d))
  /\ (forall d, lead_time_days_of (Some (1 * ns_per_day)%Z) (Some (4 * ns_per_day)%Z) d
                = Some 3%Q)
  /\ (forall o s d, (s < o)%Z -> lead_time_days_of (Some o) (Some s) d = Some 0%Q)
  /\ (forall o s q, o = None \/ s = None ->
                    lead_time_days_of o s (CNum (Some q)) = Some (clip_low q)).
Proof.
  intros Hnd H. split; [|split; [|split]].
  - destruct (build_dataset_from_inv to_datetime raw out Hnd H)
      as [df1 [oc [sc [dcol [ltcol [_ [_ [Hoc [Hsc [Hd [Hfill [_ Hout]]]]]]]]]]]].
    destruct (fill_and_clip_rowwise _ _ _ _ Hfill) as [lt [Hlt Hrows]].
    subst ltcol out. exists oc, sc, dcol, lt.
    split.
    { rewrite <- normalize_order_date_source. apply In_output; [|discriminate].
      apply In_before_rename_source; [exact Hoc|discriminate..]. }
    split.
    { rewrite <- normalize_shipping_date_source. apply In_output; [|discriminate].
      apply In_before_rename_source; [exact Hsc|discriminate..]. }
    split.
    { rewrite <- normalize_order_date. apply In_output; [|discriminate].
      unfold before_rename. apply In_setitem_other; [discriminate|].
      apply In_setitem_other; [discriminate|]. apply In_setitem_same. }
    split.
    { rewrite <- normalize_shipping_date. apply In_output; [|discriminate].
      unfold before_rename. apply In_setitem_other; [discriminate|].
      apply In_setitem_same. }
    split.
    { rewrite <- normalize_days_real. apply In_output; [|discriminate].
      apply In_before_rename_source; [exact Hd|discriminate..]. }
    split.
    { rewrite <- normalize_lead_time_days. apply In_output; [|discriminate].
      unfold before_rename. apply In_setitem_same. }
    exact Hrows.
  - intros d.
    replace (4 * ns_per_day)%Z with (1 * ns_per_day + 3 * ns_per_day)%Z by reflexivity.
    apply (lead_time_days_of_whole_days (1 * ns_per_day) 3 d). lia.
  - apply lead_time_days_of_late.
  - intros o s q [->| ->]; [reflexivity|]. destruct o; reflexivity.
Qed.

End LeadTime.

Lemma sub_datetime_length (a b : list (option Z)) :
  List.length a = List.length b -> List.length (sub_datetime a b) = List.length a.
Proof.
  revert b. induction a as [|x a IH]; intros [|y b] H; simpl in *;
    try reflexivity; try discriminate.
  injection H as H. rewrite (IH b H). reflexivity.
Qed.

Lemma fillna_series_all_present {A : Type} (xs fill : list (option A)) :
  all_present fill ->
  (List.length xs <= List.length fill)%nat ->
  all_present (fillna_series xs fill).
Proof.
  unfold all_present. revert fill.
  induction xs as [|x xs IH]; intros fill Hfill Hlen; simpl; [constructor|].
  destruct fill as [|v fill]; simpl in Hlen; [lia|].
  inversion Hfill as [|? ? Hv Hfill']; subst. simpl.
  constructor.
  - destruct x; [discriminate|exact Hv].
  - apply IH; [exact Hfill'|lia].
Qed.

Lemma fill_hits_false_all_present {A B : Type} (xs : list (option A))
      (fill : list (option B)) :
  all_present fill ->
  (List.length xs <= List.length fill)%nat ->
  fill_hits xs fill = false ->
  all_present xs.
Proof.
  unfold all_present. revert fill.
  induction xs as [|x xs IH]; intros fill Hfill Hlen Hhit; [constructor|].
  destruct fill as [|v fill]; simpl in Hlen; [lia|].
  inversion Hfill as [|? ? Hv Hfill']; subst.
  simpl in Hhit. destruct x as [a|].
  - constructor; [discriminate|]. apply (IH fill); [exact Hfill'|lia|].
    destruct v; exact Hhit.
  - destruct v; [discriminate|contradiction].
Qed.

Lemma clip_lower0_nonneg (xs : list (option Q)) :
  Forall (fun x => forall q, x = Some q -> (0 <= q)%Q) (clip_lower0 xs).
Proof.
  unfold clip_lower0. apply Forall_forall. intros x Hx q Hq.
  apply in_map_iff in Hx. destruct Hx as [[y|] [Heq _]]; subst x; simpl in Hq.
  - injection Hq as <-. apply clip_low_nonneg.
  - discriminate.
Qed.

Lemma clip_lower0_present_nonneg (xs : list (option Q)) :
  all_present xs ->
  Forall (fun x => exists q, x = Some q /\ (0 <= q)%Q) (clip_lower0 xs).
Proof.
  unfold all_present, clip_lower0. intros H. apply Forall_forall. intros x Hx.
  apply in_map_iff in Hx. destruct Hx as [y [Heq Hy]]. subst x.
  rewrite Forall_forall in H. specialize (H y Hy).
  destruct y as [q|]; [|congruence].
  exists (clip_low q). split; [reflexivity|apply clip_low_nonneg].
Qed.

Lemma fillna_series_length {A : Type} (xs fill : list (option A)) :
  List.length (fillna_series xs fill) = List.length xs.
Proof.
  revert fill. induction xs as [|x xs IH]; intros fill; simpl; [reflexivity|].
  rewrite IH. reflexivity.
Qed.

(** Every column that leaves the imputation loops has the common length of
    the raw columns and no missing value. *)
Lemma drop_and_impute_columns (raw : RawFrame) (n : nat) (df1 : DataFrame) :
  NoDup (map fst raw) ->
  Forall (fun kc => raw_length (snd kc) = n) raw ->
  drop_and_impute raw = Ok df1 ->
  forall k col,
    In (k, col) df1 ->
    column_length col = n
    /\ ((exists xs, col = NumCol xs /\ all_present xs)
        \/ (exists xs, col = ObjCol xs /\ all_present xs)).
Proof.
  intros Hnd Hlen Hdf1 k col Hin.
  destruct (drop_and_impute_inv raw df1 Hnd Hdf1) as [_ [_ Himp]].
  destruct (Himp k col Hin) as [rc [Hrc Hc]].
  rewrite Forall_forall in Hlen. specialize (Hlen (k, rc) Hrc). simpl in Hlen.
  destruct (imputed_column rc col Hc) as [[xs [-> [Hp Hl]]]|[xs [-> [Hp Hl]]]];
    simpl; (split; [congruence|]); [left|right]; exists xs; tauto.
Qed.

Lemma fill_and_clip_present (lead : list (option Q)) (dcol ltcol : column) (n : nat) :
  List.length lead = n ->
  column_length dcol = n ->
  (exists xs, dcol = NumCol xs /\ all_present xs)
  \/ (exists xs, dcol = ObjCol xs /\ all_present xs) ->
  fill_and_clip lead dcol = Ok ltcol ->
  exists lt,
    ltcol = NumCol lt
    /\ List.length lt = n
    /\ Forall (fun x => exists q, x = Some q /\ (0 <= q)%Q) lt.
Proof.
  intros Hlead Hdlen [[ds [-> Hp]]|[ds [-> Hp]]] Hfill; simpl in Hfill, Hdlen.
  - apply Ok_inj in Hfill. subst ltcol. eexists. split; [reflexivity|]. split.
    + unfold clip_lower0. rewrite length_map, fillna_series_length. exact Hlead.
    + apply clip_lower0_present_nonneg, fillna_series_all_present; [exact Hp|lia].
  - destruct (fill_hits lead ds) eqn:Hhit; [discriminate|].
    apply Ok_inj in Hfill. subst ltcol. eexists. split; [reflexivity|]. split.
    + unfold clip_lower0. rewrite length_map. exact Hlead.
    + apply clip_lower0_present_nonneg.
      apply (fill_hits_false_all_present _ ds); [exact Hp|lia|exact Hhit].
Qed.

Lemma setitem_lengths (n : nat) (df : DataFrame) (key : string) (col : column) :
  Forall (fun kc => column_length (snd kc) = n) df ->
  column_length col = n ->
  Forall (fun kc => column_length (snd kc) = n) (setitem df key col).
Proof.
  intros Hdf Hcol. unfold setitem. destruct (existsb (has_label key) df).
  - apply Forall_forall. intros kc Hin. apply in_map_iff in Hin.
    destruct Hin as [kc' [Heq Hin]]. rewrite Forall_forall in Hdf.
    destruct (has_label key kc'); subst kc; [exact Hcol|apply Hdf, Hin].
  - apply Forall_app. split; [exact Hdf|]. constructor; [exact Hcol|constructor].
Qed.

Lemma rename_columns_lengths (n : nat) (f : string -> string) (df : DataFrame) :
  Forall (fun kc => column_length (snd kc) = n) df ->
  Forall (fun kc => column_length (snd kc) = n) (rename_columns f df).
Proof.
  intros Hdf. unfold rename_columns. apply Forall_forall. intros kc Hin.
  apply in_map_iff in Hin. destruct Hin as [kc' [<- Hin]].
  rewrite Forall_forall in Hdf. simpl. apply (Hdf kc' Hin).
Qed.

Section NonNegative.
Variable to_datetime : column -> list (option Z).

(** [to_datetime] returns one timestamp per cell. *)
Hypothesis to_datetime_length :
  forall c, List.length (to_datetime c) = column_length c.

Lemma lead_length (df1 : DataFrame) (n : nat) (oc sc : column) :
  column_length oc = n -> column_length sc = n ->
  List.length (dt_days (sub_datetime (to_datetime sc) (to_datetime oc))) = n.
Proof.
  intros Ho Hs. unfold dt_days.
  rewrite length_map, sub_datetime_length; rewrite !to_datetime_length; congruence.
Qed.

(** A table built from a raw table whose columns have one length is well
    formed: the filter and the reports may be applied to it. *)
Lemma build_dataset_from_well_formed (raw : RawFrame) (n : nat) (out : DataFrame) :
  NoDup (map fst raw) ->
  Forall (fun kc => raw_length (snd kc) = n) raw ->
  build_dataset_from to_datetime raw = Ok out ->
  well_formed out /\ nrows out = n.
Proof.
  intros Hnd Hlen H.
  destruct (build_dataset_from_inv to_datetime raw out Hnd H)
    as [df1 [oc [sc [dcol [ltcol [Hdf1 [_ [Hoc [Hsc [Hd [Hfill [_ Hout]]]]]]]]]]]].
  pose proof (drop_and_impute_columns raw n df1 Hnd Hlen Hdf1) as Hcol.
  destruct (Hcol _ _ Hoc) as [Holen _]. destruct (Hcol _ _ Hsc) as [Hslen _].
  destruct (Hcol _ _ Hd) as [Hdlen Hdkind].
  destruct (fill_and_clip_present _ dcol ltcol n
              (lead_length df1 n oc sc Holen Hslen) Hdlen Hdkind Hfill)
    as [lt [-> [Hltlen _]]].
  assert (Hall : Forall (fun kc => column_length (snd kc) = n) out).
  { subst out. apply setitem_lengths.
    - apply rename_columns_lengths. unfold before_rename.
      repeat apply setitem_lengths.
      + apply Forall_forall. intros [k col] Hin. simpl.
        destruct (Hcol k col Hin) as [Hl _]. exact Hl.
      + simpl. rewrite to_datetime_length. exact Holen.
      + simpl. rewrite to_datetime_length. exact Hslen.
      + exact Hltlen.
    - simpl. unfold to_period_M. rewrite length_map, to_datetime_length. exact Holen. }
  assert (Hn : nrows out = n).
  { destruct out as [|[k0 c0] out'].
    - exfalso.
      pose proof (In_setitem_same
                    (rename_columns normalize_name
                                    (before_rename to_datetime df1 oc sc (NumCol lt)))
                    "order_month" (PeriodCol (to_period_M (to_datetime oc)))) as Hin.
      rewrite <- Hout in Hin. contradiction.
    - inversion Hall; subst. simpl in *. assumption. }
  split; [|exact Hn]. unfold well_formed. rewrite Hn. exact Hall.
Qed.

(** C4: whenever the cleaned table is built from a raw table whose labels
    are distinct and whose columns have one common length, its column
    [lead_time_days] has a value in every record, and that value is at
    least 0. *)
Theorem lead_time_days_nonneg (raw : RawFrame) (n : nat) (out : DataFrame)
        (c : column) :
  NoDup (map fst raw) ->
  Forall (fun kc => raw_length (snd kc) = n) raw ->
  build_dataset_from to_datetime raw = Ok out ->
  getitem out "lead_time_days" = Ok (Series c) ->
  exists lt,
    c = NumCol lt
    /\ List.length lt = n
    /\ Forall (fun x => exists q, x = Some q /\ (0 <= q)%Q) lt.
Proof.
  intros Hnd Hlen H Hget.
  destruct (build_dataset_from_inv to_datetime raw out Hnd H)
    as [df1 [oc [sc [dcol [ltcol [Hdf1 [_ [Hoc [Hsc [Hd [Hfill [_ Hout]]]]]]]]]]]].
  pose proof (drop_and_impute_columns raw n df1 Hnd Hlen Hdf1) as Hcol.
  assert (Hin : In ("lead_time_days", ltcol) out).
  { subst out. rewrite <- normalize_lead_time_days.
    apply In_output; [|discriminate]. unfold before_rename. apply In_setitem_same. }
  assert (Heq : ltcol = c) by (apply (getitem_Series_unique _ _ _ _ Hget Hin)).
  subst c.
  destruct (Hcol _ _ Hoc) as [Holen _]. destruct (Hcol _ _ Hsc) as [Hslen _].
  destruct (Hcol _ _ Hd) as [Hdlen Hdkind].
  exact (fill_and_clip_present _ dcol ltcol n
           (lead_length df1 n oc sc Holen Hslen) Hdlen Hdkind Hfill).
Qed.
End NonNegative.

(** ** An empty categorical column (claim C5) *)

Section EmptyCategory.
Variable to_datetime : column -> list (option Z).

(** C5, as the code behaves: a raw table with a categorical column that is
    kept and has no value at all makes the build raise. *)
Theorem build_raises_on_empty_category (raw : RawFrame) (k : string)
        (xs : list (option string)) :
  In (k, RawObj xs) raw ->
  existsb (String.eqb k) drop_cols = false ->
  Forall (fun x => x = None) xs ->
  build_dataset_from to_datetime raw = Raise LookupError.
Proof.
  intros Hin Hkeep Hnone.
  assert (H : drop_and_impute raw = Raise LookupError).
  { unfold drop_and_impute.
    apply for_columns_raises with (k := k) (c := ObjCol xs).
    - apply in_map_iff. exists (k, ObjCol xs). split; [reflexivity|].
      unfold drop. apply filter_In. split.
      + unfold of_raw. apply in_map_iff. exists (k, RawObj xs).
        split; [reflexivity|exact Hin].
      + change (negb (existsb (String.eqb k) drop_cols) = true).
        rewrite Hkeep. reflexivity.
    - simpl. rewrite (mode_all_missing xs Hnone). reflexivity.
    - apply impute_categorical_raises_only_lookup. }
  unfold build_dataset_from. rewrite H. reflexivity.
Qed.
End EmptyCategory.

(** ** Fetching (claim C6) and repeated builds (claim C9) *)

(** With the three names bound, the loader fails exactly when the transfer
    does not complete, the status is an error status, or the content is not
    a parquet file. *)
Lemma load_raw_with_imports (globals : list string) (w : World) :
  In "requests" globals -> In "pd" globals -> In "io" globals ->
  load_raw globals w
  = match http_get w url with
    | None => Raise ConnectionError
    | Some r =>
        if (400 <=? status_code r)%Z && (status_code r <? 600)%Z
        then Raise (HTTPError (status_code r))
        else match parquet_decode w (content r) with
             | Some df => Ok df
             | None => Raise ArrowInvalid
             end
    end.
Proof.
  intros Hr Hp Hi.
  assert (Hg : forall name, In name globals -> lookup_global globals name = Ok tt).
  { intros name Hin. unfold lookup_global.
    assert (He : existsb (String.eqb name) globals = true).
    { apply existsb_exists. exists name. split; [exact Hin|apply String.eqb_refl]. }
    rewrite He. reflexivity. }
  unfold load_raw. rewrite (Hg _ Hr), (Hg _ Hp), (Hg _ Hi).
  unfold requests_get, raise_for_status, read_parquet. simpl.
  destruct (http_get w url) as [r|]; simpl; [|reflexivity].
  destruct ((400 <=? status_code r)%Z && (status_code r <? 600)%Z); reflexivity.
Qed.

(** A build that raises leaves the slot of the cleaned table empty. *)
Lemma build_dataset_failure_caches_nothing
      (to_datetime : column -> list (option Z)) (globals : list string) (w : World)
      (c : Caches) (e : exn) :
  clean_cache c = None ->
  fst (build_dataset to_datetime globals w c) = Raise e ->
  clean_cache (snd (build_dataset to_datetime globals w c)) = None.
Proof.
  intros Hc. unfold build_dataset, load_raw_cached. rewrite Hc.
  destruct (raw_cache c) as [raw|].
  - destruct (build_dataset_from to_datetime raw); simpl; [discriminate|].
    intros _. simpl. rewrite ?Hc. reflexivity.
  - destruct (load_raw globals w) as [raw|e']; simpl.
    + destruct (build_dataset_from to_datetime raw); simpl; [discriminate|].
      intros _. simpl. rewrite ?Hc. reflexivity.
    + intros _. exact Hc.
Qed.

(** C6, as the code behaves: in the module as written, [requests] (and [io])
    are bound by no import, so the build raises [NameError] before any
    transfer, whatever the remote side would answer, and caches nothing. *)
Theorem build_dataset_raises_NameError
        (to_datetime : column -> list (option Z)) (w : World) :
  load_raw module_globals w = Raise (NameError "requests")
  /\ build_dataset to_datetime module_globals w no_cache
     = (Raise (NameError "requests"), no_cache).
Proof. split; reflexivity. Qed.


(** ** Normalized labels (claim C7) *)

Lemma lower_char_not_upper (c : ascii) : is_upper (lower_char c) = false.
Proof.
  destruct c as [[] [] [] [] [] [] [] []]; vm_compute; reflexivity.
Qed.

Lemma lstrip_suffix (s : list ascii) : exists p, s = p ++ lstrip s.
Proof.
  induction s as [|c s [p Hp]]; simpl.
  - exists []. reflexivity.
  - destruct (is_space c).
    + exists (c :: p). simpl. f_equal. exact Hp.
    + exists []. reflexivity.
Qed.

Lemma lstrip_head (s : list ascii) (c : ascii) :
  hd_error (lstrip s) = Some c -> is_space c = false.
Proof.
  induction s as [|a s IH]; simpl; [discriminate|].
  destruct (is_space a) eqn:Ha; [exact IH|].
  simpl. intros H. injection H as <-. exact Ha.
Qed.

Lemma lstrip_In (s : list ascii) (c : ascii) : In c (lstrip s) -> In c s.
Proof.
  destruct (lstrip_suffix s) as [p Hp]. intros H.
  rewrite Hp. apply in_or_app. right. exact H.
Qed.

(** [str_strip s] is a prefix of [lstrip s]. *)
Lemma str_strip_prefix (s : list ascii) : exists q, lstrip s = str_strip s ++ q.
Proof.
  unfold str_strip. destruct (lstrip_suffix (rev (lstrip s))) as [p Hp].
  exists (rev p).
  rewrite <- (rev_involutive (lstrip s)) at 1. rewrite Hp at 1.
  apply rev_app_distr.
Qed.

Lemma str_strip_In (s : list ascii) (c : ascii) : In c (str_strip s) -> In c s.
Proof.
  intros H. apply lstrip_In. destruct (str_strip_prefix s) as [q Hq].
  rewrite Hq. apply in_or_app. left. exact H.
Qed.

Lemma str_strip_ends (s : list ascii) :
  (forall c, hd_error (str_strip s) = Some c -> is_space c = false)
  /\ (forall c, hd_error (rev (str_strip s)) = Some c -> is_space c = false).
Proof.
  split; intros c H.
  - destruct (str_strip_prefix s) as [q Hq].
    apply (lstrip_head s). rewrite Hq.
    destruct (str_strip s); [discriminate|exact H].
  - unfold str_strip in H. rewrite rev_involutive in H.
    apply lstrip_head in H. exact H.
Qed.

Lemma normalize_name_steps (name : string) :
  list_ascii_of_string (normalize_name name)
  = str_strip (join_spaces (strip_punctuation (str_lower (list_ascii_of_string name)))).
Proof. unfold normalize_name. apply list_ascii_of_string_of_list_ascii. Qed.

Lemma normalize_name_canonical (name : string) :
  canonical (list_ascii_of_string (normalize_name name)).
Proof.
  rewrite normalize_name_steps.
  destruct (str_strip_ends
              (join_spaces (strip_punctuation (str_lower (list_ascii_of_string name)))))
    as [Hhd Hlast].
  split; [|split; assumption].
  apply Forall_forall. intros c Hc. apply str_strip_In in Hc.
  unfold join_spaces in Hc. apply in_map_iff in Hc. destruct Hc as [a [Hca Ha]].
  unfold strip_punctuation in Ha. apply filter_In in Ha. destruct Ha as [Ha Hkeep].
  unfold str_lower in Ha. apply in_map_iff in Ha. destruct Ha as [b [Hab _]].
  assert (Hup : is_upper a = false) by (subst a; apply lower_char_not_upper).
  unfold canonical_char.
  destruct (Ascii.eqb a " ") eqn:Hsp; subst c.
  - split; [reflexivity|]. split; [left; reflexivity|discriminate].
  - split; [exact Hup|]. split.
    + apply orb_true_iff in Hkeep. exact Hkeep.
    + apply Ascii.eqb_neq. exact Hsp.
Qed.

Section Labels.
Variable to_datetime : column -> list (option Z).

End Labels.

(** ** The claims on the sample data *)

Lemma sample_raw_labels_distinct : NoDup (map fst sample_raw).
Proof.
  repeat (constructor; [simpl; intuition discriminate|]). constructor.
Qed.

Lemma iso_to_datetime_length (c : column) :
  List.length (iso_to_datetime c) = column_length c.
Proof. destruct c; simpl; try apply length_map; reflexivity. Qed.

Lemma sample_raw_lengths : Forall (fun kc => raw_length (snd kc) = 4%nat) sample_raw.
Proof. repeat constructor. Qed.

Lemma sample_clean_well_formed : well_formed sample_clean.
Proof. repeat constructor. Qed.

Lemma sample_build : build_dataset_from iso_to_datetime sample_raw = Ok sample_clean.
Proof. vm_compute. reflexivity. Qed.

Lemma kpi_tiles_empty_view_witness :
  Forall (fun kc => column_length (snd kc) = 0%nat) sample_no_region
  /\ kpi_tiles sample_no_region
     = Ok {| kpi_total_sales := MetricText "0";
             kpi_total_profit := MetricText "0";
             kpi_avg_lead_time := MetricFloat None;
             kpi_late_risk := MetricFloat None |}
  /\ monthly_trend sample_no_region
     = Ok (InfoBox "No data available for current filter selection.").
Proof.
  assert (He : Forall (fun kc => column_length (snd kc) = 0%nat) sample_no_region)
    by (repeat constructor).
  assert (Hk : kpi_tiles sample_no_region
               = Ok {| kpi_total_sales := MetricText "0";
                       kpi_total_profit := MetricText "0";
                       kpi_avg_lead_time := MetricFloat None;
                       kpi_late_risk := MetricFloat None |})
    by (vm_compute; reflexivity).
  split; [exact He|]. split; [exact Hk|].
  exact (proj2 (kpi_tiles_empty_view sample_no_region _ He Hk)).
Defined.

Lemma filtered_view_membership_witness :
  well_formed sample_clean
  /\ filtered_view sample_clean ["East"] ["Toys"; "Golf"] ["Consumer"] = Ok sample_view
  /\ (forall r : record,
         In r (records sample_view) <->
         In r (records sample_clean)
         /\ (exists region, field "order_region" r = Some (CObj (Some region))
                            /\ In region ["East"])
         /\ (exists category, field "category_name" r = Some (CObj (Some category))
                              /\ In category ["Toys"; "Golf"])
         /\ (exists segment, field "customer_segment" r = Some (CObj (Some segment))
                             /\ In segment ["Consumer"]))
  /\ List.length (records sample_view) = 2%nat.
Proof.
  assert (Hv : filtered_view sample_clean ["East"] ["Toys"; "Golf"] ["Consumer"]
               = Ok sample_view) by (vm_compute; reflexivity).
  split; [exact sample_clean_well_formed|]. split; [exact Hv|]. split.
  - exact (proj1 (filtered_view_membership sample_clean _ _ _ sample_view
                    sample_clean_well_formed Hv)).
  - vm_compute. reflexivity.
Defined.

Lemma lead_time_days_derivation_witness :
  NoDup (map fst sample_raw)
  /\ build_dataset_from iso_to_datetime sample_raw = Ok sample_clean
  /\ exists oc sc dcol lt,
      In ("order_date_dateorders", oc) sample_clean
      /\ In ("shipping_date_dateorders", sc) sample_clean
      /\ In ("order_date", DateCol (iso_to_datetime oc)) sample_clean
      /\ In ("shipping_date", DateCol (iso_to_datetime sc)) sample_clean
      /\ In ("days_for_shipping_real", dcol) sample_clean
      /\ In ("lead_time_days", NumCol lt) sample_clean
      /\ forall i o s d,
          nth_error (iso_to_datetime oc) i = Some o ->
          nth_error (iso_to_datetime sc) i = Some s ->
          nth_error (cells dcol) i = Some d ->
          nth_error lt i = Some (lead_time_days_of o s d).
Proof.
  split; [exact sample_raw_labels_distinct|]. split; [exact sample_build|].
  exact (proj1 (lead_time_days_derivation iso_to_datetime sample_raw sample_clean
                  sample_raw_labels_distinct sample_build)).
Defined.

Lemma lead_time_days_nonneg_witness :
  (forall c, List.length (iso_to_datetime c) = column_length c)
  /\ NoDup (map fst sample_raw)
  /\ Forall (fun kc => raw_length (snd kc) = 4%nat) sample_raw
  /\ build_dataset_from iso_to_datetime sample_raw = Ok sample_clean
  /\ getitem sample_clean "lead_time_days" = Ok (Series sample_lead_time)
  /\ exists lt,
      sample_lead_time = NumCol lt
      /\ List.length lt = 4%nat
      /\ Forall (fun x => exists q, x = Some q /\ (0 <= q)%Q) lt.
Proof.
  assert (Hg : getitem sample_clean "lead_time_days" = Ok (Series sample_lead_time))
    by (vm_compute; reflexivity).
  split; [exact iso_to_datetime_length|]. split; [exact sample_raw_labels_distinct|].
  split; [exact sample_raw_lengths|]. split; [exact sample_build|]. split; [exact Hg|].
  exact (lead_time_days_nonneg iso_to_datetime iso_to_datetime_length sample_raw 4
           sample_clean sample_lead_time sample_raw_labels_distinct sample_raw_lengths
           sample_build Hg).
Defined.

Lemma build_raises_on_empty_category_witness :
  In ("Order Region", RawObj [None; None; None; None]) sample_raw_no_region
  /\ existsb (String.eqb "Order Region") drop_cols = false
  /\ Forall (fun x : option string => x = None) [None; None; None; None]
  /\ build_dataset_from iso_to_datetime sample_raw_no_region = Raise LookupError.
Proof.
  assert (Hin : In ("Order Region", RawObj [None; None; None; None]) sample_raw_no_region)
    by (right; right; right; left; reflexivity).
  assert (Hk : existsb (String.eqb "Order Region") drop_cols = false) by reflexivity.
  assert (Hn : Forall (fun x : option string => x = None) [None; None; None; None])
    by (repeat constructor).
  split; [exact Hin|]. split; [exact Hk|]. split; [exact Hn|].
  exact (build_raises_on_empty_category iso_to_datetime sample_raw_no_region
           "Order Region" [None; None; None; None] Hin Hk Hn).
Defined.


Lemma top_cat_seg_sorted_witness :
  top_cat_seg sample_clean = Ok sample_top
  /\ (List.length sample_top <= 15)%nat
  /\ StronglySorted (fun above below => (total_sales below <= total_sales above)%Q)
                    sample_top.
Proof.
  assert (Ht : top_cat_seg sample_clean = Ok sample_top) by (vm_compute; reflexivity).
  split; [exact Ht|]. exact (top_cat_seg_sorted sample_clean sample_top Ht).
Defined.


Lemma impute_categorical_fills_least_mode_witness :
  In (Some "b") sample_tie
  /\ impute_categorical (ObjCol sample_tie)
     = Ok (ObjCol [Some "b"; Some "a"; Some "a"; Some "b"; Some "a"; Some "c"])
  /\ exists m : string,
      impute_categorical (ObjCol sample_tie) = Ok (ObjCol (fillna m sample_tie))
      /\ In (Some m) sample_tie
      /\ (forall v, In (Some v) sample_tie ->
                    (count_of v (dropna sample_tie) <= count_of m (dropna sample_tie))%nat)
      /\ (forall v, In (Some v) sample_tie ->
                    count_of v (dropna sample_tie) = count_of m (dropna sample_tie) ->
                    String.leb m v = true)
      /\ (forall m', In (Some m') sample_tie ->
                     (forall v, In (Some v) sample_tie ->
                                (count_of v (dropna sample_tie)
                                 <= count_of m' (dropna sample_tie))%nat) ->
                     (forall v, In (Some v) sample_tie ->
                                count_of v (dropna sample_tie)
                                = count_of m' (dropna sample_tie) ->
                                String.leb m' v = true) ->
                     m' = m).
Proof.
  assert (Hin : In (Some "b") sample_tie) by (left; reflexivity).
  split; [exact Hin|]. split; [vm_compute; reflexivity|].
  exact (impute_categorical_fills_least_mode sample_tie "b" Hin).
Defined.

(** * Further properties of the builder *)

(** ** Reading and writing columns *)

Lemma filter_has_label_setitem_other (df : DataFrame) (key k : string) (col : column) :
  k <> key ->
  filter (has_label k) (setitem df key col) = filter (has_label k) df.
Proof.
  intros Hk. unfold setitem.
  destruct (existsb (has_label key) df).
  - induction df as [|[k' c'] df IH]; [reflexivity|].
    cbn [map filter]. rewrite IH.
    destruct (has_label key (k', c')) eqn:Hkey; [|reflexivity].
    apply has_label_true in Hkey. simpl in Hkey. subst k'.
    assert (Hf : forall c0, has_label k (key, c0) = false).
    { intros c0. unfold has_label. simpl. apply String.eqb_neq. congruence. }
    cbn [fst]. rewrite !Hf. reflexivity.
  - rewrite filter_app. simpl. unfold has_label at 2. simpl.
    destruct (String.eqb key k) eqn:Hkk.
    + apply String.eqb_eq in Hkk. congruence.
    + apply app_nil_r.
Qed.

Lemma getitem_setitem_other (df : DataFrame) (key k : string) (col : column) :
  k <> key -> getitem (setitem df key col) k = getitem df k.
Proof.
  intros Hk. unfold getitem.
  rewrite (filter_has_label_setitem_other df key k col Hk). reflexivity.
Qed.

Lemma getitem_absent (df : DataFrame) (k : string) :
  ~ In k (columns df) -> getitem df k = Raise (KeyError k).
Proof.
  intros Hk. unfold getitem.
  rewrite (filter_none (has_label k) df); [reflexivity|].
  intros [k' c] Hin. unfold has_label. simpl.
  destruct (String.eqb k' k) eqn:He; [|reflexivity].
  apply String.eqb_eq in He. subst k'. exfalso. apply Hk.
  apply in_map_iff. exists (k, c). split; [reflexivity|exact Hin].
Qed.

Lemma In_setitem_inv (df : DataFrame) (key k : string) (col c : column) :
  In (k, c) (setitem df key col) ->
  (k = key /\ c = col) \/ (k <> key /\ In (k, c) df).
Proof.
  unfold setitem. destruct (existsb (has_label key) df) eqn:Hex.
  - intros Hin. apply in_map_iff in Hin. destruct Hin as [[k' c'] [Heq Hin]].
    unfold has_label in Heq. simpl in Heq.
    destruct (String.eqb k' key) eqn:He.
    + apply String.eqb_eq in He. injection Heq as Hk Hc. subst. left. split; reflexivity.
    + apply String.eqb_neq in He. injection Heq as Hk Hc. subst. right. split; assumption.
  - intros Hin. apply in_app_or in Hin. destruct Hin as [Hin|[Heq|[]]].
    + right. split; [|exact Hin]. intros Heq. subst k.
      assert (Ht : existsb (has_label key) df = true).
      { apply existsb_has_label. apply in_map_iff. exists (key, c).
        split; [reflexivity|exact Hin]. }
      congruence.
    + injection Heq as Hk Hc. subst. left. split; reflexivity.
Qed.

Lemma In_rename_columns_inv (f : string -> string) (df : DataFrame) (k : string)
      (c : column) :
  In (k, c) (rename_columns f df) -> exists k0, k = f k0 /\ In (k0, c) df.
Proof.
  unfold rename_columns. intros Hin. apply in_map_iff in Hin.
  destruct Hin as [[k0 c0] [Heq Hin]]. simpl in Heq. injection Heq as Hk Hc. subst.
  exists k0. split; [reflexivity|exact Hin].
Qed.

(** ** Dropped columns (lines 24-30) *)

Lemma drop_of_raw_filter (cols : list string) (raw : RawFrame) :
  drop cols (of_raw (filter (fun kc => negb (existsb (String.eqb (fst kc)) cols)) raw))
  = drop cols (of_raw raw).
Proof.
  unfold drop, of_raw. induction raw as [|[k rc] raw IH]; [reflexivity|].
  simpl. destruct (negb (existsb (String.eqb k) cols)) eqn:Hk; simpl; rewrite ?Hk, IH;
    reflexivity.
Qed.

Lemma columns_drop_of_raw (cols : list string) (raw : RawFrame) :
  columns (drop cols (of_raw raw))
  = filter (fun k => negb (existsb (String.eqb k) cols)) (map fst raw).
Proof.
  unfold columns, drop, of_raw. induction raw as [|[k rc] raw IH]; [reflexivity|].
  simpl. destruct (negb (existsb (String.eqb k) cols)); simpl; rewrite IH; reflexivity.
Qed.

(** X1: the columns of [drop_cols] have no influence on the build: a raw
    table gives the same result, or raises the same exception, as the raw
    table with these columns taken out beforehand.  After the drop the frame
    holds the other labels, in their order, and none of [drop_cols]. *)
Theorem dropped_columns_never_matter
        (to_datetime : column -> list (option Z)) (raw : RawFrame) :
  build_dataset_from to_datetime
    (filter (fun kc => negb (existsb (String.eqb (fst kc)) drop_cols)) raw)
  = build_dataset_from to_datetime raw
  /\ columns (drop drop_cols (of_raw raw))
     = filter (fun k => negb (existsb (String.eqb k) drop_cols)) (map fst raw)
  /\ (forall k, In k drop_cols -> ~ In k (columns (drop drop_cols (of_raw raw)))).
Proof.
  split; [|split].
  - unfold build_dataset_from, drop_and_impute.
    rewrite (drop_of_raw_filter drop_cols raw). reflexivity.
  - apply columns_drop_of_raw.
  - intros k Hk Hin. rewrite columns_drop_of_raw in Hin.
    apply filter_In in Hin. destruct Hin as [_ Hneg].
    assert (Ht : existsb (String.eqb k) drop_cols = true).
    { apply existsb_exists. exists k. split; [exact Hk|apply String.eqb_refl]. }
    rewrite Ht in Hneg. discriminate.
Qed.

(** ** Numeric imputation (lines 33-36) *)

Lemma last_cons {A : Type} (a d : A) (l : list A) : last (a :: l) d = last l a.
Proof.
  revert a d. induction l as [|b l IH]; intros a d; [reflexivity|].
  change (last (b :: l) d = last (b :: l) a). rewrite (IH b d), (IH b a). reflexivity.
Qed.

Lemma nth_error_impute (xs : list (option Q)) :
  forall (carried : option Q) (i : nat),
    (i < List.length xs)%nat ->
    nth_error (fillna 0%Q (ffill_from carried xs)) i
    = Some (Some (last (dropna (firstn (S i) xs))
                       match carried with Some v => v | None => 0%Q end)).
Proof.
  induction xs as [|x xs IH]; intros carried i Hi; [simpl in Hi; lia|].
  destruct i as [|i].
  - destruct x as [v|]; simpl; [reflexivity|]. destruct carried; reflexivity.
  - simpl in Hi. assert (Hi' : (i < List.length xs)%nat) by lia.
    destruct x as [v|].
    + change (nth_error (fillna 0%Q (ffill_from (Some v) xs)) i
              = Some (Some (last (v :: dropna (firstn (S i) xs))
                                 match carried with Some w => w | None => 0%Q end))).
      rewrite last_cons. apply (IH (Some v) i Hi').
    + change (nth_error (fillna 0%Q (ffill_from carried xs)) i
              = Some (Some (last (dropna (firstn (S i) xs))
                                 match carried with Some w => w | None => 0%Q end))).
      apply (IH carried i Hi').
Qed.

(** X2: [ffill().fillna(0)] on a numeric column leaves no gap and keeps the
    length; row [i] of the result is the last value present in rows
    [0..i] of the column, and 0 when there is none (so a present value stays
    as it is, a gap takes the nearest value above it, and leading gaps
    become 0). *)
Theorem impute_numeric_carries_forward (xs : list (option Q)) (i : nat) :
  (i < List.length xs)%nat ->
  exists ys,
    impute_numeric (NumCol xs) = NumCol ys
    /\ List.length ys = List.length xs
    /\ all_present ys
    /\ nth_error ys i = Some (Some (last (dropna (firstn (S i) xs)) 0%Q)).
Proof.
  intros Hi. exists (fillna 0%Q (ffill xs)). split; [reflexivity|]. split.
  - unfold fillna, ffill. rewrite length_map. apply ffill_from_length.
  - split; [apply fillna_all_present|].
    unfold ffill. apply (nth_error_impute xs None i Hi).
Qed.

Lemma impute_numeric_carries_forward_witness :
  (2 < List.length [None; Some (5 # 1); None; Some (7 # 1)])%nat
  /\ exists ys,
      impute_numeric (NumCol [None; Some (5 # 1); None; Some (7 # 1)]) = NumCol ys
      /\ List.length ys = 4%nat
      /\ all_present ys
      /\ nth_error ys 2 = Some (Some (5 # 1)).
Proof.
  split; [simpl; lia|].
  exact (impute_numeric_carries_forward [None; Some (5 # 1); None; Some (7 # 1)] 2
           ltac:(simpl; lia)).
Defined.

(** ** When imputation goes through (lines 32-40) *)

Lemma has_value_dec (xs : list (option string)) :
  (exists v, In (Some v) xs) \/ Forall (fun x => x = None) xs.
Proof.
  induction xs as [|[v|] xs IH].
  - right. constructor.
  - left. exists v. left. reflexivity.
  - destruct IH as [[v Hv]|Hall].
    + left. exists v. right. exact Hv.
    + right. constructor; [reflexivity|exact Hall].
Qed.

Lemma for_columns_total (f : column -> result column) (df : DataFrame) :
  (forall k c, In (k, c) df -> exists c', f c = Ok c') ->
  exists df', for_columns f df = Ok df'.
Proof.
  induction df as [|[k c] df IH]; intros Hall.
  - exists []. reflexivity.
  - destruct (Hall k c (or_introl eq_refl)) as [c' Hc].
    destruct IH as [df' Hdf].
    { intros k0 c0 Hin. apply (Hall k0 c0). right. exact Hin. }
    exists ((k, c') :: df'). simpl. rewrite Hc. simpl. rewrite Hdf. reflexivity.
Qed.

Lemma In_drop_and_impute_source (raw : RawFrame) (k : string) (c : column) :
  In (k, c)
     (map (fun kc => (fst kc, impute_numeric (snd kc))) (drop drop_cols (of_raw raw))) ->
  exists rc, In (k, rc) raw
             /\ existsb (String.eqb k) drop_cols = false
             /\ c = impute_numeric (of_raw_column rc).
Proof.
  intros Hin. apply in_map_iff in Hin. destruct Hin as [[k1 c1] [Heq Hin]].
  simpl in Heq. injection Heq as Hk Hc. subst k1 c.
  unfold drop in Hin. apply filter_In in Hin. destruct Hin as [Hin Hkeep].
  change (negb (existsb (String.eqb k) drop_cols) = true) in Hkeep.
  unfold of_raw in Hin. apply in_map_iff in Hin.
  destruct Hin as [[k2 rc] [Heq Hin]]. simpl in Heq. injection Heq as Hk Hc. subst k2 c1.
  exists rc. split; [exact Hin|]. split; [|reflexivity].
  destruct (existsb (String.eqb k) drop_cols); [discriminate|reflexivity].
Qed.

(** X3: the two imputation loops go through exactly when every object
    column that is kept holds at least one value; otherwise [mode()[0]]
    raises.  A raw table without rows is therefore rejected as soon as it
    has one kept object column. *)
Theorem drop_and_impute_succeeds_iff (raw : RawFrame) :
  (exists df_clean, drop_and_impute raw = Ok df_clean)
  <-> (forall k xs, In (k, RawObj xs) raw ->
                    existsb (String.eqb k) drop_cols = false ->
                    exists v, In (Some v) xs).
Proof.
  split.
  - intros [df1 Hdf1] k xs Hin Hkeep.
    destruct (has_value_dec xs) as [Hv|Hnone]; [exact Hv|exfalso].
    assert (H : drop_and_impute raw = Raise LookupError).
    { unfold drop_and_impute.
      apply for_columns_raises with (k := k) (c := ObjCol xs).
      - apply in_map_iff. exists (k, ObjCol xs). split; [reflexivity|].
        unfold drop. apply filter_In. split.
        + unfold of_raw. apply in_map_iff. exists (k, RawObj xs).
          split; [reflexivity|exact Hin].
        + change (negb (existsb (String.eqb k) drop_cols) = true).
          rewrite Hkeep. reflexivity.
      - simpl. rewrite (mode_all_missing xs Hnone). reflexivity.
      - apply impute_categorical_raises_only_lookup. }
    congruence.
  - intros Hall. unfold drop_and_impute. apply for_columns_total.
    intros k c Hin. destruct (In_drop_and_impute_source raw k c Hin)
      as [rc [Hraw [Hkeep Hc]]].
    subst c. destruct rc as [xs|xs].
    + exists (NumCol (fillna 0%Q (ffill xs))). reflexivity.
    + destruct (Hall k xs Hraw Hkeep) as [v Hv].
      simpl. pose proof (mode_nonempty xs v Hv) as Hm.
      destruct (mode xs) as [|m rest]; [congruence|].
      exists (ObjCol (fillna m xs)). reflexivity.
Qed.

(** ** The columns the builder reads (lines 42-56) *)

Lemma kept_label (raw : RawFrame) (df1 : DataFrame) (k : string) :
  NoDup (map fst raw) ->
  drop_and_impute raw = Ok df1 ->
  existsb (String.eqb k) drop_cols = false ->
  (In k (columns df1) <-> In k (map fst raw)).
Proof.
  intros Hnd Hdf1 Hk.
  destruct (drop_and_impute_inv raw df1 Hnd Hdf1) as [_ [Hcols _]].
  rewrite Hcols, columns_drop_of_raw, filter_In, Hk. simpl. tauto.
Qed.

Lemma In_columns (df : DataFrame) (k : string) :
  In k (columns df) -> exists c, In (k, c) df.
Proof.
  intros Hin. apply in_map_iff in Hin. destruct Hin as [[k' c] [Hk Hin]].
  simpl in Hk. subst k'. exists c. exact Hin.
Qed.

Section SourceColumns.
Variable to_datetime : column -> list (option Z).

Lemma add_dates_Ok (df1 : DataFrame) (oc sc : column) :
  NoDup (columns df1) ->
  In ("order date (DateOrders)", oc) df1 ->
  In ("shipping date (DateOrders)", sc) df1 ->
  add_dates to_datetime df1
  = Ok (setitem (setitem df1 "order_date" (DateCol (to_datetime oc)))
                "shipping_date" (DateCol (to_datetime sc))).
Proof.
  intros Hnd Hoc Hsc. unfold add_dates.
  rewrite (getitem_NoDup_In _ _ _ Hnd Hoc). cbn [bind as_series].
  rewrite getitem_setitem_other by discriminate.
  rewrite (getitem_NoDup_In _ _ _ Hnd Hsc). reflexivity.
Qed.

Lemma add_lead_time_missing_days (df2 : DataFrame) (od sd : list (option Z)) :
  NoDup (columns df2) ->
  In ("order_date", DateCol od) df2 ->
  In ("shipping_date", DateCol sd) df2 ->
  ~ In "Days for shipping (real)" (columns df2) ->
  add_lead_time df2 = Raise (KeyError "Days for shipping (real)").
Proof.
  intros Hnd Hod Hsd Hno. unfold add_lead_time.
  rewrite (getitem_NoDup_In _ _ _ Hnd Hsd), (getitem_NoDup_In _ _ _ Hnd Hod).
  cbn [bind as_series dt_accessor].
  rewrite (getitem_NoDup_In "lead_time_days" _ _
             (NoDup_setitem df2 "lead_time_days" _ Hnd)
             (In_setitem_same df2 "lead_time_days" _)).
  cbn [bind as_series as_numeric].
  rewrite getitem_setitem_other by discriminate.
  rewrite (getitem_absent df2 _ Hno). reflexivity.
Qed.

(** X4: the builder reads three columns under their original labels.  Once
    imputation has gone through, a raw table without
    ["order date (DateOrders)"] makes the build raise [KeyError] with that
    label; with it but without ["shipping date (DateOrders)"], [KeyError]
    with the latter; with both but without ["Days for shipping (real)"],
    [KeyError] with this one. *)
Theorem build_requires_source_columns (raw : RawFrame) (df1 : DataFrame) :
  NoDup (map fst raw) ->
  drop_and_impute raw = Ok df1 ->
  (~ In "order date (DateOrders)" (map fst raw) ->
   build_dataset_from to_datetime raw = Raise (KeyError "order date (DateOrders)"))
  /\ (In "order date (DateOrders)" (map fst raw) ->
      ~ In "shipping date (DateOrders)" (map fst raw) ->
      build_dataset_from to_datetime raw
      = Raise (KeyError "shipping date (DateOrders)"))
  /\ (In "order date (DateOrders)" (map fst raw) ->
      In "shipping date (DateOrders)" (map fst raw) ->
      ~ In "Days for shipping (real)" (map fst raw) ->
      build_dataset_from to_datetime raw
      = Raise (KeyError "Days for shipping (real)")).
Proof.
  intros Hnd Hdf1.
  destruct (drop_and_impute_inv raw df1 Hnd Hdf1) as [Hnd1 _].
  assert (Ho := kept_label raw df1 "order date (DateOrders)" Hnd Hdf1 eq_refl).
  assert (Hs := kept_label raw df1 "shipping date (DateOrders)" Hnd Hdf1 eq_refl).
  assert (Hd := kept_label raw df1 "Days for shipping (real)" Hnd Hdf1 eq_refl).
  unfold build_dataset_from. rewrite Hdf1. cbn [bind].
  split; [|split].
  - intros Hno. unfold add_dates.
    rewrite (getitem_absent df1 _ (fun H => Hno (proj1 Ho H))). reflexivity.
  - intros Hin Hno. apply Ho in Hin. destruct (In_columns _ _ Hin) as [oc Hoc].
    unfold add_dates. rewrite (getitem_NoDup_In _ _ _ Hnd1 Hoc). cbn [bind as_series].
    rewrite getitem_setitem_other by discriminate.
    rewrite (getitem_absent df1 _ (fun H => Hno (proj1 Hs H))). reflexivity.
  - intros Hino Hins Hno.
    apply Ho in Hino. destruct (In_columns _ _ Hino) as [oc Hoc].
    apply Hs in Hins. destruct (In_columns _ _ Hins) as [sc Hsc].
    rewrite (add_dates_Ok df1 oc sc Hnd1 Hoc Hsc). cbn [bind].
    rewrite (add_lead_time_missing_days _ (to_datetime oc) (to_datetime sc)).
    + reflexivity.
    + apply NoDup_setitem, NoDup_setitem, Hnd1.
    + apply In_setitem_other; [discriminate|]. apply In_setitem_same.
    + apply In_setitem_same.
    + rewrite !columns_setitem. intros Hin.
      apply In_add_label in Hin. destruct Hin as [Hin|Hin]; [discriminate|].
      apply In_add_label in Hin. destruct Hin as [Hin|Hin]; [discriminate|].
      apply Hno, Hd, Hin.
Qed.
End SourceColumns.

(** ** Normalized labels (lines 58-70) *)

Lemma filter_all_true {A : Type} (p : A -> bool) (l : list A) :
  Forall (fun x => p x = true) l -> filter p l = l.
Proof.
  induction 1 as [|x l Hx _ IH]; [reflexivity|]. simpl. rewrite Hx, IH. reflexivity.
Qed.

Lemma map_fixed {A : Type} (f : A -> A) (l : list A) :
  Forall (fun x => f x = x) l -> map f l = l.
Proof.
  induction 1 as [|x l Hx _ IH]; [reflexivity|]. simpl. rewrite Hx, IH. reflexivity.
Qed.

Lemma lstrip_fixed (s : list ascii) :
  (forall c, hd_error s = Some c -> is_space c = false) -> lstrip s = s.
Proof.
  destruct s as [|c s]; [reflexivity|]. intros H. simpl.
  rewrite (H c eq_refl). reflexivity.
Qed.

Lemma canonical_fixed (s : list ascii) :
  canonical s -> str_strip (join_spaces (strip_punctuation (str_lower s))) = s.
Proof.
  intros [Hall [Hhd Hlast]].
  assert (H1 : str_lower s = s).
  { apply map_fixed. apply Forall_impl with (2 := Hall).
    intros c [Hup _]. unfold lower_char. rewrite Hup. reflexivity. }
  assert (H2 : strip_punctuation s = s).
  { apply filter_all_true. apply Forall_impl with (2 := Hall).
    intros c [_ [[Hw|Hs] _]]; [rewrite Hw|rewrite Hs, orb_true_r]; reflexivity. }
  assert (H3 : join_spaces s = s).
  { apply map_fixed. apply Forall_impl with (2 := Hall).
    intros c [_ [_ Hne]]. destruct (Ascii.eqb c " ") eqn:He; [|reflexivity].
    apply Ascii.eqb_eq in He. contradiction. }
  rewrite H1, H2, H3. unfold str_strip.
  rewrite (lstrip_fixed s Hhd), (lstrip_fixed (rev s) Hlast). apply rev_involutive.
Qed.

(** X5: normalizing a label twice is normalizing it once: the labels of a
    cleaned table are fixed points of the normalization, so renaming the
    columns of a cleaned table again changes no label. *)
Theorem normalize_name_idempotent (name : string) (df : DataFrame) :
  normalize_name (normalize_name name) = normalize_name name
  /\ rename_columns normalize_name (rename_columns normalize_name df)
     = rename_columns normalize_name df.
Proof.
  assert (H : forall s, normalize_name (normalize_name s) = normalize_name s).
  { intros s. unfold normalize_name at 1.
    rewrite (canonical_fixed _ (normalize_name_canonical s)).
    apply string_of_list_ascii_of_string. }
  split; [apply H|].
  unfold rename_columns. rewrite map_map. apply map_ext.
  intros [k c]. simpl. rewrite H. reflexivity.
Qed.

Section Collision.
Variable to_datetime : column -> list (option Z).

(** X6: normalization is not injective, and the month bucket is read under
    the normalized label.  When a kept raw column other than one labelled
    [order_date] has a label that normalizes to ["order_date"] (such as
    ["Order Date"]), the renamed frame has two columns of that label,
    [df_clean["order_date"]] is a frame without [.dt], and the build never
    returns a table. *)
Theorem build_rejects_second_order_date (raw : RawFrame) (k : string)
        (rc : raw_column) :
  NoDup (map fst raw) ->
  In (k, rc) raw ->
  existsb (String.eqb k) drop_cols = false ->
  k <> "order_date" ->
  normalize_name k = "order_date" ->
  forall out, build_dataset_from to_datetime raw <> Ok out.
Proof.
  intros Hnd Hin Hkeep Hne Hnorm out H.
  destruct (build_dataset_from_inv to_datetime raw out Hnd H)
    as [df1 [oc [sc [dcol [lt [Hdf1 [Hnd1 [_ [_ [_ [_ [Hget _]]]]]]]]]]]].
  assert (Hk : In k (columns df1)).
  { apply (kept_label raw df1 k Hnd Hdf1 Hkeep).
    apply in_map_iff. exists (k, rc). split; [reflexivity|exact Hin]. }
  destruct (In_columns df1 k Hk) as [c Hc].
  destruct (drop_and_impute_inv raw df1 Hnd Hdf1) as [_ [_ Horigin]].
  destruct (Horigin k c Hc) as [rc' [_ Himp]].
  assert (Hb : In (k, c) (before_rename to_datetime df1 oc sc lt)).
  { apply In_before_rename_source; [exact Hc|exact Hne| |].
    - intros Heq. subst k. rewrite normalize_shipping_date in Hnorm. discriminate.
    - intros Heq. subst k. rewrite normalize_lead_time_days in Hnorm. discriminate. }
  apply (In_rename_columns normalize_name) in Hb. rewrite Hnorm in Hb.
  pose proof (getitem_Series_unique _ _ _ _ Hget Hb) as Heq. subst c.
  destruct (imputed_column rc' _ Himp) as [[xs [Hx _]]|[xs [Hx _]]]; discriminate.
Qed.
End Collision.

(** ** The cleaned table as a whole *)

Section CleanTable.
Variable to_datetime : column -> list (option Z).
Hypothesis to_datetime_length :
  forall c, List.length (to_datetime c) = column_length c.

(** X7: a table built from a raw table with distinct labels and [n] rows
    is rectangular with [n] rows, and no column that comes from the raw
    table or from the lead time has a gap: every column is a numeric or an
    object column without missing values, except the parsed dates
    [order_date] and [shipping_date] and the month bucket [order_month]. *)
Theorem built_table_has_no_gaps (raw : RawFrame) (n : nat) (out : DataFrame) :
  NoDup (map fst raw) ->
  Forall (fun kc => raw_length (snd kc) = n) raw ->
  build_dataset_from to_datetime raw = Ok out ->
  well_formed out
  /\ nrows out = n
  /\ forall k c,
      In (k, c) out ->
      (exists xs, c = NumCol xs /\ all_present xs)
      \/ (exists xs, c = ObjCol xs /\ all_present xs)
      \/ (exists xs, c = DateCol xs /\ (k = "order_date" \/ k = "shipping_date"))
      \/ (exists xs, c = PeriodCol xs /\ k = "order_month").
Proof.
  intros Hnd Hlen H.
  destruct (build_dataset_from_well_formed to_datetime to_datetime_length
              raw n out Hnd Hlen H) as [Hwf Hn].
  split; [exact Hwf|]. split; [exact Hn|].
  destruct (build_dataset_from_inv to_datetime raw out Hnd H)
    as [df1 [oc [sc [dcol [lt [Hdf1 [Hnd1 [Hoc [Hsc [Hd [Hfill [_ Hout]]]]]]]]]]]].
  pose proof (drop_and_impute_columns raw n df1 Hnd Hlen Hdf1) as Hcol.
  destruct (Hcol _ _ Hoc) as [Holen _]. destruct (Hcol _ _ Hsc) as [Hslen _].
  destruct (Hcol _ _ Hd) as [Hdlen Hdkind].
  destruct (fill_and_clip_present _ dcol lt n
              (lead_length to_datetime to_datetime_length df1 n oc sc Holen Hslen)
              Hdlen Hdkind Hfill) as [ltv [Hlt [_ Hpos]]].
  intros k c Hin. subst out.
  apply In_setitem_inv in Hin. destruct Hin as [[Hk Hc]|[_ Hin]].
  { right. right. right. exists (to_period_M (to_datetime oc)). split; assumption. }
  apply In_rename_columns_inv in Hin. destruct Hin as [k0 [Hk Hin]].
  unfold before_rename in Hin.
  apply In_setitem_inv in Hin. destruct Hin as [[Hk0 Hc]|[_ Hin]].
  { left. exists ltv. split; [congruence|].
    apply Forall_impl with (2 := Hpos). intros x [q [Hx _]]. congruence. }
  apply In_setitem_inv in Hin. destruct Hin as [[Hk0 Hc]|[_ Hin]].
  { right. right. left. exists (to_datetime sc). split; [exact Hc|].
    right. subst k k0. apply normalize_shipping_date. }
  apply In_setitem_inv in Hin. destruct Hin as [[Hk0 Hc]|[_ Hin]].
  { right. right. left. exists (to_datetime oc). split; [exact Hc|].
    left. subst k k0. apply normalize_order_date. }
  destruct (Hcol _ _ Hin) as [_ [Hnum|Hobj]]; [left|right; left]; assumption.
Qed.
End CleanTable.

Section MonthBucket.
Variable to_datetime : column -> list (option Z).

(** X8: in a built table [order_date] is one column of timestamps, and
    every column labelled [order_month] is its month bucket: row by row
    the month of the order date, and [NaT] where the date did not
    parse. *)
Theorem order_month_of_order_date (raw : RawFrame) (out : DataFrame) :
  NoDup (map fst raw) ->
  build_dataset_from to_datetime raw = Ok out ->
  exists od,
    getitem out "order_date" = Ok (Series (DateCol od))
    /\ In ("order_month", PeriodCol (to_period_M od)) out
    /\ (forall c, In ("order_month", c) out -> c = PeriodCol (to_period_M od))
    /\ (forall i, nth_error (to_period_M od) i
                  = option_map (option_map month_ordinal) (nth_error od i)).
Proof.
  intros Hnd H.
  destruct (build_dataset_from_inv to_datetime raw out Hnd H)
    as [df1 [oc [sc [dcol [lt [_ [_ [_ [_ [_ [_ [Hget Hout]]]]]]]]]]]].
  exists (to_datetime oc). subst out. split; [|split; [|split]].
  - rewrite getitem_setitem_other by discriminate. exact Hget.
  - apply In_setitem_same.
  - intros c Hin. apply In_setitem_inv in Hin.
    destruct Hin as [[_ Hc]|[Hne _]]; [exact Hc|congruence].
  - intros i. unfold to_period_M. apply nth_error_map.
Qed.
End MonthBucket.

(** * Further properties of the sidebar filters (lines 76-102) *)

Lemma StronglySorted_strict {A : Type} (R : A -> A -> Prop) (l : list A) :
  StronglySorted R l -> NoDup l -> StronglySorted (fun a b => R a b /\ a <> b) l.
Proof.
  induction 1 as [|a l Hs IH Ha]; intros Hnd; [constructor|].
  inversion Hnd as [|a' l' Hnotin Hnd']; subst.
  constructor; [apply IH, Hnd'|].
  apply Forall_forall. intros b Hb. split.
  - apply (proj1 (Forall_forall _ _) Ha b Hb).
  - intros Heq. subst b. contradiction.
Qed.

Lemma In_options (xs : list (option string)) (v : string) :
  In v (options (ObjCol xs)) <-> In (Some v) xs.
Proof.
  unfold options, unique. rewrite sort_In, nodup_In. apply dropna_In.
Qed.

(** X9: the options a multiselect offers, [sorted(series.dropna().unique())],
    are exactly the values present in the column, each one once, in
    strictly ascending order. *)
Theorem options_sorted_distinct (xs : list (option string)) :
  StronglySorted (fun a b => String.leb a b = true /\ a <> b) (options (ObjCol xs))
  /\ NoDup (options (ObjCol xs))
  /\ (forall v, In v (options (ObjCol xs)) <-> In (Some v) xs).
Proof.
  assert (Hnd : NoDup (options (ObjCol xs))).
  { unfold options, unique.
    apply (Permutation_NoDup (l := nodup string_dec (dropna xs))).
    - apply Permutation_sym, sort_perm.
    - apply NoDup_nodup. }
  split; [|split; [exact Hnd|apply In_options]].
  apply StronglySorted_strict; [|exact Hnd].
  unfold options. apply sort_sorted.
  - apply String.leb_total.
  - apply string_leb_trans.
Qed.

Lemma isin_all_true (values : list string) (xs : list (option string)) :
  (forall s, In (Some s) xs -> In s values) ->
  all_present xs ->
  isin (ObjCol xs) values = repeat true (List.length xs).
Proof.
  intros Hin Hall. simpl. induction xs as [|x xs IH]; [reflexivity|].
  inversion Hall as [|x' xs' Hx Hall']; subst. simpl.
  rewrite IH; [|intros s Hs; apply Hin; right; exact Hs|exact Hall'].
  destruct x as [s|]; [|congruence].
  assert (He : existsb (String.eqb s) values = true).
  { apply existsb_exists. exists s. split; [|apply String.eqb_refl].
    apply Hin. left. reflexivity. }
  rewrite He. reflexivity.
Qed.

Lemma zip_with_andb_true (n : nat) :
  zip_with andb (repeat true n) (repeat true n) = repeat true n.
Proof. induction n as [|n IH]; [reflexivity|]. simpl. rewrite IH. reflexivity. Qed.

Lemma take_mask_all_true {A : Type} (n : nat) :
  forall l : list A, (List.length l <= n)%nat -> take_mask (repeat true n) l = l.
Proof.
  induction n as [|n IH]; intros [|x l] H; simpl in *; try reflexivity; try lia.
  rewrite IH; [reflexivity|lia].
Qed.

Lemma column_take_all_true (n : nat) (c : column) :
  (column_length c <= n)%nat -> column_take (repeat true n) c = c.
Proof.
  destruct c as [xs|xs|xs|xs]; simpl; intros H; rewrite (take_mask_all_true n xs H);
    reflexivity.
Qed.

Lemma boolean_index_all_true (df : DataFrame) :
  well_formed df -> boolean_index (repeat true (nrows df)) df = df.
Proof.
  unfold well_formed, boolean_index. generalize (nrows df) as n. intros n Hwf.
  induction Hwf as [|[k c] df Hc _ IH]; [reflexivity|].
  simpl in *. rewrite IH, (column_take_all_true n c); [reflexivity|lia].
Qed.

Lemma column_length_nrows (df : DataFrame) (key : string) (c : column) :
  well_formed df -> In (key, c) df -> column_length c = nrows df.
Proof.
  intros Hwf Hin. apply (proj1 (Forall_forall _ _) Hwf (key, c) Hin).
Qed.

(** X10: the default selection of the three multiselects is all their
    options.  On a rectangular table whose three filter columns are object
    columns without missing values (as in every built table), the default
    view is the whole table. *)
Theorem default_selection_shows_everything
        (df_clean : DataFrame) (r c s : list (option string)) :
  well_formed df_clean ->
  getitem df_clean "order_region" = Ok (Series (ObjCol r)) ->
  getitem df_clean "category_name" = Ok (Series (ObjCol c)) ->
  getitem df_clean "customer_segment" = Ok (Series (ObjCol s)) ->
  all_present r -> all_present c -> all_present s ->
  filtered_view df_clean (options (ObjCol r)) (options (ObjCol c)) (options (ObjCol s))
  = Ok df_clean.
Proof.
  intros Hwf Hr Hc Hs Hpr Hpc Hps.
  assert (Lr := column_length_nrows df_clean _ _ Hwf (getitem_Series_In _ _ _ Hr)).
  assert (Lc := column_length_nrows df_clean _ _ Hwf (getitem_Series_In _ _ _ Hc)).
  assert (Ls := column_length_nrows df_clean _ _ Hwf (getitem_Series_In _ _ _ Hs)).
  simpl in Lr, Lc, Ls.
  unfold filtered_view, filter_mask, series. rewrite Hr, Hc, Hs. cbn [bind as_series].
  rewrite (isin_all_true _ r (fun v => proj2 (In_options r v)) Hpr).
  rewrite (isin_all_true _ c (fun v => proj2 (In_options c v)) Hpc).
  rewrite (isin_all_true _ s (fun v => proj2 (In_options s v)) Hps).
  rewrite Lr, Lc, Ls, !zip_with_andb_true.
  rewrite (boolean_index_all_true df_clean Hwf). reflexivity.
Qed.

Lemma well_formed_boolean_index (mask : list bool) (df : DataFrame) :
  well_formed df -> well_formed (boolean_index mask df).
Proof.
  intros Hwf. unfold well_formed in *.
  assert (Hall : Forall (fun kc => column_length (snd kc)
                                   = List.length (take_mask mask (repeat tt (nrows df))))
                        (boolean_index mask df)).
  { unfold boolean_index. apply Forall_forall. intros [k c] Hin.
    apply in_map_iff in Hin. destruct Hin as [[k0 c0] [Heq Hin]].
    simpl in Heq. injection Heq as Hk Hc. subst k c. simpl.
    rewrite column_take_length.
    pose proof (proj1 (Forall_forall _ _) Hwf (k0, c0) Hin) as E. simpl in E.
    rewrite E. reflexivity. }
  destruct df as [|[k c] df]; [constructor|].
  replace (nrows (boolean_index mask ((k, c) :: df)))
    with (List.length (take_mask mask (repeat tt (nrows ((k, c) :: df))))); [exact Hall|].
  simpl. symmetry. apply column_take_length.
Qed.

Lemma length_records (df : DataFrame) :
  well_formed df -> List.length (records df) = nrows df.
Proof. intros Hwf. unfold records. apply records_of_length. exact Hwf. Qed.

Lemma columns_boolean_index (mask : list bool) (df : DataFrame) :
  columns (boolean_index mask df) = columns df.
Proof. unfold columns, boolean_index. rewrite map_map. reflexivity. Qed.

Lemma filtered_view_inv (df : DataFrame) (rf cf sf : list string) (data : DataFrame) :
  filtered_view df rf cf sf = Ok data ->
  exists mask, filter_mask df rf cf sf = Ok mask /\ data = boolean_index mask df.
Proof.
  unfold filtered_view. intros H. bind_inv H. apply Ok_inj in H.
  exists x. split; [exact Hx|symmetry; exact H].
Qed.

Lemma filter_length_le {A : Type} (p : A -> bool) (l : list A) :
  (List.length (filter p l) <= List.length l)%nat.
Proof.
  induction l as [|x l IH]; [apply Nat.le_refl|]. simpl. destruct (p x); simpl; lia.
Qed.

(** X11: the view keeps the columns of the cleaned table and is
    rectangular; the number the sidebar shows, [len(data)], is the number
    of records of the cleaned table that match the three selections, and
    never more than the table has. *)
Theorem filtered_view_shape
        (df_clean : DataFrame) (region_filter category_filter segment_filter : list string)
        (data : DataFrame) :
  well_formed df_clean ->
  filtered_view df_clean region_filter category_filter segment_filter = Ok data ->
  columns data = columns df_clean
  /\ well_formed data
  /\ nrows data
     = List.length (filter (selected region_filter category_filter segment_filter)
                           (records df_clean))
  /\ (nrows data <= nrows df_clean)%nat.
Proof.
  intros Hwf Hview.
  pose proof (filtered_view_records _ _ _ _ _ Hwf Hview) as Hrec.
  destruct (filtered_view_inv _ _ _ _ _ Hview) as [mask [_ Hdata]].
  assert (Hwf' : well_formed data).
  { subst data. apply well_formed_boolean_index, Hwf. }
  assert (Hn : nrows data
               = List.length (filter (selected region_filter category_filter segment_filter)
                                     (records df_clean))).
  { rewrite <- (length_records data Hwf'), Hrec. reflexivity. }
  split; [subst data; apply columns_boolean_index|].
  split; [exact Hwf'|]. split; [exact Hn|].
  rewrite Hn, <- (length_records df_clean Hwf). apply filter_length_le.
Qed.

Lemma in_selection_incl (a b : list string) (x : option cell) :
  incl a b -> in_selection a x = true -> in_selection b x = true.
Proof.
  intros Hincl H. apply in_selection_true in H. destruct H as [s [Hx Hs]].
  apply in_selection_true. exists s. split; [exact Hx|apply Hincl, Hs].
Qed.

Lemma selected_incl (rf cf sf rf' cf' sf' : list string) (r : record) :
  incl rf rf' -> incl cf cf' -> incl sf sf' ->
  selected rf cf sf r = true -> selected rf' cf' sf' r = true.
Proof.
  intros Hr Hc Hs. unfold selected. intros H.
  apply andb_true_iff in H. destruct H as [H H3].
  apply andb_true_iff in H. destruct H as [H1 H2].
  rewrite (in_selection_incl _ _ _ Hr H1), (in_selection_incl _ _ _ Hc H2),
    (in_selection_incl _ _ _ Hs H3). reflexivity.
Qed.

Lemma filter_filter_impl {A : Type} (p q : A -> bool) (l : list A) :
  (forall x, p x = true -> q x = true) ->
  filter p (filter q l) = filter p l.
Proof.
  intros Himp. induction l as [|x l IH]; [reflexivity|]. simpl.
  destruct (q x) eqn:Hq; simpl.
  - rewrite IH. reflexivity.
  - destruct (p x) eqn:Hp; [|exact IH].
    rewrite (Himp x Hp) in Hq. discriminate.
Qed.

(** X12: selecting more never shows less.  When each of the three
    selections is enlarged, the wider view exists as well, the narrower
    view consists of the records of the wider view that match the narrower
    selections, and it has no more rows. *)
Theorem filtered_view_monotone
        (df_clean : DataFrame) (rf cf sf rf' cf' sf' : list string) (data : DataFrame) :
  well_formed df_clean ->
  incl rf rf' -> incl cf cf' -> incl sf sf' ->
  filtered_view df_clean rf cf sf = Ok data ->
  exists data',
    filtered_view df_clean rf' cf' sf' = Ok data'
    /\ records data = filter (selected rf cf sf) (records data')
    /\ (nrows data <= nrows data')%nat.
Proof.
  intros Hwf Hr Hc Hs Hview.
  assert (Hex : exists data', filtered_view df_clean rf' cf' sf' = Ok data').
  { unfold filtered_view, filter_mask in *.
    destruct (series ValueError df_clean "order_region"); [|discriminate].
    destruct (series ValueError df_clean "category_name"); [|discriminate].
    destruct (series ValueError df_clean "customer_segment"); [|discriminate].
    eexists. reflexivity. }
  destruct Hex as [data' Hview']. exists data'. split; [exact Hview'|].
  pose proof (filtered_view_records _ _ _ _ _ Hwf Hview) as Hrec.
  pose proof (filtered_view_records _ _ _ _ _ Hwf Hview') as Hrec'.
  assert (Heq : records data = filter (selected rf cf sf) (records data')).
  { rewrite Hrec, Hrec'. symmetry. apply filter_filter_impl.
    intros r. apply selected_incl; assumption. }
  split; [exact Heq|].
  destruct (filtered_view_inv _ _ _ _ _ Hview) as [mask [_ Hdata]].
  destruct (filtered_view_inv _ _ _ _ _ Hview') as [mask' [_ Hdata']].
  rewrite <- (length_records data), <- (length_records data').
  - rewrite Heq. apply filter_length_le.
  - subst data'. apply well_formed_boolean_index, Hwf.
  - subst data. apply well_formed_boolean_index, Hwf.
Qed.

(** * Further properties of the KPI tiles (lines 121-141) *)

(** ** Rounding and means stay within integer bounds *)

Lemma round_half_even_ge_floor (q : Q) : (Qfloor q <= round_half_even q)%Z.
Proof.
  unfold round_half_even.
  destruct (Qcompare (q - inject_Z (Qfloor q)) (1 # 2)); [|lia|lia].
  destruct (Z.even (Qfloor q)); lia.
Qed.

Lemma round_half_even_lower (z : Z) (q : Q) :
  (inject_Z z <= q)%Q -> (z <= round_half_even q)%Z.
Proof.
  intros H. apply Qfloor_resp_le in H. rewrite Qfloor_Z in H.
  pose proof (round_half_even_ge_floor q). lia.
Qed.

Lemma round_half_even_upper (z : Z) (q : Q) :
  (q <= inject_Z z)%Q -> (round_half_even q <= z)%Z.
Proof.
  intros H.
  assert (Hf : (Qfloor q <= z)%Z).
  { apply Qfloor_resp_le in H. rewrite Qfloor_Z in H. exact H. }
  assert (Hstep : ((1 # 2) <= q - inject_Z (Qfloor q))%Q -> (Qfloor q + 1 <= z)%Z).
  { intros Hhalf. destruct (Z.eq_dec (Qfloor q) z) as [Heq|Hne]; [|lia].
    exfalso. rewrite Heq in Hhalf.
    assert (Hle : (q - inject_Z z <= 0)%Q).
    { apply (Qplus_le_l _ _ (inject_Z z)). ring_simplify. exact H. }
    pose proof (Qle_trans _ _ _ Hhalf Hle) as Habs.
    revert Habs. compute. intros Habs. apply Habs. reflexivity. }
  unfold round_half_even.
  destruct (Qcompare (q - inject_Z (Qfloor q)) (1 # 2)) eqn:E.
  - apply Qeq_alt in E.
    assert (Hhalf : ((1 # 2) <= q - inject_Z (Qfloor q))%Q) by (rewrite E; apply Qle_refl).
    specialize (Hstep Hhalf). destruct (Z.even (Qfloor q)); lia.
  - exact Hf.
  - apply Qgt_alt in E. apply Hstep. apply Qlt_le_weak. exact E.
Qed.

Lemma scale_pos (n : nat) : (0 < inject_Z (10 ^ Z.of_nat n))%Q.
Proof.
  change 0%Q with (inject_Z 0). rewrite <- Zlt_Qlt. apply Z.pow_pos_nonneg; lia.
Qed.

Lemma round_to_lower (n : nat) (a : Z) (q : Q) :
  (inject_Z a <= q)%Q -> (inject_Z a <= round_to n q)%Q.
Proof.
  intros H. unfold round_to. rewrite Qred_correct.
  apply Qle_shift_div_l; [apply scale_pos|].
  rewrite <- inject_Z_mult, <- Zle_Qle.
  apply round_half_even_lower. rewrite inject_Z_mult.
  apply Qmult_le_compat_r; [exact H|apply Qlt_le_weak, scale_pos].
Qed.

Lemma round_to_upper (n : nat) (b : Z) (q : Q) :
  (q <= inject_Z b)%Q -> (round_to n q <= inject_Z b)%Q.
Proof.
  intros H. unfold round_to. rewrite Qred_correct.
  apply Qle_shift_div_r; [apply scale_pos|].
  rewrite <- inject_Z_mult, <- Zle_Qle.
  apply round_half_even_upper. rewrite inject_Z_mult.
  apply Qmult_le_compat_r; [exact H|apply Qlt_le_weak, scale_pos].
Qed.

Lemma inject_Z_length_succ {A : Type} (v : A) (vs : list A) :
  (inject_Z (Z.of_nat (List.length (v :: vs)))
   == inject_Z (Z.of_nat (List.length vs)) + 1)%Q.
Proof.
  simpl List.length. rewrite Nat2Z.inj_succ, <- Z.add_1_r, inject_Z_plus. reflexivity.
Qed.

Lemma sum_lower (lo : Q) (vs : list Q) :
  Forall (fun v => (lo <= v)%Q) vs ->
  (lo * inject_Z (Z.of_nat (List.length vs)) <= fold_right Qplus 0 vs)%Q.
Proof.
  induction 1 as [|v vs Hv _ IH].
  - simpl. rewrite Qmult_0_r. apply Qle_refl.
  - rewrite inject_Z_length_succ. simpl fold_right.
    rewrite Qmult_plus_distr_r, Qmult_1_r, Qplus_comm.
    apply Qplus_le_compat; assumption.
Qed.

Lemma sum_upper (hi : Q) (vs : list Q) :
  Forall (fun v => (v <= hi)%Q) vs ->
  (fold_right Qplus 0 vs <= hi * inject_Z (Z.of_nat (List.length vs)))%Q.
Proof.
  induction 1 as [|v vs Hv _ IH].
  - simpl. rewrite Qmult_0_r. apply Qle_refl.
  - rewrite inject_Z_length_succ. simpl fold_right.
    rewrite Qmult_plus_distr_r, Qmult_1_r, (Qplus_comm (hi * _)).
    apply Qplus_le_compat; assumption.
Qed.

Lemma length_pos (vs : list Q) :
  vs <> [] -> (0 < inject_Z (Z.of_nat (List.length vs)))%Q.
Proof.
  intros Hne. destruct vs as [|v vs]; [congruence|].
  change 0%Q with (inject_Z 0). rewrite <- Zlt_Qlt. simpl List.length. lia.
Qed.

Lemma series_mean_Some (xs : list (option Q)) (m : Q) :
  series_mean xs = Some m ->
  dropna xs <> []
  /\ (m == fold_right Qplus 0 (dropna xs)
           / inject_Z (Z.of_nat (List.length (dropna xs))))%Q.
Proof.
  unfold series_mean. destruct (dropna xs) as [|v vs] eqn:E; [discriminate|].
  intros H.
  assert (Hm : m = Qred (fold_right Qplus 0%Q (v :: vs)
                         / inject_Z (Z.of_nat (List.length (v :: vs)))))
    by congruence.
  split; [discriminate|]. rewrite Hm. apply Qred_correct.
Qed.

Lemma series_mean_lower (lo : Q) (xs : list (option Q)) (m : Q) :
  (forall v, In (Some v) xs -> (lo <= v)%Q) ->
  series_mean xs = Some m -> (lo <= m)%Q.
Proof.
  intros Hlo Hm. destruct (series_mean_Some xs m Hm) as [Hne Heq]. rewrite Heq.
  apply Qle_shift_div_l; [apply length_pos, Hne|].
  apply sum_lower. apply Forall_forall. intros v Hv. apply Hlo, dropna_In, Hv.
Qed.

Lemma series_mean_upper (hi : Q) (xs : list (option Q)) (m : Q) :
  (forall v, In (Some v) xs -> (v <= hi)%Q) ->
  series_mean xs = Some m -> (m <= hi)%Q.
Proof.
  intros Hhi Hm. destruct (series_mean_Some xs m Hm) as [Hne Heq]. rewrite Heq.
  apply Qle_shift_div_r; [apply length_pos, Hne|].
  apply sum_upper. apply Forall_forall. intros v Hv. apply Hhi, dropna_In, Hv.
Qed.

Lemma kpi_tiles_inv (data : DataFrame) (k : KPIs) :
  kpi_tiles data = Ok k ->
  exists sales profit lead risk,
    numeric_series data "sales" = Ok sales
    /\ numeric_series data "order_profit_per_order" = Ok profit
    /\ numeric_series data "lead_time_days" = Ok lead
    /\ numeric_series data "late_delivery_risk" = Ok risk
    /\ k = {| kpi_total_sales := MetricText (format_comma_0f (series_sum sales));
              kpi_total_profit := MetricText (format_comma_0f (series_sum profit));
              kpi_avg_lead_time := MetricFloat (round_float 2 (series_mean lead));
              kpi_late_risk := MetricFloat (round_float 3 (series_mean risk)) |}.
Proof.
  unfold kpi_tiles. intros H.
  bind_inv H. bind_inv H. bind_inv H. bind_inv H. apply Ok_inj in H.
  exists x, x0, x1, x2. repeat (split; [assumption|]). symmetry. exact H.
Qed.

(** X13: the tile "Late Delivery Risk (mean)" shows a value between 0 and 1
    whenever the risk indicators of the view lie between 0 and 1; rounding
    to three decimals does not leave the interval.  (On a view without
    risk values the tile shows [nan].) *)
Theorem late_risk_tile_in_unit_interval
        (data : DataFrame) (risk : list (option Q)) (k : KPIs) :
  numeric_series data "late_delivery_risk" = Ok risk ->
  (forall v, In (Some v) risk -> (0 <= v)%Q /\ (v <= 1)%Q) ->
  kpi_tiles data = Ok k ->
  exists x,
    kpi_late_risk k = MetricFloat x
    /\ (x = None <-> forall v, ~ In (Some v) risk)
    /\ (forall q, x = Some q -> (0 <= q)%Q /\ (q <= 1)%Q).
Proof.
  intros Hrisk Hunit Hk.
  destruct (kpi_tiles_inv data k Hk) as [sales [profit [lead [risk' [_ [_ [_ [Hr Heq]]]]]]]].
  rewrite Hrisk in Hr. apply Ok_inj in Hr. subst risk' k. simpl.
  exists (round_float 3 (series_mean risk)). split; [reflexivity|]. split.
  - unfold round_float, series_mean. split.
    + destruct (dropna risk) as [|v vs] eqn:E; [|discriminate].
      intros _ v Hv. apply dropna_In in Hv. rewrite E in Hv. exact Hv.
    + intros Hnone. destruct (dropna risk) as [|v vs] eqn:E; [reflexivity|].
      exfalso. apply (Hnone v). apply dropna_In. rewrite E. left. reflexivity.
  - intros q Hq. unfold round_float in Hq.
    destruct (series_mean risk) as [m|] eqn:Hm; [|discriminate].
    simpl in Hq. injection Hq as Hq. subst q. split.
    + apply (round_to_lower 3 0 m).
      apply (series_mean_lower 0 risk m); [|exact Hm]. intros v Hv. apply (Hunit v Hv).
    + apply (round_to_upper 3 1 m).
      apply (series_mean_upper 1 risk m); [|exact Hm]. intros v Hv. apply (Hunit v Hv).
Qed.

(** ** The lead-time tile on views of a built table *)

Lemma filter_has_label_boolean_index (key : string) (mask : list bool) (df : DataFrame) :
  filter (has_label key) (boolean_index mask df)
  = boolean_index mask (filter (has_label key) df).
Proof.
  unfold boolean_index. induction df as [|[k c] df IH]; [reflexivity|].
  cbn [map filter fst snd].
  change (has_label key (k, column_take mask c)) with (has_label key (k, c)).
  destruct (has_label key (k, c)); cbn [map fst snd]; rewrite IH; reflexivity.
Qed.

Lemma getitem_boolean_index_Series (mask : list bool) (df : DataFrame) (key : string)
      (c : column) :
  getitem (boolean_index mask df) key = Ok (Series c) ->
  exists c0, getitem df key = Ok (Series c0) /\ c = column_take mask c0.
Proof.
  unfold getitem. rewrite filter_has_label_boolean_index.
  destruct (filter (has_label key) df) as [|[k c0] [|kc rest]]; simpl; intros H;
    try discriminate.
  apply Ok_inj in H. injection H as H. exists c0. split; [reflexivity|].
  symmetry. exact H.
Qed.

Lemma numeric_series_getitem (df : DataFrame) (key : string) (xs : list (option Q)) :
  numeric_series df key = Ok xs -> getitem df key = Ok (Series (NumCol xs)).
Proof.
  intros H. apply numeric_series_Ok in H. unfold getitem. rewrite H. reflexivity.
Qed.

Lemma In_take_mask {A : Type} (mask : list bool) :
  forall (l : list A) (x : A), In x (take_mask mask l) -> In x l.
Proof.
  induction mask as [|m mask IH]; intros [|y l] x H; simpl in *; try contradiction.
  destruct m.
  - destruct H as [H|H]; [left; exact H|right; apply IH, H].
  - right. apply IH, H.
Qed.

Lemma series_mean_None (xs : list (option Q)) :
  series_mean xs = None -> dropna xs = [].
Proof.
  unfold series_mean. destruct (dropna xs); [reflexivity|discriminate].
Qed.

Section LeadTimeTile.
Variable to_datetime : column -> list (option Z).
Hypothesis to_datetime_length :
  forall c, List.length (to_datetime c) = column_length c.

(** The lead-time column of a built table: one value per record, none
    missing, none negative. *)
Lemma lead_time_column (raw : RawFrame) (n : nat) (out : DataFrame) (c : column) :
  NoDup (map fst raw) ->
  Forall (fun kc => raw_length (snd kc) = n) raw ->
  build_dataset_from to_datetime raw = Ok out ->
  getitem out "lead_time_days" = Ok (Series c) ->
  exists lt,
    c = NumCol lt
    /\ List.length lt = n
    /\ Forall (fun x => exists q, x = Some q /\ (0 <= q)%Q) lt.
Proof.
  intros Hnd Hlen H Hget.
  destruct (build_dataset_from_inv to_datetime raw out Hnd H)
    as [df1 [oc [sc [dcol [ltcol [Hdf1 [_ [Hoc [Hsc [Hd [Hfill [_ Hout]]]]]]]]]]]].
  pose proof (drop_and_impute_columns raw n df1 Hnd Hlen Hdf1) as Hcol.
  destruct (Hcol _ _ Hoc) as [Holen _]. destruct (Hcol _ _ Hsc) as [Hslen _].
  destruct (Hcol _ _ Hd) as [Hdlen Hdkind].
  destruct (fill_and_clip_present _ dcol ltcol n
              (lead_length to_datetime to_datetime_length df1 n oc sc Holen Hslen)
              Hdlen Hdkind Hfill) as [lt [Hlt Hrest]].
  exists lt. split; [|exact Hrest]. subst ltcol.
  symmetry. apply (getitem_Series_unique _ _ _ _ Hget). subst out.
  apply In_setitem_other; [discriminate|].
  rewrite <- normalize_lead_time_days. apply In_rename_columns.
  unfold before_rename. apply In_setitem_same.
Qed.

(** X14: on every view of a built table the tile "Avg Lead Time (days)"
    shows [nan] exactly when the view has no rows, and otherwise a number
    that is not negative. *)
Theorem avg_lead_time_tile_nonneg
        (raw : RawFrame) (n : nat) (df_clean : DataFrame)
        (region_filter category_filter segment_filter : list string)
        (data : DataFrame) (k : KPIs) :
  NoDup (map fst raw) ->
  Forall (fun kc => raw_length (snd kc) = n) raw ->
  build_dataset_from to_datetime raw = Ok df_clean ->
  filtered_view df_clean region_filter category_filter segment_filter = Ok data ->
  kpi_tiles data = Ok k ->
  (nrows data = 0%nat /\ kpi_avg_lead_time k = MetricFloat None)
  \/ ((0 < nrows data)%nat
      /\ exists q, kpi_avg_lead_time k = MetricFloat (Some q) /\ (0 <= q)%Q).
Proof.
  intros Hnd Hlen Hbuild Hview Hk.
  destruct (kpi_tiles_inv data k Hk) as [sales [profit [lead [risk [_ [_ [Hl [_ Heq]]]]]]]].
  destruct (filtered_view_inv _ _ _ _ _ Hview) as [mask [_ Hdata]].
  destruct (build_dataset_from_well_formed to_datetime to_datetime_length
              raw n df_clean Hnd Hlen Hbuild) as [Hwf _].
  assert (Hwf' : well_formed data) by (subst data; apply well_formed_boolean_index, Hwf).
  pose proof (numeric_series_getitem _ _ _ Hl) as Hget.
  assert (Hrows : List.length lead = nrows data).
  { apply (column_length_nrows data "lead_time_days" (NumCol lead) Hwf').
    apply getitem_Series_In, Hget. }
  rewrite Hdata in Hget.
  destruct (getitem_boolean_index_Series _ _ _ _ Hget) as [c0 [Hget0 Hc0]].
  destruct (lead_time_column raw n df_clean c0 Hnd Hlen Hbuild Hget0)
    as [lt [Hlt [_ Hpos]]].
  subst c0. simpl in Hc0. injection Hc0 as Hlead.
  assert (Hpos' : forall v, In (Some v) lead -> (inject_Z 0 <= v)%Q).
  { intros v Hv. rewrite Hlead in Hv. apply In_take_mask in Hv.
    destruct (proj1 (Forall_forall _ _) Hpos _ Hv) as [q [Hq Hq0]].
    injection Hq as Hq. subst q. exact Hq0. }
  assert (Hall : forall x, In x lead -> x <> None).
  { intros x Hx. rewrite Hlead in Hx. apply In_take_mask in Hx.
    destruct (proj1 (Forall_forall _ _) Hpos _ Hx) as [q [Hq _]]. congruence. }
  rewrite Heq. cbn [kpi_avg_lead_time]. rewrite <- Hrows.
  destruct lead as [|x lead'].
  - left. split; reflexivity.
  - right. split; [simpl; lia|].
    destruct (series_mean (x :: lead')) as [m|] eqn:Hm.
    + exists (round_to 2 m). split; [reflexivity|].
      apply (round_to_lower 2 0 m). apply (series_mean_lower _ _ m Hpos' Hm).
    + exfalso. apply series_mean_None in Hm.
      destruct x as [v|]; [simpl in Hm; discriminate|].
      apply (Hall None); [left|]; reflexivity.
Qed.
End LeadTimeTile.

(** * Group-by reports *)

(** ** Groups partition the rows *)

Lemma filter_filter {A : Type} (p q : A -> bool) (l : list A) :
  filter p (filter q l) = filter (fun x => p x && q x) l.
Proof.
  induction l as [|x l IH]; [reflexivity|]. simpl.
  destruct (q x); simpl; [|rewrite andb_false_r; exact IH].
  rewrite andb_true_r. destruct (p x); rewrite IH; reflexivity.
Qed.

Lemma split_filter {A : Type} (p q : A -> bool) (l : list A) :
  Permutation (filter p l ++ filter q (filter (fun x => negb (p x)) l))
              (filter (fun x => p x || q x) l).
Proof.
  induction l as [|x l IH]; [apply perm_nil|]. simpl.
  destruct (p x); simpl.
  - apply perm_skip, IH.
  - destruct (q x).
    + apply Permutation_sym, Permutation_cons_app, Permutation_sym, IH.
    + exact IH.
Qed.

Lemma map_flat_map {A B C : Type} (g : B -> C) (f : A -> list B) (l : list A) :
  map g (flat_map f l) = flat_map (fun x => map g (f x)) l.
Proof.
  induction l as [|x l IH]; [reflexivity|]. simpl. rewrite map_app, IH. reflexivity.
Qed.

Lemma StronglySorted_filter {A : Type} (R : A -> A -> Prop) (p : A -> bool) (l : list A) :
  StronglySorted R l -> StronglySorted R (filter p l).
Proof.
  induction 1 as [|x l Hs IH Hx]; [constructor|]. simpl.
  destruct (p x); [|exact IH]. constructor; [exact IH|].
  apply Forall_forall. intros y Hy. apply filter_In in Hy.
  apply (proj1 (Forall_forall _ _) Hx y (proj1 Hy)).
Qed.

Lemma StronglySorted_perm {A : Type} (R : A -> A -> Prop) (l l' : list A) :
  (forall a b, R a b -> R b a) ->
  Permutation l l' -> StronglySorted R l -> StronglySorted R l'.
Proof.
  intros Hsym Hperm. induction Hperm as [|x l l' Hp IH|x y l|l l' l'' _ IH1 _ IH2];
    intros Hs.
  - constructor.
  - inversion Hs as [|x' l0 Hl Hx]; subst. constructor; [apply IH, Hl|].
    apply (Permutation_Forall Hp). exact Hx.
  - inversion Hs as [|y' l0 Hl Hy]; subst.
    inversion Hl as [|x' l1 Hl' Hx]; subst.
    inversion Hy as [|x' l1 Hyx Hy']; subst.
    constructor; [constructor; assumption|].
    constructor; [apply Hsym, Hyx|exact Hx].
  - apply IH2, IH1, Hs.
Qed.

Section GroupByFacts.
Variables K R : Type.
Variable key_eqb : K -> K -> bool.

Lemma distinct_In (ks : list K) (k : K) : In k (distinct key_eqb ks) -> In k ks.
Proof.
  revert k. induction ks as [|k0 ks IH]; intros k; simpl; [tauto|].
  intros [H|H]; [left; exact H|]. right. apply IH.
  apply filter_In in H. apply H.
Qed.

Lemma distinct_separated (ks : list K) :
  StronglySorted (fun a b => key_eqb a b = false) (distinct key_eqb ks).
Proof.
  induction ks as [|k ks IH]; simpl; [constructor|].
  constructor; [apply StronglySorted_filter, IH|].
  apply Forall_forall. intros k' Hk'. apply filter_In in Hk'.
  destruct Hk' as [_ Hk']. destruct (key_eqb k k'); [discriminate|reflexivity].
Qed.

Variable key_leb : K -> K -> bool.

Lemma groupby_keys (rows : list (K * R)) :
  map fst (groupby key_eqb key_leb rows)
  = sort key_leb (distinct key_eqb (map fst rows)).
Proof. unfold groupby. rewrite map_map. simpl. apply map_id. Qed.

Lemma groupby_In (rows : list (K * R)) (k : K) (rs : list R) :
  In (k, rs) (groupby key_eqb key_leb rows) ->
  In k (map fst rows)
  /\ rs = map snd (filter (fun r => key_eqb (fst r) k) rows).
Proof.
  unfold groupby. intros H. apply in_map_iff in H. destruct H as [k' [Heq Hin]].
  injection Heq as Hk Hrs. subst k'. split; [|symmetry; exact Hrs].
  apply distinct_In. apply (proj1 (sort_In _ _ _ _) Hin).
Qed.

Hypothesis key_eqb_sym : forall a b, key_eqb a b = key_eqb b a.
Hypothesis key_eqb_trans :
  forall a b c, key_eqb a b = true -> key_eqb b c = true -> key_eqb a c = true.

Lemma group_absorb (k : K) (D : list K) (l : list (K * R)) :
  flat_map (fun k' => filter (fun r => key_eqb (fst r) k') l)
           (filter (fun k' => negb (key_eqb k k')) D)
  = flat_map (fun k' => filter (fun r => key_eqb (fst r) k')
                               (filter (fun r => negb (key_eqb k (fst r))) l)) D.
Proof.
  induction D as [|k1 D IH]; [reflexivity|]. simpl.
  destruct (key_eqb k k1) eqn:E; simpl; rewrite IH.
  - rewrite (filter_none (fun r => key_eqb (fst r) k1)); [reflexivity|].
    intros r Hr. apply filter_In in Hr. destruct Hr as [_ Hr].
    destruct (key_eqb (fst r) k1) eqn:E1; [|reflexivity].
    rewrite key_eqb_sym in E1. rewrite (key_eqb_trans _ _ _ E E1) in Hr.
    discriminate.
  - f_equal. rewrite filter_filter. apply filter_ext. intros r.
    destruct (key_eqb (fst r) k1) eqn:E1; [|reflexivity].
    destruct (key_eqb k (fst r)) eqn:E2; [|reflexivity].
    rewrite (key_eqb_trans _ _ _ E2 E1) in E. discriminate.
Qed.

Lemma groups_cover (ks : list K) :
  forall l : list (K * R),
    Permutation
      (flat_map (fun k => filter (fun r => key_eqb (fst r) k) l) (distinct key_eqb ks))
      (filter (fun r => existsb (key_eqb (fst r)) ks) l).
Proof.
  induction ks as [|k ks IH]; intros l.
  - simpl. rewrite (filter_none (fun _ => false)); [apply perm_nil|reflexivity].
  - cbn [distinct flat_map existsb]. rewrite group_absorb.
    eapply perm_trans; [apply Permutation_app_head, IH|].
    rewrite (filter_ext (fun r => negb (key_eqb k (fst r)))
                        (fun r => negb (key_eqb (fst r) k))).
    + apply (split_filter (fun r => key_eqb (fst r) k)
                          (fun r => existsb (key_eqb (fst r)) ks)).
    + intros r. rewrite key_eqb_sym. reflexivity.
Qed.

(** The groups are a partition of the rows: laid end to end they are the
    rows of the table, up to order. *)
Lemma groupby_partition (rows : list (K * R)) :
  (forall r, In r rows -> key_eqb (fst r) (fst r) = true) ->
  Permutation (List.concat (map snd (groupby key_eqb key_leb rows))) (map snd rows).
Proof.
  intros Hrefl. unfold groupby. rewrite map_map. cbn [snd].
  rewrite <- flat_map_concat_map.
  eapply perm_trans.
  { apply Permutation_flat_map, sort_perm. }
  rewrite <- map_flat_map. apply Permutation_map.
  eapply perm_trans; [apply groups_cover|].
  rewrite filter_all_true; [apply Permutation_refl|].
  apply Forall_forall. intros r Hr. apply existsb_exists.
  exists (fst r). split; [apply in_map, Hr|apply Hrefl, Hr].
Qed.

(** Every key has a representative among the distinct keys. *)
Lemma distinct_complete (ks : list K) (k : K) :
  key_eqb k k = true -> In k ks ->
  exists k', In k' (distinct key_eqb ks) /\ key_eqb k' k = true.
Proof.
  intros Hrefl. induction ks as [|k0 ks IH]; simpl; [intros []|].
  intros [H|H].
  - subst k0. exists k. split; [left; reflexivity|exact Hrefl].
  - destruct (IH H) as [k' [Hin Hk']].
    destruct (key_eqb k0 k') eqn:E.
    + exists k0. split; [left; reflexivity|]. apply (key_eqb_trans _ _ _ E Hk').
    + exists k'. split; [|exact Hk']. right. apply filter_In.
      split; [exact Hin|]. rewrite E. reflexivity.
Qed.

Lemma groupby_keys_separated (rows : list (K * R)) :
  StronglySorted (fun a b => key_eqb a b = false)
                 (map fst (groupby key_eqb key_leb rows)).
Proof.
  rewrite groupby_keys.
  apply (StronglySorted_perm _ (distinct key_eqb (map fst rows))).
  - intros a b H. rewrite key_eqb_sym. exact H.
  - apply Permutation_sym, sort_perm.
  - apply distinct_separated.
Qed.
End GroupByFacts.

(** ** Keys of one dtype *)

Lemma sort_map {A B : Type} (f : A -> B) (leb : A -> A -> bool) (leb' : B -> B -> bool)
      (l : list A) :
  (forall a b, leb' (f a) (f b) = leb a b) ->
  sort leb' (map f l) = map f (sort leb l).
Proof.
  intros H. induction l as [|x l IH]; [reflexivity|]. simpl. rewrite IH.
  generalize (sort leb l) as s. induction s as [|y s IHs]; [reflexivity|].
  simpl. rewrite H. destruct (leb x y); [reflexivity|]. simpl. rewrite IHs. reflexivity.
Qed.

Lemma filter_map_comm {A B : Type} (f : A -> B) (p : A -> bool) (p' : B -> bool)
      (l : list A) :
  (forall a, p' (f a) = p a) -> filter p' (map f l) = map f (filter p l).
Proof.
  intros H. induction l as [|x l IH]; [reflexivity|]. simpl. rewrite H.
  destruct (p x); simpl; rewrite IH; reflexivity.
Qed.

Lemma distinct_map {A B : Type} (f : A -> B) (eqb : A -> A -> bool)
      (eqb' : B -> B -> bool) (l : list A) :
  (forall a b, eqb' (f a) (f b) = eqb a b) ->
  distinct eqb' (map f l) = map f (distinct eqb l).
Proof.
  intros H. induction l as [|x l IH]; [reflexivity|]. simpl. rewrite IH. f_equal.
  apply filter_map_comm. intros a. rewrite H. reflexivity.
Qed.

Lemma map_fst_combine {A B : Type} (a : list A) :
  forall b : list B, (List.length a <= List.length b)%nat -> map fst (combine a b) = a.
Proof.
  induction a as [|x a IH]; intros [|y b] H; simpl in *; try reflexivity; try lia.
  rewrite IH; [reflexivity|lia].
Qed.


Lemma StronglySorted_and {A : Type} (R S : A -> A -> Prop) (l : list A) :
  StronglySorted R l -> StronglySorted S l ->
  StronglySorted (fun a b => R a b /\ S a b) l.
Proof.
  induction 1 as [|x l Hs IH Hx]; intros HS; [constructor|].
  inversion HS as [|x' l' HS' Hx']; subst. constructor; [apply IH, HS'|].
  apply Forall_forall. intros y Hy. split.
  - apply (proj1 (Forall_forall _ _) Hx y Hy).
  - apply (proj1 (Forall_forall _ _) Hx' y Hy).
Qed.

Section DistinctEq.
Variable A : Type.
Variable eqb : A -> A -> bool.
Hypothesis eqb_spec : forall a b, eqb a b = true <-> a = b.

Lemma distinct_NoDup (l : list A) : NoDup (distinct eqb l).
Proof.
  pose proof (distinct_separated A eqb l) as H.
  induction H as [|x s Hs IH Hx]; constructor; [|exact IH].
  intros Hin. pose proof (proj1 (Forall_forall _ _) Hx x Hin) as E.
  cbv beta in E. rewrite (proj2 (eqb_spec x x) eq_refl) in E. discriminate.
Qed.

Lemma distinct_In_iff (l : list A) (v : A) : In v (distinct eqb l) <-> In v l.
Proof.
  split; [apply distinct_In|]. induction l as [|x l IH]; simpl; [tauto|].
  intros [H|H]; [left; exact H|].
  destruct (eqb x v) eqn:E.
  - left. apply eqb_spec, E.
  - right. apply filter_In. split; [apply IH, H|]. rewrite E. reflexivity.
Qed.
End DistinctEq.

Lemma strictly_sorted_unique (l l' : list string) :
  StronglySorted (fun a b => String.leb a b = true /\ a <> b) l ->
  StronglySorted (fun a b => String.leb a b = true /\ a <> b) l' ->
  (forall v, In v l <-> In v l') ->
  l = l'.
Proof.
  intros Hl. revert l'. induction Hl as [|a l Hs IH Ha]; intros l' Hl' Hsame.
  - destruct l' as [|b l']; [reflexivity|].
    exfalso. apply (proj2 (Hsame b)). left. reflexivity.
  - destruct Hl' as [|b l' Hs' Hb].
    { exfalso. apply (proj1 (Hsame a)). left. reflexivity. }
    assert (Hab : a = b).
    { destruct (string_dec a b) as [E|E]; [exact E|exfalso].
      assert (H1 : String.leb b a = true).
      { destruct (proj1 (Hsame a) (or_introl eq_refl)) as [H|H]; [congruence|].
        apply (proj1 (Forall_forall _ _) Hb a H). }
      assert (H2 : String.leb a b = true).
      { destruct (proj2 (Hsame b) (or_introl eq_refl)) as [H|H]; [congruence|].
        apply (proj1 (Forall_forall _ _) Ha b H). }
      apply E. apply String.leb_antisym; assumption. }
    subst b. f_equal. apply IH; [exact Hs'|].
    intros v. split; intros Hv.
    + destruct (proj1 (Hsame v) (or_intror Hv)) as [H|H]; [|exact H].
      subst v. exfalso. apply (proj2 (proj1 (Forall_forall _ _) Ha a Hv)). reflexivity.
    + destruct (proj2 (Hsame v) (or_intror Hv)) as [H|H]; [|exact H].
      subst v. exfalso. apply (proj2 (proj1 (Forall_forall _ _) Hb a Hv)). reflexivity.
Qed.

(** Grouping string keys gives the keys that [options] lists. *)
Lemma sorted_distinct_options (xs : list (option string)) :
  sort String.leb (distinct String.eqb (dropna xs)) = options (ObjCol xs).
Proof.
  apply strictly_sorted_unique.
  - apply StronglySorted_strict.
    + apply sort_sorted; [apply String.leb_total|apply string_leb_trans].
    + apply (Permutation_NoDup (l := distinct String.eqb (dropna xs))).
      * apply Permutation_sym, sort_perm.
      * apply distinct_NoDup. apply String.eqb_eq.
  - apply StronglySorted_strict.
    + unfold options. apply sort_sorted; [apply String.leb_total|apply string_leb_trans].
    + unfold options, unique.
      apply (Permutation_NoDup (l := nodup string_dec (dropna xs))).
      * apply Permutation_sym, sort_perm.
      * apply NoDup_nodup.
  - intros v. rewrite sort_In, (distinct_In_iff _ _ String.eqb_eq), In_options.
    apply dropna_In.
Qed.

(** ** Cells as group keys *)

Lemma Qeq_bool_sym (x y : Q) : Qeq_bool x y = Qeq_bool y x.
Proof.
  apply eq_true_iff_eq. rewrite !Qeq_bool_iff. split; intros H; symmetry; exact H.
Qed.

Lemma Qeq_bool_trans (x y z : Q) :
  Qeq_bool x y = true -> Qeq_bool y z = true -> Qeq_bool x z = true.
Proof.
  rewrite !Qeq_bool_iff. apply Qeq_trans.
Qed.

Lemma cell_eqb_sym (a b : cell) : cell_eqb a b = cell_eqb b a.
Proof.
  destruct a as [[x|]|[x|]|[x|]|[x|]]; destruct b as [[y|]|[y|]|[y|]|[y|]]; simpl;
    try reflexivity.
  - apply Qeq_bool_sym.
  - apply String.eqb_sym.
  - apply Z.eqb_sym.
  - apply Z.eqb_sym.
Qed.

Lemma cell_eqb_trans (a b c : cell) :
  cell_eqb a b = true -> cell_eqb b c = true -> cell_eqb a c = true.
Proof.
  destruct a as [[x|]|[x|]|[x|]|[x|]]; destruct b as [[y|]|[y|]|[y|]|[y|]]; simpl;
    try discriminate;
    destruct c as [[z|]|[z|]|[z|]|[z|]]; simpl; try discriminate.
  - apply Qeq_bool_trans.
  - intros H1 H2. apply String.eqb_eq in H1, H2. subst. apply String.eqb_refl.
  - intros H1 H2. apply Z.eqb_eq in H1, H2. subst. apply Z.eqb_refl.
  - intros H1 H2. apply Z.eqb_eq in H1, H2. subst. apply Z.eqb_refl.
Qed.

Lemma cell_eqb_refl (a : cell) : cell_isna a = false -> cell_eqb a a = true.
Proof.
  destruct a as [[x|]|[x|]|[x|]|[x|]]; simpl; try discriminate; intros _.
  - apply Qeq_bool_iff. reflexivity.
  - apply String.eqb_refl.
  - apply Z.eqb_refl.
  - apply Z.eqb_refl.
Qed.

Lemma key_series_cells (df : DataFrame) (key : string) (c : column) :
  getitem df key = Ok (Series c) -> key_series df key = Ok (cells c).
Proof.
  intros H. unfold key_series, series. rewrite H. reflexivity.
Qed.

Lemma key_series_inv (df : DataFrame) (key : string) (xs : list cell) :
  key_series df key = Ok xs ->
  exists c, getitem df key = Ok (Series c) /\ xs = cells c.
Proof.
  unfold key_series, series. intros H. bind_inv H. bind_inv Hx.
  apply Ok_inj in H. apply as_series_Ok in Hx. subst x0.
  exists x. split; [exact Hx0|symmetry; exact H].
Qed.

Lemma key_series_length (df : DataFrame) (key : string) (xs : list cell) :
  well_formed df -> key_series df key = Ok xs -> List.length xs = nrows df.
Proof.
  intros Hwf H. destruct (key_series_inv df key xs H) as [c [Hget Hxs]]. subst xs.
  rewrite cells_length.
  apply (column_length_nrows df key c Hwf). apply getitem_Series_In, Hget.
Qed.

Lemma numeric_series_length (df : DataFrame) (key : string) (xs : list (option Q)) :
  well_formed df -> numeric_series df key = Ok xs -> List.length xs = nrows df.
Proof.
  intros Hwf H.
  apply (column_length_nrows df key (NumCol xs) Hwf).
  apply getitem_Series_In, numeric_series_getitem, H.
Qed.


(** ** Sums over groups *)







(** ** The monthly trend table (lines 145-154) *)

Lemma monthly_inv (data : DataFrame) (table : list MonthlyRow) :
  monthly data = Ok table ->
  exists month sales lead order_id,
    key_series data "order_month" = Ok month
    /\ numeric_series data "sales" = Ok sales
    /\ numeric_series data "lead_time_days" = Ok lead
    /\ key_series data "order_id" = Ok order_id
    /\ table
       = map (fun g =>
                {| order_month := fst g;
                   m_total_sales := series_sum (map fst (snd g));
                   m_avg_lead_time := series_mean (map (fun r => fst (snd r)) (snd g));
                   m_orders := nunique (map (fun r => snd (snd r)) (snd g)) |})
             (groupby cell_eqb cell_leb
                (filter (fun r => negb (cell_isna (fst r)))
                        (combine month (combine sales (combine lead order_id))))).
Proof.
  unfold monthly. intros H.
  bind_inv H. bind_inv H. bind_inv H. bind_inv H. apply Ok_inj in H.
  exists x, x0, x1, x2. repeat (split; [assumption|]). symmetry. exact H.
Qed.


Lemma filter_present_cells {A : Type} (f : option A -> cell) (ms : list (option A)) :
  (forall x, cell_isna (f x) = is_none x) ->
  filter (fun x => negb (cell_isna x)) (map f ms) = map (fun z => f (Some z)) (dropna ms).
Proof.
  intros Hf. induction ms as [|[z|] ms IH]; simpl; [reflexivity| |];
    rewrite Hf; simpl; rewrite IH; reflexivity.
Qed.

Lemma Z_leb_total (a b : Z) : (a <=? b)%Z = true \/ (b <=? a)%Z = true.
Proof. rewrite !Z.leb_le. lia. Qed.

Lemma Z_leb_trans (a b c : Z) :
  (a <=? b)%Z = true -> (b <=? c)%Z = true -> (a <=? c)%Z = true.
Proof. rewrite !Z.leb_le. lia. Qed.

Lemma sorted_distinct_Z (zs : list Z) :
  StronglySorted Z.lt (sort Z.leb (distinct Z.eqb zs)).
Proof.
  apply (StronglySorted_impl (fun a b => (a <=? b)%Z = true /\ a <> b)).
  - intros a b [H1 H2]. apply Z.leb_le in H1. lia.
  - apply StronglySorted_strict.
    + apply sort_sorted; [exact Z_leb_total|exact Z_leb_trans].
    + apply (Permutation_NoDup (l := distinct Z.eqb zs)).
      * apply Permutation_sym, sort_perm.
      * apply distinct_NoDup. apply Z.eqb_eq.
Qed.

(** X16: the monthly table has one line for each month that occurs in the
    view, and the lines are in strictly ascending order of the month, which
    is the order of the two line charts. *)
Theorem monthly_months_ascending
        (data : DataFrame) (table : list MonthlyRow) (ms : list (option Z)) :
  well_formed data ->
  getitem data "order_month" = Ok (Series (PeriodCol ms)) ->
  monthly data = Ok table ->
  exists months : list Z,
    map order_month table = map (fun z => CPeriod (Some z)) months
    /\ StronglySorted Z.lt months
    /\ (forall z, In z months <-> In (Some z) ms).
Proof.
  intros Hwf Hmonth Htable.
  destruct (monthly_inv data table Htable)
    as [mc [sales [lead [oid [Hmc [Hs [Hl [Ho Heq]]]]]]]].
  rewrite (key_series_cells _ _ _ Hmonth) in Hmc. apply Ok_inj in Hmc. subst mc.
  pose proof (key_series_length _ _ _ Hwf (key_series_cells _ _ _ Hmonth)) as Lm.
  pose proof (numeric_series_length _ _ _ Hwf Hs) as Ls.
  pose proof (numeric_series_length _ _ _ Hwf Hl) as Ll.
  pose proof (key_series_length _ _ _ Hwf Ho) as Lo.
  exists (sort Z.leb (distinct Z.eqb (dropna ms))).
  split; [|split].
  - rewrite Heq, map_map. cbn [order_month].
    rewrite <- (map_map fst (fun k : cell => k)), map_id, groupby_keys.
    rewrite <- (filter_map_comm fst (fun r => negb (cell_isna (fst r)))
                  (fun k => negb (cell_isna k))); [|reflexivity].
    rewrite map_fst_combine; [|rewrite !length_combine; lia].
    cbn [cells]. rewrite (filter_present_cells CPeriod ms); [|reflexivity].
    rewrite (distinct_map (fun z => CPeriod (Some z)) Z.eqb cell_eqb); [|reflexivity].
    apply sort_map. reflexivity.
  - apply sorted_distinct_Z.
  - intros z. rewrite sort_In, (distinct_In_iff _ _ Z.eqb_eq). apply dropna_In.
Qed.

(** ** The lead-time distribution (lines 196-202) *)

Lemma Qle_bool_total (a b : Q) : Qle_bool a b = true \/ Qle_bool b a = true.
Proof.
  rewrite !Qle_bool_iff. destruct (Qlt_le_dec a b) as [H|H].
  - left. apply Qlt_le_weak, H.
  - right. exact H.
Qed.

Lemma Qle_bool_trans (a b c : Q) :
  Qle_bool a b = true -> Qle_bool b c = true -> Qle_bool a c = true.
Proof. rewrite !Qle_bool_iff. apply Qle_trans. Qed.

Lemma sorted_distinct_Q (qs : list Q) :
  StronglySorted Qlt (sort Qle_bool (distinct Qeq_bool qs)).
Proof.
  apply (StronglySorted_impl (fun a b => Qle_bool a b = true /\ Qeq_bool a b = false)).
  - intros a b [H1 H2]. apply Qle_bool_iff in H1. apply Qeq_bool_neq in H2.
    apply Qle_lteq in H1. destruct H1 as [H1|H1]; [exact H1|contradiction].
  - apply StronglySorted_and.
    + apply sort_sorted; [exact Qle_bool_total|exact Qle_bool_trans].
    + apply (StronglySorted_perm _ (distinct Qeq_bool qs)).
      * intros a b H. rewrite Qeq_bool_sym. exact H.
      * apply Permutation_sym, sort_perm.
      * apply distinct_separated.
Qed.

Lemma dropna_length_cells (xs : list (option Q)) :
  List.length (filter (fun x => negb (cell_isna x)) (map CNum xs))
  = List.length (dropna xs).
Proof.
  rewrite (filter_present_cells CNum xs); [|reflexivity]. apply length_map.
Qed.

(** X17: the bar chart of lead times, [value_counts().sort_index()], has one
    bar for each lead time that occurs, the bars in strictly ascending order
    of the lead time; every bar counts at least one record, and the counts
    add up to the number of records that have a lead time. *)
Theorem lead_time_distribution_counts (xs : list (option Q)) :
  list_sum (map snd (value_counts (NumCol xs))) = List.length (dropna xs)
  /\ Forall (fun bar => (1 <= snd bar)%nat) (value_counts (NumCol xs))
  /\ exists values : list Q,
      map fst (value_counts (NumCol xs)) = map (fun q => CNum (Some q)) values
      /\ StronglySorted Qlt values
      /\ (forall v, In v values -> In (Some v) xs)
      /\ (forall q, In (Some q) xs -> exists v, In v values /\ (v == q)%Q).
Proof.
  unfold value_counts. cbn [cells].
  set (present := filter (fun x => negb (cell_isna x)) (map CNum xs)).
  set (rows := map (fun x : cell => (x, tt)) present).
  assert (Hkeys : map fst rows = present).
  { unfold rows. rewrite map_map. apply map_id. }
  assert (Hrefl : forall r, In r rows -> cell_eqb (fst r) (fst r) = true).
  { intros r Hr. apply cell_eqb_refl.
    assert (Hin : In (fst r) present) by (rewrite <- Hkeys; apply in_map, Hr).
    apply filter_In in Hin. destruct Hin as [_ Hin].
    destruct (cell_isna (fst r)); [discriminate|reflexivity]. }
  split; [|split].
  - rewrite map_map. cbn [snd].
    rewrite <- (map_map snd (fun rs : list unit => List.length rs)), <- length_concat.
    rewrite (Permutation_length
               (groupby_partition cell unit cell_eqb cell_leb
                                  cell_eqb_sym cell_eqb_trans rows Hrefl)).
    unfold rows. rewrite !length_map. apply dropna_length_cells.
  - apply Forall_forall. intros bar Hbar. apply in_map_iff in Hbar.
    destruct Hbar as [[k rs] [Hbar Hin]]. subst bar. cbn [snd fst].
    destruct (groupby_In cell unit cell_eqb cell_leb rows k rs Hin) as [Hk Hrs].
    apply in_map_iff in Hk. destruct Hk as [r [Hfst Hr]].
    assert (Hmem : In (snd r) rs).
    { rewrite Hrs. apply in_map. apply filter_In. split; [exact Hr|].
      rewrite <- Hfst. apply Hrefl, Hr. }
    destruct rs as [|u rs]; [contradiction|]. simpl. lia.
  - exists (sort Qle_bool (distinct Qeq_bool (dropna xs))).
    split; [|split; [|split]].
    + rewrite map_map. cbn [fst].
      rewrite <- (map_map fst (fun k : cell => k)), map_id, groupby_keys, Hkeys.
      unfold present. rewrite (filter_present_cells CNum xs); [|reflexivity].
      rewrite (distinct_map (fun q => CNum (Some q)) Qeq_bool cell_eqb); [|reflexivity].
      apply sort_map. reflexivity.
    + apply sorted_distinct_Q.
    + intros v Hv. apply sort_In in Hv. apply distinct_In in Hv.
      apply dropna_In, Hv.
    + intros q Hq. apply dropna_In in Hq.
      destruct (distinct_complete Q Qeq_bool Qeq_bool_trans (dropna xs) q)
        as [v [Hv Hvq]]; [apply Qeq_bool_iff; reflexivity|exact Hq|].
      exists v. split; [apply sort_In, Hv|apply Qeq_bool_iff, Hvq].
Qed.

(** ** Profitability by region (lines 254-265) *)

Lemma region_profit_inv (data : DataFrame) (table : list RegionProfitRow) :
  region_profit data = Ok table ->
  exists region sales profit,
    key_series data "order_region" = Ok region
    /\ numeric_series data "sales" = Ok sales
    /\ numeric_series data "order_profit_per_order" = Ok profit
    /\ table
       = map (fun g =>
                {| rp_order_region := fst g;
                   rp_total_sales := round_to 2 (series_sum (map fst (snd g)));
                   rp_total_profit := round_to 2 (series_sum (map snd (snd g)));
                   avg_profit_per_order :=
                     round_float 2 (series_mean (map snd (snd g))) |})
             (groupby cell_eqb cell_leb
                (filter (fun r => negb (cell_isna (fst r)))
                        (combine region (combine sales profit)))).
Proof.
  unfold region_profit. intros H.
  bind_inv H. bind_inv H. bind_inv H. apply Ok_inj in H.
  exists x, x0, x1. repeat (split; [assumption|]). symmetry. exact H.
Qed.

Lemma group_values {B C : Type} (g : B -> C) (s : string) (rs : list (option string)) :
  forall vs : list B,
    map (fun r => g (snd r))
        (filter (fun r => cell_eqb (fst r) (CObj (Some s)))
                (filter (fun r => negb (cell_isna (fst r)))
                        (combine (map CObj rs) vs)))
    = map g (values_where s rs vs).
Proof.
  unfold values_where.
  induction rs as [|[s'|] rs IH]; intros [|v vs]; try reflexivity.
  - cbn [map combine filter cell_isna is_none negb fst cell_eqb].
    destruct (String.eqb s' s); cbn [map snd]; rewrite IH; reflexivity.
  - cbn [map combine filter cell_isna is_none negb fst]. apply IH.
Qed.

Lemma values_where_combine_fst {A B : Type} (s : string) (rs : list (option string)) :
  forall (a : list A) (b : list B),
    (List.length a <= List.length b)%nat ->
    map fst (values_where s rs (combine a b)) = values_where s rs a.
Proof.
  unfold values_where.
  induction rs as [|r rs IH]; intros [|x a] [|y b] H; simpl in *;
    try reflexivity; try lia.
  destruct r as [s'|]; [destruct (String.eqb s' s)|]; simpl; rewrite IH;
    try reflexivity; lia.
Qed.

Lemma values_where_combine_snd {A B : Type} (s : string) (rs : list (option string)) :
  forall (a : list A) (b : list B),
    (List.length b <= List.length a)%nat ->
    map snd (values_where s rs (combine a b)) = values_where s rs b.
Proof.
  unfold values_where.
  induction rs as [|r rs IH]; intros [|x a] [|y b] H; simpl in *;
    try reflexivity; try lia.
  destruct r as [s'|]; [destruct (String.eqb s' s)|]; simpl; rewrite IH;
    try reflexivity; lia.
Qed.

Lemma string_keys (rs : list (option string)) {B : Type} (vs : list B) :
  (List.length rs <= List.length vs)%nat ->
  sort cell_leb
       (distinct cell_eqb
          (map fst (filter (fun r => negb (cell_isna (fst r)))
                           (combine (map CObj rs) vs))))
  = map (fun s => CObj (Some s)) (options (ObjCol rs)).
Proof.
  intros Hlen.
  rewrite <- (filter_map_comm fst (fun r : cell * B => negb (cell_isna (fst r)))
                (fun k => negb (cell_isna k))); [|reflexivity].
  rewrite map_fst_combine; [|rewrite length_map; exact Hlen].
  rewrite (filter_present_cells CObj rs); [|reflexivity].
  rewrite (distinct_map (fun s => CObj (Some s)) String.eqb cell_eqb); [|reflexivity].
  rewrite (sort_map (fun s => CObj (Some s)) String.leb cell_leb); [|reflexivity].
  rewrite sorted_distinct_options. reflexivity.
Qed.

(** X18: the table "Profitability by region" has one line for each region
    that occurs in the view, in ascending order of the region (the order of
    the sidebar options).  The line of a region shows the sum of the sales,
    the sum of the profit and the mean of the profit of the records of that
    region, each rounded to two decimals. *)
Theorem region_profit_by_region
        (data : DataFrame) (table : list RegionProfitRow)
        (rs : list (option string)) (sales profit : list (option Q)) :
  well_formed data ->
  getitem data "order_region" = Ok (Series (ObjCol rs)) ->
  numeric_series data "sales" = Ok sales ->
  numeric_series data "order_profit_per_order" = Ok profit ->
  region_profit data = Ok table ->
  table
  = map (fun s =>
           {| rp_order_region := CObj (Some s);
              rp_total_sales := round_to 2 (series_sum (values_where s rs sales));
              rp_total_profit := round_to 2 (series_sum (values_where s rs profit));
              avg_profit_per_order :=
                round_float 2 (series_mean (values_where s rs profit)) |})
        (options (ObjCol rs)).
Proof.
  intros Hwf Hregion Hsales Hprofit Htable.
  destruct (region_profit_inv data table Htable)
    as [region [sales' [profit' [Hr [Hs [Hp Heq]]]]]].
  rewrite (key_series_cells _ _ _ Hregion) in Hr. apply Ok_inj in Hr. subst region.
  rewrite Hsales in Hs. apply Ok_inj in Hs. subst sales'.
  rewrite Hprofit in Hp. apply Ok_inj in Hp. subst profit'.
  pose proof (key_series_length _ _ _ Hwf (key_series_cells _ _ _ Hregion)) as Lr.
  pose proof (numeric_series_length _ _ _ Hwf Hsales) as Ls.
  pose proof (numeric_series_length _ _ _ Hwf Hprofit) as Lp.
  cbn [cells] in *. rewrite length_map in Lr.
  subst table. unfold groupby.
  rewrite (string_keys rs (combine sales profit)); [|rewrite length_combine; lia].
  rewrite !map_map. apply map_ext. intros s. cbn [fst snd].
  rewrite !map_map.
  rewrite (group_values fst s rs (combine sales profit)).
  rewrite (group_values snd s rs (combine sales profit)).
  rewrite (values_where_combine_fst s rs sales profit); [|lia].
  rewrite (values_where_combine_snd s rs sales profit); [|lia].
  reflexivity.
Qed.

(** ** High revenue, high delay pockets (lines 267-281) *)

Lemma by_risk_then_sales_desc_spec (a b : HighDelayRow) :
  by_risk_then_sales_desc a b = true <-> risk_then_sales_ge a b.
Proof.
  unfold by_risk_then_sales_desc, risk_then_sales_ge.
  destruct (late_risk a) as [x|]; destruct (late_risk b) as [y|].
  - destruct (Qeq_bool x y) eqn:E.
    + apply Qeq_bool_iff in E. rewrite Qle_bool_iff. split.
      * intros H. right. split; [symmetry; exact E|exact H].
      * intros [H|[_ H]]; [|exact H].
        rewrite E in H. exfalso. apply (Qlt_irrefl y), H.
    + apply Qeq_bool_neq in E. rewrite Qle_bool_iff. split.
      * intros H. left. apply Qle_lteq in H. destruct H as [H|H]; [exact H|].
        exfalso. apply E. symmetry. exact H.
      * intros [H|[H _]]; [apply Qlt_le_weak, H|].
        exfalso. apply E. symmetry. exact H.
  - split; [intros _; exact I|reflexivity].
  - split; [discriminate|intros []].
  - apply Qle_bool_iff.
Qed.

Lemma by_risk_then_sales_desc_total (a b : HighDelayRow) :
  by_risk_then_sales_desc a b = true \/ by_risk_then_sales_desc b a = true.
Proof.
  unfold by_risk_then_sales_desc.
  destruct (late_risk a) as [x|]; destruct (late_risk b) as [y|].
  - rewrite (Qeq_bool_sym y x). destruct (Qeq_bool x y).
    + destruct (Qle_bool_total (hd_total_sales b) (hd_total_sales a)); auto.
    + destruct (Qle_bool_total y x); auto.
  - left. reflexivity.
  - right. reflexivity.
  - destruct (Qle_bool_total (hd_total_sales b) (hd_total_sales a)); auto.
Qed.

Lemma risk_then_sales_ge_trans (a b c : HighDelayRow) :
  risk_then_sales_ge a b -> risk_then_sales_ge b c -> risk_then_sales_ge a c.
Proof.
  unfold risk_then_sales_ge.
  destruct (late_risk a) as [x|]; destruct (late_risk b) as [y|];
    destruct (late_risk c) as [z|]; try tauto.
  - intros [H1|[H1 S1]] [H2|[H2 S2]].
    + left. apply Qlt_trans with y; assumption.
    + left. rewrite H2. exact H1.
    + left. rewrite <- H1. exact H2.
    + right. split.
      * rewrite H2. exact H1.
      * apply Qle_trans with (hd_total_sales b); assumption.
  - intros H1 H2. apply Qle_trans with (hd_total_sales b); assumption.
Qed.

Lemma by_risk_then_sales_desc_trans (a b c : HighDelayRow) :
  by_risk_then_sales_desc a b = true -> by_risk_then_sales_desc b c = true ->
  by_risk_then_sales_desc a c = true.
Proof.
  rewrite !by_risk_then_sales_desc_spec. apply risk_then_sales_ge_trans.
Qed.

(** X19: the table of "high revenue, high delay pockets" that is displayed
    has at most fifteen lines, all taken from the grouped table, ordered by
    late risk and then by total sales, both descending: no line has a
    higher risk than a line above it, nor the same risk and higher sales; a
    line without a risk value stands below every line that has one.  When
    there are at most fifteen groups, all of them are displayed. *)
Theorem high_delay_sorted (data : DataFrame) (t : list HighDelayRow) :
  high_delay data = Ok t ->
  (List.length t <= 15)%nat
  /\ StronglySorted risk_then_sales_ge t
  /\ exists groups,
      high_delay_groups data = Ok groups
      /\ incl t groups
      /\ ((List.length groups <= 15)%nat -> Permutation t groups).
Proof.
  intros H. unfold high_delay in H. bind_inv H. apply Ok_inj in H. subst t.
  split; [apply firstn_le_length|]. split.
  - apply StronglySorted_firstn.
    apply StronglySorted_impl with (R := fun a b => by_risk_then_sales_desc a b = true).
    + intros a b Hab. apply by_risk_then_sales_desc_spec, Hab.
    + apply sort_sorted.
      * apply by_risk_then_sales_desc_total.
      * apply by_risk_then_sales_desc_trans.
  - exists x. split; [exact Hx|]. split.
    + intros row Hrow.
      apply (proj1 (sort_In _ by_risk_then_sales_desc x row)).
      rewrite <- (firstn_skipn 15 (sort by_risk_then_sales_desc x)).
      apply in_or_app. left. exact Hrow.
    + intros Hlen. rewrite firstn_all2; [apply sort_perm|].
      rewrite sort_length. exact Hlen.
Qed.

(** ** The two tables by region and shipping mode (lines 219-229, 267-277) *)

Lemma key2_eqb_sym (a b : cell * cell) : key2_eqb a b = key2_eqb b a.
Proof.
  unfold key2_eqb. rewrite (cell_eqb_sym (fst a)), (cell_eqb_sym (snd a)). reflexivity.
Qed.

Lemma key2_eqb_trans (a b c : cell * cell) :
  key2_eqb a b = true -> key2_eqb b c = true -> key2_eqb a c = true.
Proof.
  unfold key2_eqb. rewrite !andb_true_iff. intros [H1 H2] [H3 H4]. split.
  - apply (cell_eqb_trans _ _ _ H1 H3).
  - apply (cell_eqb_trans _ _ _ H2 H4).
Qed.

Lemma lt_region_mode_inv (data : DataFrame) (table : list LeadTimeRow) :
  lt_region_mode data = Ok table ->
  exists region mode (lead : list (option Q)) (order_id : list cell)
         (f : cell * cell * list (option Q * cell) -> LeadTimeRow),
    key_series data "order_region" = Ok region
    /\ key_series data "shipping_mode" = Ok mode
    /\ numeric_series data "lead_time_days" = Ok lead
    /\ key_series data "order_id" = Ok order_id
    /\ (forall g, (lt_order_region (f g), lt_shipping_mode (f g)) = fst g)
    /\ table
       = map f (groupby key2_eqb key2_leb
                  (filter (fun r => negb (cell_isna (fst (fst r)))
                                    && negb (cell_isna (snd (fst r))))
                          (combine (combine region mode) (combine lead order_id)))).
Proof.
  unfold lt_region_mode. intros H.
  bind_inv H. bind_inv H. bind_inv H. bind_inv H. apply Ok_inj in H.
  exists x, x0, x1, x2.
  eexists. repeat (split; [eassumption|]). split; [|symmetry; exact H].
  intros [[k1 k2] rs]. reflexivity.
Qed.

Lemma high_delay_groups_inv (data : DataFrame) (table : list HighDelayRow) :
  high_delay_groups data = Ok table ->
  exists region mode (sales risk lead : list (option Q))
         (f : cell * cell * list (option Q * (option Q * option Q)) -> HighDelayRow),
    key_series data "order_region" = Ok region
    /\ key_series data "shipping_mode" = Ok mode
    /\ numeric_series data "sales" = Ok sales
    /\ numeric_series data "late_delivery_risk" = Ok risk
    /\ numeric_series data "lead_time_days" = Ok lead
    /\ (forall g, (hd_order_region (f g), hd_shipping_mode (f g)) = fst g)
    /\ table
       = map f (groupby key2_eqb key2_leb
                  (filter (fun r => negb (cell_isna (fst (fst r)))
                                    && negb (cell_isna (snd (fst r))))
                          (combine (combine region mode)
                                   (combine sales (combine risk lead))))).
Proof.
  unfold high_delay_groups. intros H.
  bind_inv H. bind_inv H. bind_inv H. bind_inv H. bind_inv H. apply Ok_inj in H.
  exists x, x0, x1, x2, x3.
  eexists. repeat (split; [eassumption|]). split; [|symmetry; exact H].
  intros [[k1 k2] rs]. reflexivity.
Qed.

Lemma pair_keys {B : Type} (region mode : list cell) (vs : list B) :
  List.length mode = List.length region ->
  List.length vs = List.length region ->
  map fst (filter (fun r : cell * cell * B =>
                     negb (cell_isna (fst (fst r))) && negb (cell_isna (snd (fst r))))
                  (combine (combine region mode) vs))
  = filter (fun k => negb (cell_isna (fst k)) && negb (cell_isna (snd k)))
           (combine region mode).
Proof.
  intros Lm Lv.
  rewrite <- (filter_map_comm fst
                (fun r : cell * cell * B =>
                   negb (cell_isna (fst (fst r))) && negb (cell_isna (snd (fst r))))
                (fun k => negb (cell_isna (fst k)) && negb (cell_isna (snd k))));
    [|reflexivity].
  rewrite map_fst_combine; [reflexivity|]. rewrite length_combine. lia.
Qed.

(** X20: the table "Lead time by region and shipping mode" and the grouped
    table of the delay pockets have the same lines: the same pairs of region
    and shipping mode in the same order.  No pair occurs twice, every pair
    is the pair of some record of the view, and every record with a region
    and a shipping mode has its pair in the tables. *)
Theorem region_mode_tables_agree
        (data : DataFrame) (rc mc : column)
        (lt : list LeadTimeRow) (hd : list HighDelayRow) :
  well_formed data ->
  getitem data "order_region" = Ok (Series rc) ->
  getitem data "shipping_mode" = Ok (Series mc) ->
  lt_region_mode data = Ok lt ->
  high_delay_groups data = Ok hd ->
  let keys := map (fun row => (lt_order_region row, lt_shipping_mode row)) lt in
  keys = map (fun row => (hd_order_region row, hd_shipping_mode row)) hd
  /\ StronglySorted (fun a b => key2_eqb a b = false) keys
  /\ (forall k, In k keys -> In k (combine (cells rc) (cells mc)))
  /\ (forall k, In k (combine (cells rc) (cells mc)) ->
                cell_isna (fst k) = false -> cell_isna (snd k) = false ->
                exists k', In k' keys /\ key2_eqb k' k = true).
Proof.
  intros Hwf Hrc Hmc Hlt Hhd.
  destruct (lt_region_mode_inv data lt Hlt)
    as [region [mode [lead [oid [f [Hr [Hm [Hl [Ho [Hf Heq]]]]]]]]]].
  destruct (high_delay_groups_inv data hd Hhd)
    as [region' [mode' [sales [risk [lead' [f' [Hr' [Hm' [Hs [Hk [Hl' [Hf' Heq']]]]]]]]]]]].
  rewrite Hr in Hr'. apply Ok_inj in Hr'. subst region'.
  rewrite Hm in Hm'. apply Ok_inj in Hm'. subst mode'.
  pose proof (key_series_length _ _ _ Hwf Hr) as Lr.
  pose proof (key_series_length _ _ _ Hwf Hm) as Lm.
  pose proof (numeric_series_length _ _ _ Hwf Hl) as Ll.
  pose proof (key_series_length _ _ _ Hwf Ho) as Lo.
  pose proof (numeric_series_length _ _ _ Hwf Hs) as Ls.
  pose proof (numeric_series_length _ _ _ Hwf Hk) as Lk.
  pose proof (numeric_series_length _ _ _ Hwf Hl') as Ll'.
  rewrite (key_series_cells _ _ _ Hrc) in Hr. apply Ok_inj in Hr.
  rewrite (key_series_cells _ _ _ Hmc) in Hm. apply Ok_inj in Hm.
  set (present := filter (fun k : cell * cell =>
                            negb (cell_isna (fst k)) && negb (cell_isna (snd k)))
                         (combine region mode)).
  assert (Hkeys : map (fun row => (lt_order_region row, lt_shipping_mode row)) lt
                  = sort key2_leb (distinct key2_eqb present)).
  { rewrite Heq, map_map. rewrite (map_ext _ fst Hf), groupby_keys.
    rewrite pair_keys; [reflexivity|lia|rewrite !length_combine; lia]. }
  assert (Hkeys' : map (fun row => (hd_order_region row, hd_shipping_mode row)) hd
                   = sort key2_leb (distinct key2_eqb present)).
  { rewrite Heq', map_map. rewrite (map_ext _ fst Hf'), groupby_keys.
    rewrite pair_keys; [reflexivity|lia|rewrite !length_combine; lia]. }
  cbv zeta. rewrite Hkeys, Hkeys'. split; [reflexivity|]. split; [|split].
  - apply (StronglySorted_perm _ (distinct key2_eqb present)).
    + intros a b H. rewrite key2_eqb_sym. exact H.
    + apply Permutation_sym, sort_perm.
    + apply distinct_separated.
  - intros k Hin. apply sort_In in Hin. apply distinct_In in Hin.
    unfold present in Hin. apply filter_In in Hin. rewrite Hr, Hm. apply Hin.
  - intros k Hin Hna1 Hna2.
    destruct (distinct_complete (cell * cell) key2_eqb key2_eqb_trans present k)
      as [k' [Hk' Heqb]].
    + unfold key2_eqb. rewrite !cell_eqb_refl; [reflexivity|assumption|assumption].
    + unfold present. apply filter_In. split; [rewrite <- Hr, <- Hm; exact Hin|].
      rewrite Hna1, Hna2. reflexivity.
    + exists k'. split; [apply sort_In, Hk'|exact Heqb].
Qed.

(** ** The data snapshot (lines 169-186) *)

Lemma select_columns_distinct (keys : list string) (df snap : DataFrame) :
  NoDup (columns df) ->
  select_columns keys df = Ok snap ->
  columns snap = keys /\ (forall k c, In (k, c) snap -> In (k, c) df).
Proof.
  intros Hnd. revert snap. induction keys as [|k keys IH]; intros snap H.
  - simpl in H. apply Ok_inj in H. subst snap. split; [reflexivity|intros k c []].
  - simpl in H. destruct (filter (has_label k) df) as [|[k0 c0] rest] eqn:E;
      [discriminate|].
    bind_inv H. apply Ok_inj in H. subst snap.
    destruct (IH x Hx) as [Hcols Hin].
    assert (Hk0 : In (k0, c0) (filter (has_label k) df)) by (rewrite E; left; reflexivity).
    apply filter_In in Hk0. destruct Hk0 as [Hdf Hlab].
    apply has_label_true in Hlab. simpl in Hlab. subst k0.
    rewrite (filter_has_label_NoDup k df c0 Hnd Hdf) in E.
    injection E as E. subst rest. split.
    + simpl. rewrite Hcols. reflexivity.
    + intros k' c' [Heq|Hin']; [injection Heq as <- <-; exact Hdf|apply Hin, Hin'].
Qed.

Lemma column_head_length (n : nat) (c : column) :
  column_length (column_head n c) = Nat.min n (column_length c).
Proof. destruct c; simpl; apply length_firstn. Qed.

(** X21: on a view that is not empty the panel shows the charts and the
    data snapshot.  With distinct labels, the snapshot has exactly the ten
    columns asked for, in that order, and each of them holds the first 20
    cells of the column of the view (all of them when the view has fewer
    rows). *)
Theorem snapshot_shape (data : DataFrame) (table : list MonthlyRow) (snap : DataFrame) :
  well_formed data ->
  NoDup (columns data) ->
  monthly_trend data = Ok (TrendCharts table snap) ->
  empty data = false
  /\ monthly data = Ok table
  /\ columns snap = snapshot_columns
  /\ (forall k c,
         In (k, c) snap ->
         column_length c = Nat.min 20 (nrows data)
         /\ exists c0, In (k, c0) data /\ c = column_head 20 c0).
Proof.
  intros Hwf Hnd H. unfold monthly_trend in H.
  destruct (empty data) eqn:He; simpl in H; [discriminate|].
  bind_inv H. bind_inv H. apply Ok_inj in H. injection H as Ht Hs. subst x snap.
  destruct (select_columns_distinct snapshot_columns data x0 Hnd Hx0) as [Hcols Hin].
  split; [reflexivity|]. split; [exact Hx|]. split.
  - unfold columns in *. rewrite map_map. exact Hcols.
  - intros k c Hc. apply in_map_iff in Hc. destruct Hc as [[k0 c0] [Heq Hc0]].
    simpl in Heq. injection Heq as Hk Hc. subst k c.
    pose proof (Hin k0 c0 Hc0) as Hdata. split.
    + rewrite column_head_length, (column_length_nrows data k0 c0 Hwf Hdata).
      reflexivity.
    + exists c0. split; [exact Hdata|reflexivity].
Qed.

(** ** The loader with its imports (lines 11-18) *)

(** X22: once [requests], [pd] and [io] are bound, the loader returns the
    decoded table exactly when the transfer completes, the status is not an
    error status (400 to 599) and the content decodes as parquet; it raises
    [ConnectionError] exactly when the transfer does not complete,
    [HTTPError] exactly on an error status, and the decoder's [ArrowInvalid]
    exactly when the content of a good response is not a parquet file. *)
Theorem load_raw_outcomes (globals : list string) (w : World) :
  In "requests" globals -> In "pd" globals -> In "io" globals ->
  (forall raw,
      load_raw globals w = Ok raw
      <-> exists r, http_get w url = Some r
                    /\ ((status_code r < 400)%Z \/ (600 <= status_code r)%Z)
                    /\ parquet_decode w (content r) = Some raw)
  /\ (load_raw globals w = Raise ConnectionError <-> http_get w url = None)
  /\ (forall status,
         load_raw globals w = Raise (HTTPError status)
         <-> exists r, http_get w url = Some r
                       /\ status_code r = status
                       /\ (400 <= status < 600)%Z)
  /\ (load_raw globals w = Raise ArrowInvalid
      <-> exists r, http_get w url = Some r
                    /\ ((status_code r < 400)%Z \/ (600 <= status_code r)%Z)
                    /\ parquet_decode w (content r) = None).
Proof.
  intros Hr Hp Hi. rewrite (load_raw_with_imports globals w Hr Hp Hi).
  destruct (http_get w url) as [r|].
  - destruct ((400 <=? status_code r)%Z && (status_code r <? 600)%Z) eqn:E.
    + apply andb_true_iff in E. destruct E as [E1 E2].
      apply Z.leb_le in E1. apply Z.ltb_lt in E2.
      split; [|split; [|split]].
      * intros raw. split; [discriminate|].
        intros [r' [Hr' [Hs _]]]. injection Hr' as <-. lia.
      * split; discriminate.
      * intros status. split.
        -- intros H. injection H as H. exists r. split; [reflexivity|]. split; [exact H|lia].
        -- intros [r' [Hr' [Hs _]]]. injection Hr' as <-. rewrite Hs. reflexivity.
      * split; [discriminate|].
        intros [r' [Hr' [Hs _]]]. injection Hr' as <-. lia.
    + assert (Hok : (status_code r < 400)%Z \/ (600 <= status_code r)%Z).
      { apply andb_false_iff in E. destruct E as [E|E].
        - left. apply Z.leb_gt, E.
        - right. apply Z.ltb_ge, E. }
      destruct (parquet_decode w (content r)) as [df|] eqn:D.
      * split; [|split; [|split]].
        -- intros raw. split.
           ++ intros H. apply Ok_inj in H. subst raw. exists r. auto.
           ++ intros [r' [Hr' [_ Hd]]]. injection Hr' as <-. congruence.
        -- split; discriminate.
        -- intros status. split; [discriminate|].
           intros [r' [Hr' [Hs Hrange]]]. injection Hr' as <-. lia.
        -- split; [discriminate|].
           intros [r' [Hr' [_ Hd]]]. injection Hr' as <-. congruence.
      * split; [|split; [|split]].
        -- intros raw. split; [discriminate|].
           intros [r' [Hr' [_ Hd]]]. injection Hr' as <-. congruence.
        -- split; discriminate.
        -- intros status. split; [discriminate|].
           intros [r' [Hr' [Hs Hrange]]]. injection Hr' as <-. lia.
        -- split; [intros _; exists r; auto|reflexivity].
  - split; [|split; [|split]].
    + intros raw. split; [discriminate|]. intros [r [Hr' _]]. discriminate.
    + split; reflexivity.
    + intros status. split; [discriminate|]. intros [r [Hr' _]]. discriminate.
    + split; [discriminate|]. intros [r [Hr' _]]. discriminate.
Qed.

(** ** The reports on an empty view (tabs 2 and 3) *)

Lemma getitem_boolean_index (mask : list bool) (df : DataFrame) (key : string) :
  getitem (boolean_index mask df) key
  = match getitem df key with
    | Ok (Series c) => Ok (Series (column_take mask c))
    | Ok (Frame cs) => Ok (Frame (map (column_take mask) cs))
    | Raise e => Raise e
    end.
Proof.
  unfold getitem. rewrite filter_has_label_boolean_index.
  unfold boolean_index. rewrite map_map. cbn [snd].
  destruct (filter (has_label key) df) as [|[k c] [|[k' c'] rest]]; try reflexivity.
  simpl. rewrite map_map. reflexivity.
Qed.

Lemma key_series_boolean_index (mask : list bool) (df : DataFrame) (key : string)
      (xs : list cell) :
  key_series df key = Ok xs ->
  key_series (boolean_index mask df) key = Ok (take_mask mask xs).
Proof.
  intros H. destruct (key_series_inv df key xs H) as [c [Hget Hxs]]. subst xs.
  unfold key_series, series. rewrite getitem_boolean_index, Hget. simpl.
  rewrite cells_column_take. reflexivity.
Qed.

Lemma numeric_series_boolean_index (mask : list bool) (df : DataFrame) (key : string)
      (xs : list (option Q)) :
  numeric_series df key = Ok xs ->
  numeric_series (boolean_index mask df) key = Ok (take_mask mask xs).
Proof.
  intros H. apply numeric_series_getitem in H.
  unfold numeric_series, series. rewrite getitem_boolean_index, H. reflexivity.
Qed.

Lemma empty_selection_mask (df : DataFrame) (rf cf sf : list string) (mask : list bool) :
  well_formed df ->
  filter_mask df rf cf sf = Ok mask ->
  rf = [] \/ cf = [] \/ sf = [] ->
  Forall (fun m => m = false) mask.
Proof.
  intros Hwf Hmask Hempty.
  rewrite (filter_mask_records df rf cf sf mask Hwf Hmask).
  apply Forall_forall. intros m Hm. apply in_map_iff in Hm.
  destruct Hm as [r [Hr _]]. subst m. unfold selected.
  destruct Hempty as [ -> | [ -> | -> ] ]; rewrite in_selection_nil;
    rewrite ?andb_false_r; reflexivity.
Qed.

Lemma cat_seg_inv (data : DataFrame) (table : list CatSegRow) :
  cat_seg data = Ok table ->
  exists cat seg sales profit order_id,
    key_series data "category_name" = Ok cat
    /\ key_series data "customer_segment" = Ok seg
    /\ numeric_series data "sales" = Ok sales
    /\ numeric_series data "order_profit_per_order" = Ok profit
    /\ key_series data "order_id" = Ok order_id.
Proof.
  unfold cat_seg. intros H.
  bind_inv H. bind_inv H. bind_inv H. bind_inv H. bind_inv H.
  exists x, x0, x1, x2, x3. repeat (split; [assumption|]). assumption.
Qed.

(** X23: the group-by tables of the tabs "Operations & Risk" and
    "Profitability" are not guarded against an empty view, and need no
    guard: when a selection is empty, each table that can be computed on the
    cleaned table is computed on the view as well and has no line. *)
Theorem empty_selection_reports
        (df_clean : DataFrame) (region_filter category_filter segment_filter : list string)
        (data : DataFrame) :
  well_formed df_clean ->
  filtered_view df_clean region_filter category_filter segment_filter = Ok data ->
  region_filter = [] \/ category_filter = [] \/ segment_filter = [] ->
  ((exists t, top_cat_seg df_clean = Ok t) -> top_cat_seg data = Ok [])
  /\ ((exists t, region_profit df_clean = Ok t) -> region_profit data = Ok [])
  /\ ((exists t, lt_region_mode df_clean = Ok t) -> lt_region_mode data = Ok [])
  /\ ((exists t, high_delay df_clean = Ok t) -> high_delay data = Ok [])
  /\ (forall c, getitem data "lead_time_days" = Ok (Series c) -> value_counts c = []).
Proof.
  intros Hwf Hview Hempty.
  destruct (filtered_view_inv _ _ _ _ _ Hview) as [mask [Hmask Hdata]].
  pose proof (empty_selection_mask _ _ _ _ _ Hwf Hmask Hempty) as Hall.
  subst data. split; [|split; [|split; [|split]]].
  - intros [t Ht]. unfold top_cat_seg in Ht. bind_inv Ht.
    destruct (cat_seg_inv _ _ Hx) as [cat [seg [sales [profit [oid [H1 [H2 [H3 [H4 H5]]]]]]]]].
    unfold top_cat_seg, cat_seg.
    rewrite (key_series_boolean_index mask _ _ _ H1),
      (key_series_boolean_index mask _ _ _ H2),
      (numeric_series_boolean_index mask _ _ _ H3),
      (numeric_series_boolean_index mask _ _ _ H4),
      (key_series_boolean_index mask _ _ _ H5).
    cbn [bind]. rewrite !(take_mask_all_false mask Hall). reflexivity.
  - intros [t Ht].
    destruct (region_profit_inv _ _ Ht) as [region [sales [profit [H1 [H2 [H3 _]]]]]].
    unfold region_profit.
    rewrite (key_series_boolean_index mask _ _ _ H1),
      (numeric_series_boolean_index mask _ _ _ H2),
      (numeric_series_boolean_index mask _ _ _ H3).
    cbn [bind]. rewrite !(take_mask_all_false mask Hall). reflexivity.
  - intros [t Ht].
    destruct (lt_region_mode_inv _ _ Ht)
      as [region [mode [lead [oid [f [H1 [H2 [H3 [H4 _]]]]]]]]].
    unfold lt_region_mode.
    rewrite (key_series_boolean_index mask _ _ _ H1),
      (key_series_boolean_index mask _ _ _ H2),
      (numeric_series_boolean_index mask _ _ _ H3),
      (key_series_boolean_index mask _ _ _ H4).
    cbn [bind]. rewrite !(take_mask_all_false mask Hall). reflexivity.
  - intros [t Ht]. unfold high_delay in Ht. bind_inv Ht.
    destruct (high_delay_groups_inv _ _ Hx)
      as [region [mode [sales [risk [lead [f [H1 [H2 [H3 [H4 [H5 _]]]]]]]]]]].
    unfold high_delay, high_delay_groups.
    rewrite (key_series_boolean_index mask _ _ _ H1),
      (key_series_boolean_index mask _ _ _ H2),
      (numeric_series_boolean_index mask _ _ _ H3),
      (numeric_series_boolean_index mask _ _ _ H4),
      (numeric_series_boolean_index mask _ _ _ H5).
    cbn [bind]. rewrite !(take_mask_all_false mask Hall). reflexivity.
  - intros c Hc. destruct (getitem_boolean_index_Series _ _ _ _ Hc) as [c0 [_ Hc0]].
    subst c. unfold value_counts. rewrite cells_column_take.
    rewrite (take_mask_all_false mask Hall). reflexivity.
Qed.

(** ** What is displayed of the category table (lines 248-252) *)

Lemma StronglySorted_app_inv {A : Type} (R : A -> A -> Prop) (l1 l2 : list A) :
  StronglySorted R (l1 ++ l2) -> forall a b, In a l1 -> In b l2 -> R a b.
Proof.
  induction l1 as [|x l1 IH]; intros Hs a b Ha Hb; [contradiction|].
  simpl in Hs. inversion Hs as [|x' l' Hs' Hx]; subst.
  destruct Ha as [Ha|Ha].
  - subst a. apply (proj1 (Forall_forall _ _) Hx b). apply in_or_app. right. exact Hb.
  - apply (IH Hs' a b Ha Hb).
Qed.

(** X24: the fifteen lines displayed of [cat_seg] are its best sellers:
    they are lines of [cat_seg], all of them when there are at most fifteen,
    and a line that is left out has no higher [total_sales] than any line
    that is displayed. *)
Theorem top_cat_seg_best_sellers (data : DataFrame) (t : list CatSegRow) :
  top_cat_seg data = Ok t ->
  exists groups,
    cat_seg data = Ok groups
    /\ incl t groups
    /\ ((List.length groups <= 15)%nat -> Permutation t groups)
    /\ (forall shown hidden,
           In shown t -> In hidden groups -> ~ In hidden t ->
           (total_sales hidden <= total_sales shown)%Q).
Proof.
  intros H. unfold top_cat_seg in H. bind_inv H. apply Ok_inj in H. subst t.
  exists x. split; [exact Hx|]. split; [|split].
  - intros row Hrow.
    apply (proj1 (sort_In _ by_sales_desc x row)).
    rewrite <- (firstn_skipn 15 (sort by_sales_desc x)).
    apply in_or_app. left. exact Hrow.
  - intros Hlen. rewrite firstn_all2; [apply sort_perm|].
    rewrite sort_length. exact Hlen.
  - intros shown hidden Hshown Hgroup Hhidden.
    apply Qle_bool_iff. change (by_sales_desc shown hidden = true).
    apply (StronglySorted_app_inv (fun a b => by_sales_desc a b = true)
             (firstn 15 (sort by_sales_desc x)) (skipn 15 (sort by_sales_desc x))).
    + rewrite firstn_skipn.
      apply sort_sorted; [apply by_sales_desc_total|apply by_sales_desc_trans].
    + exact Hshown.
    + apply (proj2 (sort_In _ by_sales_desc x hidden)) in Hgroup.
      rewrite <- (firstn_skipn 15 (sort by_sales_desc x)) in Hgroup.
      apply in_app_or in Hgroup. destruct Hgroup as [Hg|Hg]; [contradiction|exact Hg].
Qed.

(** ** What cleaning does to a source column *)

Lemma NoDup_fst_functional {A B : Type} (l : list (A * B)) (k : A) (x y : B) :
  NoDup (map fst l) -> In (k, x) l -> In (k, y) l -> x = y.
Proof.
  induction l as [|[k0 z] l IH]; intros Hnd Hx Hy; [contradiction|].
  simpl in Hnd. inversion Hnd as [|? ? Hnotin Hnd']; subst.
  destruct Hx as [Hx|Hx]; destruct Hy as [Hy|Hy].
  - congruence.
  - injection Hx as Hk Hz. subst k0. exfalso. apply Hnotin.
    apply in_map_iff. exists (k, y). split; [reflexivity|exact Hy].
  - injection Hy as Hk Hz. subst k0. exfalso. apply Hnotin.
    apply in_map_iff. exists (k, x). split; [reflexivity|exact Hx].
  - apply (IH Hnd' Hx Hy).
Qed.

Section SourceValues.
Variable to_datetime : column -> list (option Z).

(** X25: the build changes a source column that it keeps only by filling
    its gaps and renaming it.  A numeric column appears under its
    normalized label with each gap filled by the value above it (0 at the
    top); an object column with each gap filled by its least most
    frequent value.  No row is dropped or moved.  (Excepted are labels
    that the build overwrites: [order_date], [shipping_date],
    [lead_time_days], and labels that normalize to [order_month].) *)
Theorem build_keeps_source_values (raw : RawFrame) (out : DataFrame) (k : string)
        (rc : raw_column) :
  NoDup (map fst raw) ->
  build_dataset_from to_datetime raw = Ok out ->
  In (k, rc) raw ->
  existsb (String.eqb k) drop_cols = false ->
  k <> "order_date" -> k <> "shipping_date" -> k <> "lead_time_days" ->
  normalize_name k <> "order_month" ->
  match rc with
  | RawNum xs => In (normalize_name k, NumCol (fillna 0%Q (ffill xs))) out
  | RawObj xs =>
      exists m, first_of (mode xs) = Ok m
                /\ In (normalize_name k, ObjCol (fillna m xs)) out
  end.
Proof.
  intros Hnd H Hin Hkeep Hk1 Hk2 Hk3 Hk4.
  destruct (build_dataset_from_inv to_datetime raw out Hnd H)
    as [df1 [oc [sc [dcol [lt [Hdf1 [Hnd1 [_ [_ [_ [_ [_ Hout]]]]]]]]]]]].
  assert (Hk : In k (columns df1)).
  { apply (kept_label raw df1 k Hnd Hdf1 Hkeep).
    apply in_map_iff. exists (k, rc). split; [reflexivity|exact Hin]. }
  destruct (In_columns df1 k Hk) as [c Hc].
  destruct (drop_and_impute_inv raw df1 Hnd Hdf1) as [_ [_ Horigin]].
  destruct (Horigin k c Hc) as [rc' [Hin' Himp]].
  assert (Hrc : rc' = rc) by (apply (NoDup_fst_functional raw k rc' rc Hnd Hin' Hin)).
  subst rc'.
  assert (Hfinal : In (normalize_name k, c) out).
  { subst out. apply In_output; [|exact Hk4].
    apply In_before_rename_source; assumption. }
  destruct rc as [xs|xs]; simpl in Himp.
  - apply Ok_inj in Himp. subst c. exact Hfinal.
  - destruct (first_of (mode xs)) as [m|e] eqn:Hm; simpl in Himp; [|discriminate].
    apply Ok_inj in Himp. subst c. exists m. split; [reflexivity|exact Hfinal].
Qed.
End SourceValues.

(** * The further properties on the sample data *)

Ltac distinct_labels :=
  vm_compute; repeat (constructor; [simpl; intuition discriminate|]); constructor.

Ltac no_gap :=
  vm_compute; repeat (constructor; [intros Hgap; discriminate Hgap|]); constructor.

Lemma sample_view_well_formed : well_formed sample_view.
Proof. repeat constructor. Qed.

Lemma sample_modes_well_formed : well_formed sample_modes.
Proof. repeat constructor. Qed.

Lemma sample_view_labels_distinct : NoDup (columns sample_view).
Proof. distinct_labels. Qed.

Lemma sample_raw_without_days_distinct :
  NoDup (map fst (without "Days for shipping (real)" sample_raw)).
Proof. distinct_labels. Qed.

Lemma sample_raw_order_date_distinct : NoDup (map fst sample_raw_order_date).
Proof. distinct_labels. Qed.

Lemma sample_filtered :
  filtered_view sample_clean ["East"] ["Toys"; "Golf"] ["Consumer"] = Ok sample_view.
Proof. vm_compute. reflexivity. Qed.

Lemma sample_tiles : kpi_tiles sample_view = Ok sample_kpis.
Proof. vm_compute. reflexivity. Qed.

Lemma build_requires_source_columns_witness :
  NoDup (map fst (without "Days for shipping (real)" sample_raw))
  /\ drop_and_impute (without "Days for shipping (real)" sample_raw)
     = Ok (frame_of (drop_and_impute (without "Days for shipping (real)" sample_raw)))
  /\ build_dataset_from iso_to_datetime (without "Days for shipping (real)" sample_raw)
     = Raise (KeyError "Days for shipping (real)").
Proof.
  assert (Hdf1 : drop_and_impute (without "Days for shipping (real)" sample_raw)
                 = Ok (frame_of (drop_and_impute
                                   (without "Days for shipping (real)" sample_raw))))
    by (vm_compute; reflexivity).
  split; [exact sample_raw_without_days_distinct|]. split; [exact Hdf1|].
  apply (proj2 (proj2 (build_requires_source_columns iso_to_datetime _ _
                         sample_raw_without_days_distinct Hdf1))).
  - vm_compute. tauto.
  - vm_compute. tauto.
  - vm_compute. intuition discriminate.
Defined.

Lemma build_rejects_second_order_date_witness :
  NoDup (map fst sample_raw_order_date)
  /\ In ("Order Date", RawObj [Some "a"; Some "b"; Some "c"; Some "d"])
        sample_raw_order_date
  /\ normalize_name "Order Date" = "order_date"
  /\ (forall out, build_dataset_from iso_to_datetime sample_raw_order_date <> Ok out)
  /\ build_dataset_from iso_to_datetime sample_raw_order_date = Raise AttributeError.
Proof.
  assert (Hin : In ("Order Date", RawObj [Some "a"; Some "b"; Some "c"; Some "d"])
                   sample_raw_order_date).
  { unfold sample_raw_order_date. apply in_or_app. right. left. reflexivity. }
  assert (Hnorm : normalize_name "Order Date" = "order_date") by (vm_compute; reflexivity).
  split; [exact sample_raw_order_date_distinct|]. split; [exact Hin|].
  split; [exact Hnorm|]. split.
  - apply (build_rejects_second_order_date iso_to_datetime sample_raw_order_date
             "Order Date" _ sample_raw_order_date_distinct Hin eq_refl).
    + discriminate.
    + exact Hnorm.
  - vm_compute. reflexivity.
Defined.

Lemma built_table_has_no_gaps_witness :
  build_dataset_from iso_to_datetime sample_raw = Ok sample_clean
  /\ well_formed sample_clean
  /\ nrows sample_clean = 4%nat
  /\ forall k c,
      In (k, c) sample_clean ->
      (exists xs, c = NumCol xs /\ all_present xs)
      \/ (exists xs, c = ObjCol xs /\ all_present xs)
      \/ (exists xs, c = DateCol xs /\ (k = "order_date" \/ k = "shipping_date"))
      \/ (exists xs, c = PeriodCol xs /\ k = "order_month").
Proof.
  split; [exact sample_build|].
  exact (built_table_has_no_gaps iso_to_datetime iso_to_datetime_length
           sample_raw 4 sample_clean
           sample_raw_labels_distinct sample_raw_lengths sample_build).
Defined.

Lemma order_month_of_order_date_witness :
  build_dataset_from iso_to_datetime sample_raw = Ok sample_clean
  /\ exists od,
      getitem sample_clean "order_date" = Ok (Series (DateCol od))
      /\ In ("order_month", PeriodCol (to_period_M od)) sample_clean
      /\ (forall c, In ("order_month", c) sample_clean -> c = PeriodCol (to_period_M od))
      /\ (forall i, nth_error (to_period_M od) i
                    = option_map (option_map month_ordinal) (nth_error od i)).
Proof.
  split; [exact sample_build|].
  exact (order_month_of_order_date iso_to_datetime sample_raw sample_clean
           sample_raw_labels_distinct sample_build).
Defined.

Lemma default_selection_shows_everything_witness :
  well_formed sample_clean
  /\ options (ObjCol (strings_of sample_clean "order_region")) = ["East"; "West"]
  /\ filtered_view sample_clean
       (options (ObjCol (strings_of sample_clean "order_region")))
       (options (ObjCol (strings_of sample_clean "category_name")))
       (options (ObjCol (strings_of sample_clean "customer_segment")))
     = Ok sample_clean.
Proof.
  split; [exact sample_clean_well_formed|]. split; [vm_compute; reflexivity|].
  apply (default_selection_shows_everything sample_clean
           (strings_of sample_clean "order_region")
           (strings_of sample_clean "category_name")
           (strings_of sample_clean "customer_segment")
           sample_clean_well_formed).
  - vm_compute. reflexivity.
  - vm_compute. reflexivity.
  - vm_compute. reflexivity.
  - no_gap.
  - no_gap.
  - no_gap.
Defined.

Lemma filtered_view_shape_witness :
  well_formed sample_clean
  /\ filtered_view sample_clean ["East"] ["Toys"; "Golf"] ["Consumer"] = Ok sample_view
  /\ columns sample_view = columns sample_clean
  /\ well_formed sample_view
  /\ nrows sample_view
     = List.length (filter (selected ["East"] ["Toys"; "Golf"] ["Consumer"])
                           (records sample_clean))
  /\ (nrows sample_view <= nrows sample_clean)%nat.
Proof.
  split; [exact sample_clean_well_formed|]. split; [exact sample_filtered|].
  exact (filtered_view_shape sample_clean _ _ _ sample_view
           sample_clean_well_formed sample_filtered).
Defined.

Lemma filtered_view_monotone_witness :
  filtered_view sample_clean ["East"] ["Toys"; "Golf"] ["Consumer"] = Ok sample_view
  /\ exists data',
      filtered_view sample_clean ["East"; "West"] ["Toys"; "Golf"]
                    ["Consumer"; "Corporate"] = Ok data'
      /\ records sample_view
         = filter (selected ["East"] ["Toys"; "Golf"] ["Consumer"]) (records data')
      /\ (nrows sample_view <= nrows data')%nat.
Proof.
  split; [exact sample_filtered|].
  apply (filtered_view_monotone sample_clean
           ["East"] ["Toys"; "Golf"] ["Consumer"]
           ["East"; "West"] ["Toys"; "Golf"] ["Consumer"; "Corporate"]
           sample_view sample_clean_well_formed).
  - intros x Hx. simpl in *. tauto.
  - intros x Hx. exact Hx.
  - intros x Hx. simpl in *. tauto.
  - exact sample_filtered.
Defined.

Lemma late_risk_tile_in_unit_interval_witness :
  kpi_tiles sample_view = Ok sample_kpis
  /\ kpi_late_risk sample_kpis = MetricFloat (Some (1 # 2))
  /\ exists x,
      kpi_late_risk sample_kpis = MetricFloat x
      /\ (x = None <-> forall v, ~ In (Some v) (numbers_of sample_view "late_delivery_risk"))
      /\ (forall q, x = Some q -> (0 <= q)%Q /\ (q <= 1)%Q).
Proof.
  split; [exact sample_tiles|]. split; [reflexivity|].
  apply (late_risk_tile_in_unit_interval sample_view
           (numbers_of sample_view "late_delivery_risk") sample_kpis).
  - vm_compute. reflexivity.
  - intros v Hv. vm_compute in Hv.
    destruct Hv as [Hv|[Hv|[]]]; injection Hv as Hv; subst v; split; discriminate.
  - exact sample_tiles.
Defined.

Lemma avg_lead_time_tile_nonneg_witness :
  build_dataset_from iso_to_datetime sample_raw = Ok sample_clean
  /\ filtered_view sample_clean ["East"] ["Toys"; "Golf"] ["Consumer"] = Ok sample_view
  /\ kpi_tiles sample_view = Ok sample_kpis
  /\ ((nrows sample_view = 0%nat /\ kpi_avg_lead_time sample_kpis = MetricFloat None)
      \/ ((0 < nrows sample_view)%nat
          /\ exists q, kpi_avg_lead_time sample_kpis = MetricFloat (Some q)
                       /\ (0 <= q)%Q)).
Proof.
  split; [exact sample_build|]. split; [exact sample_filtered|].
  split; [exact sample_tiles|].
  exact (avg_lead_time_tile_nonneg iso_to_datetime iso_to_datetime_length
           sample_raw 4 sample_clean ["East"] ["Toys"; "Golf"] ["Consumer"]
           sample_view sample_kpis
           sample_raw_labels_distinct sample_raw_lengths sample_build
           sample_filtered sample_tiles).
Defined.


Lemma monthly_months_ascending_witness :
  well_formed sample_clean
  /\ getitem sample_clean "order_month"
     = Ok (Series (PeriodCol (periods_of sample_clean "order_month")))
  /\ monthly sample_clean = Ok (table_of (monthly sample_clean))
  /\ exists months : list Z,
      map order_month (table_of (monthly sample_clean))
      = map (fun z => CPeriod (Some z)) months
      /\ StronglySorted Z.lt months
      /\ (forall z, In z months <-> In (Some z) (periods_of sample_clean "order_month")).
Proof.
  assert (Hg : getitem sample_clean "order_month"
               = Ok (Series (PeriodCol (periods_of sample_clean "order_month"))))
    by (vm_compute; reflexivity).
  assert (Hm : monthly sample_clean = Ok (table_of (monthly sample_clean)))
    by (vm_compute; reflexivity).
  split; [exact sample_clean_well_formed|]. split; [exact Hg|]. split; [exact Hm|].
  exact (monthly_months_ascending sample_clean _ _ sample_clean_well_formed Hg Hm).
Defined.

Lemma region_profit_by_region_witness :
  well_formed sample_clean
  /\ region_profit sample_clean = Ok (table_of (region_profit sample_clean))
  /\ map rp_total_sales (table_of (region_profit sample_clean)) = [600%Q; 200%Q]
  /\ table_of (region_profit sample_clean)
     = map (fun s =>
              {| rp_order_region := CObj (Some s);
                 rp_total_sales :=
                   round_to 2 (series_sum
                                 (values_where s (strings_of sample_clean "order_region")
                                               (numbers_of sample_clean "sales")));
                 rp_total_profit :=
                   round_to 2 (series_sum
                                 (values_where s (strings_of sample_clean "order_region")
                                               (numbers_of sample_clean
                                                           "order_profit_per_order")));
                 avg_profit_per_order :=
                   round_float 2
                     (series_mean
                        (values_where s (strings_of sample_clean "order_region")
                                      (numbers_of sample_clean
                                                  "order_profit_per_order"))) |})
           (options (ObjCol (strings_of sample_clean "order_region"))).
Proof.
  assert (Ht : region_profit sample_clean = Ok (table_of (region_profit sample_clean)))
    by (vm_compute; reflexivity).
  split; [exact sample_clean_well_formed|]. split; [exact Ht|].
  split; [vm_compute; reflexivity|].
  apply (region_profit_by_region sample_clean _
           (strings_of sample_clean "order_region")
           (numbers_of sample_clean "sales")
           (numbers_of sample_clean "order_profit_per_order")
           sample_clean_well_formed).
  - vm_compute. reflexivity.
  - vm_compute. reflexivity.
  - vm_compute. reflexivity.
  - exact Ht.
Defined.

Lemma high_delay_sorted_witness :
  high_delay sample_modes = Ok (table_of (high_delay sample_modes))
  /\ map late_risk (table_of (high_delay sample_modes)) = [Some 1%Q; Some (1 # 2); Some 0%Q]
  /\ (List.length (table_of (high_delay sample_modes)) <= 15)%nat
  /\ StronglySorted risk_then_sales_ge (table_of (high_delay sample_modes))
  /\ exists groups,
      high_delay_groups sample_modes = Ok groups
      /\ incl (table_of (high_delay sample_modes)) groups
      /\ ((List.length groups <= 15)%nat
          -> Permutation (table_of (high_delay sample_modes)) groups).
Proof.
  assert (Ht : high_delay sample_modes = Ok (table_of (high_delay sample_modes)))
    by (vm_compute; reflexivity).
  split; [exact Ht|]. split; [vm_compute; reflexivity|].
  exact (high_delay_sorted sample_modes _ Ht).
Defined.

Lemma region_mode_tables_agree_witness :
  well_formed sample_modes
  /\ lt_region_mode sample_modes = Ok (table_of (lt_region_mode sample_modes))
  /\ high_delay_groups sample_modes = Ok (table_of (high_delay_groups sample_modes))
  /\ map (fun row => (lt_order_region row, lt_shipping_mode row))
         (table_of (lt_region_mode sample_modes))
     = map (fun row => (hd_order_region row, hd_shipping_mode row))
           (table_of (high_delay_groups sample_modes)).
Proof.
  assert (Hl : lt_region_mode sample_modes = Ok (table_of (lt_region_mode sample_modes)))
    by (vm_compute; reflexivity).
  assert (Hh : high_delay_groups sample_modes
               = Ok (table_of (high_delay_groups sample_modes)))
    by (vm_compute; reflexivity).
  split; [exact sample_modes_well_formed|]. split; [exact Hl|]. split; [exact Hh|].
  apply (proj1 (region_mode_tables_agree sample_modes
                  (column_of sample_modes "order_region")
                  (column_of sample_modes "shipping_mode") _ _
                  sample_modes_well_formed eq_refl eq_refl Hl Hh)).
Defined.

Lemma snapshot_shape_witness :
  well_formed sample_view
  /\ NoDup (columns sample_view)
  /\ monthly_trend sample_view
     = Ok (TrendCharts (table_of (monthly sample_view)) sample_snapshot)
  /\ empty sample_view = false
  /\ monthly sample_view = Ok (table_of (monthly sample_view))
  /\ columns sample_snapshot = snapshot_columns
  /\ (forall k c,
         In (k, c) sample_snapshot ->
         column_length c = Nat.min 20 (nrows sample_view)
         /\ exists c0, In (k, c0) sample_view /\ c = column_head 20 c0).
Proof.
  assert (Ht : monthly_trend sample_view
               = Ok (TrendCharts (table_of (monthly sample_view)) sample_snapshot))
    by (vm_compute; reflexivity).
  split; [exact sample_view_well_formed|].
  split; [exact sample_view_labels_distinct|]. split; [exact Ht|].
  exact (snapshot_shape sample_view _ _ sample_view_well_formed
           sample_view_labels_distinct Ht).
Defined.

Lemma load_raw_outcomes_witness :
  In "requests" globals_with_imports
  /\ In "pd" globals_with_imports
  /\ In "io" globals_with_imports
  /\ load_raw globals_with_imports sample_world = Ok sample_raw
  /\ (forall raw,
         load_raw globals_with_imports sample_world = Ok raw
         <-> exists r, http_get sample_world url = Some r
                       /\ ((status_code r < 400)%Z \/ (600 <= status_code r)%Z)
                       /\ parquet_decode sample_world (content r) = Some raw).
Proof.
  assert (Hr : In "requests" globals_with_imports) by (simpl; tauto).
  assert (Hp : In "pd" globals_with_imports) by (simpl; tauto).
  assert (Hi : In "io" globals_with_imports) by (simpl; tauto).
  split; [exact Hr|]. split; [exact Hp|]. split; [exact Hi|].
  split; [vm_compute; reflexivity|].
  exact (proj1 (load_raw_outcomes globals_with_imports sample_world Hr Hp Hi)).
Defined.

Lemma empty_selection_reports_witness :
  well_formed sample_modes
  /\ filtered_view sample_modes [] ["Toys"; "Golf"] ["Consumer"]
     = Ok sample_modes_no_region
  /\ top_cat_seg sample_modes_no_region = Ok []
  /\ region_profit sample_modes_no_region = Ok []
  /\ lt_region_mode sample_modes_no_region = Ok []
  /\ high_delay sample_modes_no_region = Ok []
  /\ value_counts (column_of sample_modes_no_region "lead_time_days") = [].
Proof.
  assert (Hv : filtered_view sample_modes [] ["Toys"; "Golf"] ["Consumer"]
               = Ok sample_modes_no_region) by (vm_compute; reflexivity).
  destruct (empty_selection_reports sample_modes [] ["Toys"; "Golf"] ["Consumer"]
              sample_modes_no_region sample_modes_well_formed Hv
              (or_introl eq_refl)) as [H1 [H2 [H3 [H4 H5]]]].
  split; [exact sample_modes_well_formed|]. split; [exact Hv|].
  split; [|split; [|split; [|split]]].
  - apply H1. exists (table_of (top_cat_seg sample_modes)). vm_compute. reflexivity.
  - apply H2. exists (table_of (region_profit sample_modes)). vm_compute. reflexivity.
  - apply H3. exists (table_of (lt_region_mode sample_modes)). vm_compute. reflexivity.
  - apply H4. exists (table_of (high_delay sample_modes)). vm_compute. reflexivity.
  - apply H5. vm_compute. reflexivity.
Defined.

Lemma top_cat_seg_best_sellers_witness :
  top_cat_seg sample_clean = Ok sample_top
  /\ exists groups,
      cat_seg sample_clean = Ok groups
      /\ incl sample_top groups
      /\ ((List.length groups <= 15)%nat -> Permutation sample_top groups)
      /\ (forall shown hidden,
             In shown sample_top -> In hidden groups -> ~ In hidden sample_top ->
             (total_sales hidden <= total_sales shown)%Q).
Proof.
  assert (Ht : top_cat_seg sample_clean = Ok sample_top) by (vm_compute; reflexivity).
  split; [exact Ht|]. exact (top_cat_seg_best_sellers sample_clean sample_top Ht).
Defined.

Lemma build_keeps_source_values_witness :
  build_dataset_from iso_to_datetime sample_raw = Ok sample_clean
  /\ In ("Sales", RawNum [Some (100 # 1); Some (200 # 1); None; Some (300 # 1)])
        sample_raw
  /\ In ("sales", NumCol [Some (100 # 1); Some (200 # 1); Some (200 # 1); Some (300 # 1)])
        sample_clean.
Proof.
  assert (Hin : In ("Sales", RawNum [Some (100 # 1); Some (200 # 1); None; Some (300 # 1)])
                   sample_raw).
  { unfold sample_raw. simpl. tauto. }
  split; [exact sample_build|]. split; [exact Hin|].
  apply (build_keeps_source_values iso_to_datetime sample_raw sample_clean "Sales"
           (RawNum [Some (100 # 1); Some (200 # 1); None; Some (300 # 1)])
           sample_raw_labels_distinct sample_build Hin eq_refl).
  - discriminate.
  - discriminate.
  - discriminate.
  - vm_compute. intros E. discriminate E.
Defined.
